(** * Rewards redemption optimizer: valuation and ranking engine

    A shallow embedding of [redemption_optimizer/calculator.py],
    [route_optimizer.py], [amadeus_client.py] and [recommender.py], and
    the properties of the valuation model, the award-cost model, the
    route constructor, the route ranker and the recommendation
    aggregator.

    Number model.  Python [int] is [Z].  Python [float] is modelled by
    the exact rationals [Q]: every formula is transcribed operator by
    operator, and the rounding of binary64 arithmetic is not part of
    these definitions.  The properties stated over them are chosen
    among those that rounding preserves: transcribed formulas, orders
    that are not strict, membership, and bounds with a margin; what
    holds in exact arithmetic only is left out.  Where the rounding
    itself decides, the expression is evaluated in [binary64], the
    IEEE 754 arithmetic of the interpreter.
    Python [str] is [string], a sequence of bytes: an ASCII character
    is one byte, and the few non-ASCII characters of the source are
    their UTF-8 bytes.
    Dictionaries with a fixed set of keys are records; dictionaries used
    as lookup tables are [gmap]s; lists whose order matters are lists. *)

From Stdlib Require Import ZArith QArith Qabs Qminmax List String Ascii Bool Lia.
From Stdlib Require Import Permutation Sorted DecimalString DecimalPos Lqa.
From Stdlib Require SpecFloat.
From stdpp Require Import gmap strings.
Import ListNotations.

Local Open Scope string_scope.
Local Open Scope Z_scope.

(** ** Numbers *)

Module num.

(** [a < b] and [a <= b] on rationals, as booleans. *)
Definition Qleb (a b : Q) : bool := Qle_bool a b.
Definition Qltb (a b : Q) : bool := negb (Qle_bool b a).

(** [x // d]: Python floor division on integers ([d > 0] at every use). *)
Definition floordiv (x d : Z) : Z := x / d.

(** [str(n)] for an integer. *)
Definition str_of_Z (n : Z) : string :=
  NilZero.string_of_int (Z.to_int n).

(** Zero padding of a non-negative integer to [width] characters,
    as in the [%Y], [%m], [%d] fields of a date. *)
Fixpoint zeros (n : nat) : string :=
  match n with O => "" | S n' => String "0" (zeros n') end.

Definition pad (width : nat) (n : Z) : string :=
  let s := str_of_Z n in
  zeros (width - String.length s) ++ s.

End num.

(** ** Floats as the interpreter computes them *)

Module binary64.

(** IEEE 754 binary64: 53 bits of precision, round to nearest with ties
    to even. *)
Definition float : Type := SpecFloat.spec_float.
Definition prec : Z := 53.
Definition emax : Z := 1024.

(** The float nearest to [m * 2^e]. *)
Definition scaled (m e : Z) : float := SpecFloat.binary_normalize prec emax m e false.

(** [float(n)] for an integer within range, also the conversion of an
    [int] operand in mixed arithmetic. *)
Definition of_Z (n : Z) : float := scaled n 0.

Definition add : float -> float -> float := SpecFloat.SFadd prec emax.
Definition sub : float -> float -> float := SpecFloat.SFsub prec emax.
Definition mul : float -> float -> float := SpecFloat.SFmul prec emax.
Definition div : float -> float -> float := SpecFloat.SFdiv prec emax.
Definition ltb : float -> float -> bool := SpecFloat.SFltb.

(** A decimal literal [num / den] with [den] a power of ten, as [0.1]:
    the float nearest to the quotient. *)
Definition decimal (num den : Z) : float := div (of_Z num) (of_Z den).

End binary64.

(** ** Python's list operations *)

Module pylist.

Section sorting.
Context {A : Type}.

(** [l.sort(key=...)] is a stable sort.  [before y x] says that [y]
    has to stay in front of [x]; elements for which neither is
    before the other keep their input order. *)
Variable before : A -> A -> bool.

Fixpoint insert (x : A) (l : list A) : list A :=
  match l with
  | [] => [x]
  | y :: l' => if before y x then y :: insert x l' else x :: y :: l'
  end.

Fixpoint sort (l : list A) : list A :=
  match l with
  | [] => []
  | x :: l' => insert x (sort l')
  end.
End sorting.

(** The order that [sort] establishes: [a] may stand in front of [b]
    when [b] does not have to stay in front of [a]. *)
Definition may_precede {A} (before : A -> A -> bool) (a b : A) : Prop :=
  before b a = false.

(** [l.sort(key=key)]: ascending by [key]. *)
Definition sort_by {A} (key : A -> Q) (l : list A) : list A :=
  sort (fun y x => num.Qltb (key y) (key x)) l.

(** [l.sort(key=key, reverse=True)]: descending by [key], equal keys
    still in input order. *)
Definition sort_by_reverse {A} (key : A -> Q) (l : list A) : list A :=
  sort (fun y x => num.Qltb (key x) (key y)) l.

(** [max(l, key=key)] on a non-empty list: the first element whose
    key is maximal. *)
Fixpoint max_from {A} (key : A -> Q) (best : A) (l : list A) : A :=
  match l with
  | [] => best
  | x :: l' => max_from key (if num.Qltb (key best) (key x) then x else best) l'
  end.

Definition max_by {A} (key : A -> Q) (l : list A) : option A :=
  match l with
  | [] => None
  | x :: l' => Some (max_from key x l')
  end.

(** [sum(l)] of floats. *)
Definition sum (l : list Q) : Q := fold_left Qplus l 0%Q.

End pylist.

(** ** calculator.py *)

Module calculator.

(** [@dataclass RedemptionOption]. *)
Record RedemptionOption := {
  type : string;
  name : string;
  miles_cost : Z;
  cash_equivalent : Q;
  taxes_fees : Q;
  description : string
}.

(** [RedemptionOption.net_cash_value]. *)
Definition net_cash_value (self : RedemptionOption) : Q :=
  (cash_equivalent self - taxes_fees self)%Q.

(** [RedemptionOption.value_per_mile]. *)
Definition value_per_mile (self : RedemptionOption) : Q :=
  if miles_cost self <=? 0 then 0%Q
  else (net_cash_value self / inject_Z (miles_cost self) * 100)%Q.

(** [RedemptionCalculator]: its only attribute. *)
Record RedemptionCalculator := {
  minimum_value_threshold : Q
}.

(** [RedemptionCalculator.__init__]. *)
Definition init : RedemptionCalculator :=
  {| minimum_value_threshold := 5 # 10 |}.

(** The dictionaries returned by the three [calculate_*] methods.
    They share every key but two: the cost is stored under
    ['miles_cost'] or ['points_cost'], the value under
    ['value_per_mile'] or ['value_per_point'], and the cash amount
    under ['cash_price'] or ['giftcard_value'].  The two value keys
    are kept apart because [compare_redemptions] looks them up by
    name. *)
Record Calculation := {
  c_type : string;
  c_cost : Z;
  c_cash : Q;
  c_taxes_fees : Q;
  c_net_value : Q;
  c_value_per_mile : option Q;
  c_value_per_point : option Q;
  c_is_good_value : bool;
  c_savings_vs_cash : Q
}.

(** [calculate_flight_value]. *)
Definition calculate_flight_value (self : RedemptionCalculator)
    (miles_cost : Z) (cash_price taxes_fees : Q) : Calculation :=
  let net_value := (cash_price - taxes_fees)%Q in
  let value_per_mile :=
    if 0 <? miles_cost then (net_value / inject_Z miles_cost * 100)%Q else 0%Q in
  {| c_type := "flight";
     c_cost := miles_cost;
     c_cash := cash_price;
     c_taxes_fees := taxes_fees;
     c_net_value := net_value;
     c_value_per_mile := Some value_per_mile;
     c_value_per_point := None;
     c_is_good_value := num.Qleb (minimum_value_threshold self) value_per_mile;
     c_savings_vs_cash := net_value |}.

(** [calculate_hotel_value]; [taxes_fees] defaults to [0.0]. *)
Definition calculate_hotel_value (self : RedemptionCalculator)
    (points_cost : Z) (cash_price taxes_fees : Q) : Calculation :=
  let net_value := (cash_price - taxes_fees)%Q in
  let value_per_point :=
    if 0 <? points_cost then (net_value / inject_Z points_cost * 100)%Q else 0%Q in
  {| c_type := "hotel";
     c_cost := points_cost;
     c_cash := cash_price;
     c_taxes_fees := taxes_fees;
     c_net_value := net_value;
     c_value_per_mile := None;
     c_value_per_point := Some value_per_point;
     c_is_good_value := num.Qleb (minimum_value_threshold self) value_per_point;
     c_savings_vs_cash := net_value |}.

(** [calculate_giftcard_value]. *)
Definition calculate_giftcard_value (self : RedemptionCalculator)
    (points_cost : Z) (giftcard_value : Q) : Calculation :=
  let value_per_point :=
    if 0 <? points_cost then (giftcard_value / inject_Z points_cost * 100)%Q else 0%Q in
  {| c_type := "giftcard";
     c_cost := points_cost;
     c_cash := giftcard_value;
     c_taxes_fees := 0;
     c_net_value := giftcard_value;
     c_value_per_mile := None;
     c_value_per_point := Some value_per_point;
     c_is_good_value := num.Qleb (minimum_value_threshold self) value_per_point;
     c_savings_vs_cash := giftcard_value |}.

(** [calc_result.get('value_per_mile', calc_result.get('value_per_point', 0))]. *)
Definition calc_value (c : Calculation) : Q :=
  match c_value_per_mile c with
  | Some v => v
  | None => match c_value_per_point c with Some v => v | None => 0%Q end
  end.

(** One entry of the list built by [compare_redemptions]. *)
Record Comparison := {
  option : RedemptionOption;
  calculation : Calculation;
  value_per_unit : Q
}.

(** The body of the loop of [compare_redemptions] for one option:
    [None] is the [continue] of the last branch. *)
Definition compare_one (self : RedemptionCalculator) (o : RedemptionOption)
    : Datatypes.option Comparison :=
  let entry calc_result :=
    Some {| option := o; calculation := calc_result;
            value_per_unit := calc_value calc_result |} in
  if String.eqb (type o) "flight" then
    entry (calculate_flight_value self (miles_cost o) (cash_equivalent o) (taxes_fees o))
  else if String.eqb (type o) "hotel" then
    entry (calculate_hotel_value self (miles_cost o) (cash_equivalent o) (taxes_fees o))
  else if String.eqb (type o) "giftcard" then
    entry (calculate_giftcard_value self (miles_cost o) (cash_equivalent o))
  else None.

(** The list [comparisons] before it is sorted. *)
Fixpoint collect (self : RedemptionCalculator) (l : list RedemptionOption)
    : list Comparison :=
  match l with
  | [] => []
  | o :: l' =>
      match compare_one self o with
      | Some c => c :: collect self l'
      | None => collect self l'
      end
  end.

(** [get_value_rating]. *)
Definition get_value_rating (value_per_mile : Q) : string :=
  if num.Qleb 2 value_per_mile then "Excellent"
  else if num.Qleb (15 # 10) value_per_mile then "Good"
  else if num.Qleb 1 value_per_mile then "Fair"
  else "Poor".

(** The position of a rating on the scale from ["Poor"] to
    ["Excellent"]. *)
Definition rating_rank (rating : string) : Z :=
  if String.eqb rating "Excellent" then 3
  else if String.eqb rating "Good" then 2
  else if String.eqb rating "Fair" then 1
  else 0.

(** The option types that [compare_redemptions] has a branch for. *)
Definition supported (o : RedemptionOption) : bool :=
  String.eqb (type o) "flight" || String.eqb (type o) "hotel"
  || String.eqb (type o) "giftcard".

(** [compare_redemptions]. *)
Definition compare_redemptions (self : RedemptionCalculator)
    (redemption_options : list RedemptionOption) : list Comparison :=
  pylist.sort_by_reverse value_per_unit (collect self redemption_options).

End calculator.

(** ** The remote flight service as state

    The only effect of the modelled code is the request that
    [search_flights] sends to the remote service.  The state threaded
    through the code is the number of requests the service has received
    so far; a configured client answers a request according to that
    number and to the request, so that its answers may change from one
    call to the next. *)

Module service.

Definition M (A : Type) : Type := nat -> A * nat.

Definition ret {A} (a : A) : M A := fun t => (a, t).

Definition bind {A B} (m : M A) (k : A -> M B) : M B :=
  fun t => let '(a, t') := m t in k a t'.

Notation "'let*' x ':=' m 'in' k" := (bind m (fun x => k))
  (at level 10, x name, m at level 100, k at level 200).

(** A [for] loop that appends to a result list the value of each
    iteration that produces one. *)
Fixpoint for_each {A B} (body : A -> M (option B)) (l : list A) : M (list B) :=
  match l with
  | [] => ret []
  | x :: l' =>
      let* r := body x in
      let* rs := for_each body l' in
      ret (match r with Some b => b :: rs | None => rs end)
  end.

(** The result of [m] does not depend on the state of the service. *)
Definition independent {A} (m : M A) : Prop :=
  forall t t', fst (m t) = fst (m t').

End service.

(** ** amadeus_client.py *)

Module amadeus_client.

Import service.

(** [datetime.date], with the two renderings the code uses. *)
Record date := {
  year : Z;
  month : Z;
  day : Z
}.

(** [d.isoformat()]: the year is padded to four digits. *)
Definition isoformat (d : date) : string :=
  (num.pad 4 (year d) ++ "-" ++ num.pad 2 (month d) ++ "-" ++ num.pad 2 (day d))%string.

(** [d.strftime('%Y-%m-%d')]: the fields are written by the C library.
    With glibc [%Y] is the year without padding, so this rendering
    differs from [isoformat] for the years below 1000. *)
Definition strftime (d : date) : string :=
  (num.str_of_Z (year d) ++ "-" ++ num.pad 2 (month d) ++ "-" ++ num.pad 2 (day d))%string.

(** One element of [FlightOffer.segments]: the dictionary
    [{'departure': {'iataCode', 'at'}, 'arrival': {'iataCode', 'at'},
      'carrierCode', 'number'}]. *)
Record Segment := {
  departure_iataCode : string;
  departure_at : string;
  arrival_iataCode : string;
  arrival_at : string;
  carrierCode : string;
  number : string
}.

(** [@dataclass FlightOffer]. *)
Record FlightOffer := {
  id : string;
  origin : string;
  destination : string;
  departure_date : string;
  return_date : option string;
  price : Q;
  currency : string;
  airline : string;
  flight_number : string;
  duration : string;
  stops : Z;
  cabin_class : string;
  segments : list Segment
}.

(** The remote service, seen from [search_flights]: a request either
    yields offers (already turned into [FlightOffer]s by
    [_parse_flight_offers]) or raises. *)
Record Request := {
  originLocationCode : string;
  destinationLocationCode : string;
  departureDate : string;
  returnDate : option string;
  adults : Z;
  max : Z
}.

Inductive Response :=
| Offers (data : list FlightOffer)
| Raised.

(** [AmadeusClient]: [client] is [None] when no credentials are
    configured; otherwise it answers the request it receives as the
    [n]-th one. *)
Record AmadeusClient := {
  client : option (nat -> Request -> Response)
}.

(** An unchanged data source: no client at all, so that every search
    uses the mock offers, or a client whose answer to a request does
    not depend on when the request arrives (which includes the client
    that always raises, where every search falls back to the mock
    offers). *)
Definition steady (self : AmadeusClient) : Prop :=
  match client self with
  | None => True
  | Some get => forall n m request, get n request = get m request
  end.

(** The service is unavailable or failing: no client at all, or a
    client that raises on every request.  Every search then falls back
    to the mock offers. *)
Definition falls_back (self : AmadeusClient) : Prop :=
  match client self with
  | None => True
  | Some get => forall n request, get n request = Raised
  end.

(** [is_available]. *)
Definition is_available (self : AmadeusClient) : bool :=
  match client self with Some _ => true | None => false end.

(** The table of [AmadeusClient._calculate_distance]. *)
Definition distances : gmap (string * string) Z :=
  list_to_map
    [ (("JFK", "LAX"), 2475);
      (("JFK", "ORD"), 740);
      (("JFK", "ATL"), 760);
      (("JFK", "DFW"), 1389);
      (("LAX", "ORD"), 1744);
      (("LAX", "ATL"), 1947);
      (("LAX", "DFW"), 1235);
      (("ORD", "ATL"), 606);
      (("ORD", "DFW"), 802);
      (("ATL", "DFW"), 731) ].

(** [AmadeusClient._calculate_distance]. *)
Definition _calculate_distance (origin destination : string) : Z :=
  let route := (origin, destination) in
  let reverse_route := (destination, origin) in
  match distances !! route with
  | Some d => d
  | None =>
      match distances !! reverse_route with
      | Some d => d
      | None => 1000
      end
  end.

(** [_get_mock_flights]. *)
Definition _get_mock_flights (origin destination : string)
    (departure_date : date) (return_date : option date) : list FlightOffer :=
  let distance := _calculate_distance origin destination in
  let base_price := (inject_Z distance * (15 # 100))%Q in
  let day := strftime departure_date in
  [ {| id := "mock_1";
       origin := origin;
       destination := destination;
       departure_date := strftime departure_date;
       return_date := option_map strftime return_date;
       price := (base_price * (8 # 10))%Q;
       currency := "USD";
       airline := "AA";
       flight_number := "123";
       duration := ("PT" ++ num.str_of_Z (num.floordiv distance 500 + 1) ++ "H")%string;
       stops := 0;
       cabin_class := "ECONOMY";
       segments :=
         [ {| departure_iataCode := origin;
              departure_at := (day ++ "T10:00:00")%string;
              arrival_iataCode := destination;
              arrival_at := (day ++ "T13:00:00")%string;
              carrierCode := "AA";
              number := "123" |} ] |};
    {| id := "mock_2";
       origin := origin;
       destination := destination;
       departure_date := strftime departure_date;
       return_date := option_map strftime return_date;
       price := (base_price * (15 # 10))%Q;
       currency := "USD";
       airline := "DL";
       flight_number := "456";
       duration := ("PT" ++ num.str_of_Z (num.floordiv distance 500 + 1) ++ "H")%string;
       stops := 1;
       cabin_class := "PREMIUM_ECONOMY";
       segments :=
         [ {| departure_iataCode := origin;
              departure_at := (day ++ "T08:00:00")%string;
              arrival_iataCode := "ORD";
              arrival_at := (day ++ "T10:00:00")%string;
              carrierCode := "DL";
              number := "456" |};
           {| departure_iataCode := "ORD";
              departure_at := (day ++ "T11:30:00")%string;
              arrival_iataCode := destination;
              arrival_at := (day ++ "T14:30:00")%string;
              carrierCode := "DL";
              number := "789" |} ] |} ].

(** [search_flights]; [return_date] and [adults] keep their defaults
    ([None], [1]) at every call in this code base. *)
Definition search_flights (self : AmadeusClient) (origin destination : string)
    (departure_date : date) (max_offers : Z) : M (list FlightOffer) :=
  match client self with
  | None => ret (_get_mock_flights origin destination departure_date None)
  | Some get =>
      fun t =>
        match get t {| originLocationCode := origin;
                       destinationLocationCode := destination;
                       departureDate := strftime departure_date;
                       returnDate := None;
                       adults := 1;
                       max := max_offers |} with
        | Offers data => (data, S t)
        | Raised => (_get_mock_flights origin destination departure_date None, S t)
        end
  end.

End amadeus_client.

(** ** Python's string operations used by the duration parser *)

Module pystr.

(** Exceptions that the modelled calls can raise. *)
Inductive exn := ValueError | OverflowError.

(** A computation that returns a value or raises. *)
Inductive result (A : Type) :=
| Return (a : A)
| Raise (e : exn).
Arguments Return {A} a.
Arguments Raise {A} e.

Definition bind {A B} (r : result A) (k : A -> result B) : result B :=
  match r with
  | Return a => k a
  | Raise e => Raise e
  end.

Notation "'let!' x ':=' r 'in' k" := (bind r (fun x => k))
  (at level 10, x name, r at level 100, k at level 200).

(** [try: body  except: return default]. *)
Definition try_except {A} (body : result A) (default : A) : A :=
  match body with
  | Return a => a
  | Raise _ => default
  end.

(** [s.startswith(p)]. *)
Definition startswith (p s : string) : bool := String.prefix p s.

(** [s[n:]] for [n >= 0]. *)
Fixpoint drop (n : nat) (s : string) : string :=
  match n, s with
  | O, _ => s
  | S _, EmptyString => EmptyString
  | S n', String _ s' => drop n' s'
  end.

(** [c in s] for a one-character [c]. *)
Fixpoint contains (c : ascii) (s : string) : bool :=
  match s with
  | EmptyString => false
  | String a s' => if Ascii.eqb a c then true else contains c s'
  end.

(** [s.split(c)[0]]: what precedes the first [c], all of [s] if
    there is none. *)
Fixpoint split_head (c : ascii) (s : string) : string :=
  match s with
  | EmptyString => EmptyString
  | String a s' => if Ascii.eqb a c then EmptyString else String a (split_head c s')
  end.

(** White space that [int] ignores around a literal in an ASCII string:
    the six characters of C's [isspace], tab to carriage return and the
    space.  (The separators [0x1C] to [0x1F], which [str.isspace]
    accepts, are not among them.) *)
Definition is_space (c : ascii) : bool :=
  let n := nat_of_ascii c in
  ((9 <=? n) && (n <=? 13) || (n =? 32))%nat.


Definition is_digit (c : ascii) : bool :=
  let n := nat_of_ascii c in ((48 <=? n) && (n <=? 57))%nat.

Definition digit_value (c : ascii) : Z := Z.of_nat (nat_of_ascii c) - 48.

Fixpoint lstrip (l : list ascii) : list ascii :=
  match l with
  | c :: l' => if is_space c then lstrip l' else l
  | [] => []
  end.

Definition strip (l : list ascii) : list ascii :=
  rev (lstrip (rev (lstrip l))).

(** Decimal digits, with single underscores allowed between two
    digits.  [after_digit] tells whether the previous character was a
    digit. *)
Fixpoint digits (acc : Z) (after_digit : bool) (l : list ascii) : option Z :=
  match l with
  | [] => if after_digit then Some acc else None
  | c :: l' =>
      if is_digit c then digits (10 * acc + digit_value c) true l'
      else if Ascii.eqb c "_" then
        if after_digit then digits acc false l' else None
      else None
  end.


(** [int(s)] in base 10 on an ASCII string: optional surrounding white
    space, an optional sign, then digits.  Anything else raises
    [ValueError].  Two things are outside the model, and the properties
    below that depend on them say so in a hypothesis: a string with
    non-ASCII characters (where the interpreter also accepts the
    Unicode digits and spaces), and the interpreter's cap on the number
    of digits (4300 unless configured otherwise). *)
Definition int (s : string) : result Z :=
  let body := strip (list_ascii_of_string s) in
  let '(negative, ds) :=
    match body with
    | c :: ds' =>
        if Ascii.eqb c "-" then (true, ds')
        else if Ascii.eqb c "+" then (false, ds')
        else (false, body)
    | [] => (false, body)
    end in
  match digits 0 false ds with
  | Some n => Return (if negative then - n else n)
  | None => Raise ValueError
  end.

(** The integer nearest to [n] that binary64 holds: [n] itself up to 53
    bits, otherwise [n] rounded to 53 significant bits, a tie going to
    the even mantissa. *)
Definition round_binary64 (n : Z) : Z :=
  let a := Z.abs n in
  let shift := Z.log2 a - 52 in
  if shift <=? 0 then n
  else
    let q := a / 2 ^ shift in
    let r := a mod 2 ^ shift in
    let half := 2 ^ (shift - 1) in
    let q' := if (half <? r) || ((half =? r) && Z.odd q) then q + 1 else q in
    Z.sgn n * (q' * 2 ^ shift).

(** [float(n)] for an integer: the nearest binary64 value, and
    [OverflowError] when that lies beyond the largest float, that is
    from [2^1024 - 2^970] on. *)
Definition float (n : Z) : result Q :=
  if 2 ^ 1024 - 2 ^ 970 <=? Z.abs n then Raise OverflowError
  else Return (inject_Z (round_binary64 n)).

End pystr.

(** ** route_optimizer.py *)

Module route_optimizer.

Import pystr service.

(** [@dataclass FlightRoute].  Every route built in this module gets
    an explicit list of layover airports, so the field is a list. *)
Record FlightRoute := {
  origin : string;
  destination : string;
  route_type : string;
  total_miles : Z;
  total_fees : Q;
  segments : list amadeus_client.Segment;
  duration_hours : Q;
  layover_airports : list string;
  cash_price : Q;
  airline : string
}.

(** [FlightRoute.total_cost]. *)
Definition total_cost (self : FlightRoute) : Q :=
  (inject_Z (total_miles self) + total_fees self)%Q.

(** [sep.join(l)]. *)
Fixpoint join (sep : string) (l : list string) : string :=
  match l with
  | [] => ""
  | [x] => x
  | x :: l' => (x ++ sep ++ join sep l')%string
  end.

(** The separator of [route_description], byte for byte as the source
    file has it: between two spaces the three characters U+00E2, U+2020
    and U+2019 (a right arrow that went through the wrong code page),
    in UTF-8 as every string here. *)
Definition arrow : string := " â†’ ".

(** [FlightRoute.route_description]. *)
Definition route_description (self : FlightRoute) : string :=
  if String.eqb (route_type self) "direct" then
    (origin self ++ arrow ++ destination self)%string
  else
    join arrow ([origin self] ++ layover_airports self ++ [destination self])%list.

(** One award chart: the five zone prices. *)
Record Chart := {
  zone_1 : Z;
  zone_2 : Z;
  zone_3 : Z;
  zone_4 : Z;
  zone_5 : Z
}.

Record AwardCharts := {
  domestic : Chart;
  international : Chart
}.

(** [_load_award_charts]. *)
Definition _load_award_charts : AwardCharts :=
  {| domestic :=
       {| zone_1 := 7500; zone_2 := 12500; zone_3 := 20000;
          zone_4 := 25000; zone_5 := 35000 |};
     international :=
       {| zone_1 := 30000; zone_2 := 40000; zone_3 := 50000;
          zone_4 := 60000; zone_5 := 70000 |} |}.

(** [RouteOptimizer]. *)
Record RouteOptimizer := {
  major_hubs : list string;
  regional_hubs : list string;
  all_hubs : list string;
  amadeus_client : amadeus_client.AmadeusClient;
  award_charts : AwardCharts
}.

(** [RouteOptimizer.__init__], given the client to use. *)
Definition init (client : amadeus_client.AmadeusClient) : RouteOptimizer :=
  let major := ["ATL"; "DFW"; "ORD"; "LAX"; "JFK"; "LHR"; "CDG"; "NRT"; "HKG"; "SIN"] in
  let regional := ["DEN"; "MIA"; "SEA"; "SFO"; "BOS"; "IAH"; "MSP"; "DTW"; "PHX"; "LAS"] in
  {| major_hubs := major;
     regional_hubs := regional;
     all_hubs := (major ++ regional)%list;
     amadeus_client := client;
     award_charts := _load_award_charts |}.

(** The table of [RouteOptimizer._calculate_distance]. *)
Definition distances : gmap (string * string) Z :=
  list_to_map
    [ (("JFK", "LAX"), 2475);
      (("JFK", "ORD"), 740);
      (("JFK", "ATL"), 760);
      (("JFK", "DFW"), 1389);
      (("LAX", "ORD"), 1744);
      (("LAX", "ATL"), 1947);
      (("LAX", "DFW"), 1235);
      (("ORD", "ATL"), 606);
      (("ORD", "DFW"), 802);
      (("ATL", "DFW"), 731) ].

(** [_calculate_distance]. *)
Definition _calculate_distance (origin destination : string) : Z :=
  let route := (origin, destination) in
  let reverse_route := (destination, origin) in
  match distances !! route with
  | Some d => d
  | None =>
      match distances !! reverse_route with
      | Some d => d
      | None => 1000
      end
  end.

(** [_get_award_cost]; [is_international] defaults to [False]. *)
Definition _get_award_cost (self : RouteOptimizer) (origin destination : string)
    (is_international : bool) : Z :=
  let distance := _calculate_distance origin destination in
  if is_international then
    let chart := international (award_charts self) in
    if distance <? 2000 then zone_1 chart
    else if distance <? 4000 then zone_2 chart
    else if distance <? 6000 then zone_3 chart
    else if distance <? 8000 then zone_4 chart
    else zone_5 chart
  else
    let chart := domestic (award_charts self) in
    if distance <=? 500 then zone_1 chart
    else if distance <=? 1000 then zone_2 chart
    else if distance <=? 1500 then zone_3 chart
    else if distance <=? 2000 then zone_4 chart
    else zone_5 chart.

(** The body of [_parse_duration] inside its [try]. *)
Definition _parse_duration_body (duration_str : string) : result Q :=
  let duration_str :=
    if startswith "PT" duration_str then drop 2 duration_str else duration_str in
  let! hours :=
    if contains "H" duration_str then int (split_head "H" duration_str)
    else Return 0 in
  float hours.

(** [_parse_duration]: any exception yields the default [5.0]. *)
Definition _parse_duration (duration_str : string) : Q :=
  try_except (_parse_duration_body duration_str) 5%Q.

(** The body of the loop of [find_direct_routes] for one offer. *)
Definition direct_route (self : RouteOptimizer) (origin destination : string)
    (offer : amadeus_client.FlightOffer) : option FlightRoute :=
  if amadeus_client.stops offer =? 0 then
    let distance := _calculate_distance origin destination in
    let is_international := 2000 <? distance in
    let award_cost := _get_award_cost self origin destination is_international in
    let duration_hours := _parse_duration (amadeus_client.duration offer) in
    Some {| origin := origin;
            destination := destination;
            route_type := "direct";
            total_miles := award_cost;
            total_fees := 50;
            segments := amadeus_client.segments offer;
            duration_hours := duration_hours;
            layover_airports := [];
            cash_price := amadeus_client.price offer;
            airline := amadeus_client.airline offer |}
  else None.

(** [find_direct_routes]. *)
Definition find_direct_routes (self : RouteOptimizer) (origin destination : string)
    (travel_date : amadeus_client.date) : M (list FlightRoute) :=
  let* flight_offers :=
    amadeus_client.search_flights (amadeus_client self) origin destination travel_date 5 in
  ret (omap (direct_route self origin destination) flight_offers).

(** The route that [find_layover_routes] builds for a hub from the
    first offer of each leg. *)
Definition combine_legs (self : RouteOptimizer) (origin destination hub : string)
    (segment1 segment2 : amadeus_client.FlightOffer) : FlightRoute :=
  let segment1_cost := _get_award_cost self origin hub false in
  let segment2_cost := _get_award_cost self hub destination false in
  let total_miles := segment1_cost + segment2_cost in
  let total_fees := 75%Q in
  let duration1 := _parse_duration (amadeus_client.duration segment1) in
  let duration2 := _parse_duration (amadeus_client.duration segment2) in
  let total_duration := (duration1 + duration2 + 2)%Q in
  let combined_segments :=
    (amadeus_client.segments segment1 ++ amadeus_client.segments segment2)%list in
  {| origin := origin;
     destination := destination;
     route_type := "layover";
     total_miles := total_miles;
     total_fees := total_fees;
     segments := combined_segments;
     duration_hours := total_duration;
     layover_airports := [hub];
     cash_price := (amadeus_client.price segment1 + amadeus_client.price segment2)%Q;
     airline := (amadeus_client.airline segment1 ++ "/"
                 ++ amadeus_client.airline segment2)%string |}.

(** The body of the loop of [find_layover_routes] for one hub: [None]
    when the hub is skipped or a leg has no offer. *)
Definition layover_route (self : RouteOptimizer) (origin destination : string)
    (travel_date : amadeus_client.date) (hub : string) : M (option FlightRoute) :=
  if String.eqb hub origin || String.eqb hub destination then ret None
  else
    let* segment1_offers :=
      amadeus_client.search_flights (amadeus_client self) origin hub travel_date 1 in
    let* segment2_offers :=
      amadeus_client.search_flights (amadeus_client self) hub destination travel_date 1 in
    ret match segment1_offers, segment2_offers with
        | segment1 :: _, segment2 :: _ =>
            Some (combine_legs self origin destination hub segment1 segment2)
        | _, _ => None
        end.

(** [find_layover_routes]; [hub_airports = None] selects the first
    three major hubs. *)
Definition find_layover_routes (self : RouteOptimizer) (origin destination : string)
    (travel_date : amadeus_client.date) (hub_airports : option (list string))
    : M (list FlightRoute) :=
  let hub_airports :=
    match hub_airports with
    | None => firstn 3 (major_hubs self)
    | Some l => l
    end in
  for_each (layover_route self origin destination travel_date) hub_airports.

(** The dictionary returned by [calculate_synthetic_savings]. *)
Record Savings := {
  direct_cost : Q;
  layover_cost : Q;
  savings : Q;
  savings_percentage : Q;
  is_worthwhile : bool
}.

(** [calculate_synthetic_savings]. *)
Definition calculate_synthetic_savings (direct_cost layover_cost : Q) : Savings :=
  let savings := (direct_cost - layover_cost)%Q in
  let savings_percentage :=
    if num.Qltb 0 direct_cost then (savings / direct_cost * 100)%Q else 0%Q in
  {| direct_cost := direct_cost;
     layover_cost := layover_cost;
     savings := savings;
     savings_percentage := savings_percentage;
     is_worthwhile := num.Qltb 0 savings && num.Qltb 10 savings_percentage |}.

(** One [value_analysis] dictionary of [rank_routes_by_value]. *)
Record ValueAnalysis := {
  route : FlightRoute;
  va_total_cost : Q;
  cost_per_mile : Q;
  efficiency_score : Q;
  complexity_penalty : Q;
  final_score : Q
}.

(** The body of the loop of [rank_routes_by_value]. *)
Definition value_analysis (route : FlightRoute) : ValueAnalysis :=
  let efficiency_score :=
    if num.Qltb 0 (total_cost route) then (1000 / total_cost route)%Q else 0%Q in
  let complexity_penalty :=
    (inject_Z (Z.of_nat (length (segments route))) * (1 # 10))%Q in
  {| route := route;
     va_total_cost := total_cost route;
     cost_per_mile :=
       if num.Qltb 0 (duration_hours route)
       then (inject_Z (total_miles route) / duration_hours route)%Q else 0%Q;
     efficiency_score := efficiency_score;
     complexity_penalty := complexity_penalty;
     final_score := (efficiency_score - complexity_penalty)%Q |}.

(** [total_cost] and [final_score] once more, as the interpreter
    computes them: the same expressions in binary64, for a route with
    the given miles (an [int]), fees (a [float]) and number of
    segments. *)
Definition total_cost_binary64 (total_miles : Z) (total_fees : binary64.float) :
    binary64.float :=
  binary64.add (binary64.of_Z total_miles) total_fees.

Definition final_score_binary64 (total_miles : Z) (total_fees : binary64.float)
    (segments : nat) : binary64.float :=
  let total_cost := total_cost_binary64 total_miles total_fees in
  let efficiency_score :=
    if binary64.ltb (binary64.of_Z 0) total_cost
    then binary64.div (binary64.of_Z 1000) total_cost
    else binary64.of_Z 0 in
  let complexity_penalty :=
    binary64.mul (binary64.of_Z (Z.of_nat segments)) (binary64.decimal 1 10) in
  binary64.sub efficiency_score complexity_penalty.

(** [rank_routes_by_value]. *)
Definition rank_routes_by_value (routes_list : list FlightRoute) : list ValueAnalysis :=
  pylist.sort_by_reverse final_score (map value_analysis routes_list).

(** One entry of [savings_opportunities]. *)
Record Opportunity := {
  layover_route_of : FlightRoute;
  savings_analysis : Savings
}.

(** The dictionary returned by [find_optimal_routes]: the counters are
    present when some route was found, the message when none was. *)
Record OptimalRoutes := {
  routes : list ValueAnalysis;
  best_route : option ValueAnalysis;
  savings_opportunities : list Opportunity;
  message : option string;
  counts : option (Z * Z * Z)
}.

(** The loop of [find_optimal_routes] that collects the worthwhile
    layover routes. *)
Definition opportunities (direct_routes layover_routes : list FlightRoute)
    : list Opportunity :=
  match direct_routes, layover_routes with
  | first_direct :: _, _ :: _ =>
      let direct_cost := total_cost first_direct in
      omap (fun layover_route =>
              let savings := calculate_synthetic_savings direct_cost (total_cost layover_route) in
              if is_worthwhile savings
              then Some {| layover_route_of := layover_route; savings_analysis := savings |}
              else None)
           layover_routes
  | _, _ => []
  end.

(** [find_optimal_routes]; [max_routes] defaults to [5]. *)
Definition find_optimal_routes (self : RouteOptimizer) (origin destination : string)
    (travel_date : amadeus_client.date) (max_routes : nat) : M OptimalRoutes :=
  let* direct_routes := find_direct_routes self origin destination travel_date in
  let* layover_routes := find_layover_routes self origin destination travel_date None in
  let all_routes := (direct_routes ++ layover_routes)%list in
  ret match all_routes with
      | [] =>
          {| routes := [];
             best_route := None;
             savings_opportunities := [];
             message := Some "No routes available for the specified criteria.";
             counts := None |}
      | _ :: _ =>
          let ranked_routes := rank_routes_by_value all_routes in
          let top_routes := firstn max_routes ranked_routes in
          {| routes := top_routes;
             best_route := head top_routes;
             savings_opportunities := opportunities direct_routes layover_routes;
             message := None;
             counts := Some (Z.of_nat (length all_routes),
                             Z.of_nat (length direct_routes),
                             Z.of_nat (length layover_routes)) |}
      end.

End route_optimizer.

(** ** recommender.py *)

Module recommender.

Import service.

(** [@dataclass UserPreferences]. *)
Record UserPreferences := {
  maximize_value : bool;
  minimize_fees : bool;
  prefer_direct_flights : bool;
  max_layovers : Z;
  hotel_preference : string;
  include_alternatives : bool;
  min_value_per_mile : Q
}.

(** [UserPreferences()]: the defaults. *)
Definition default_preferences : UserPreferences :=
  {| maximize_value := true;
     minimize_fees := false;
     prefer_direct_flights := true;
     max_layovers := 1;
     hotel_preference := "any";
     include_alternatives := true;
     min_value_per_mile := 1 |}.

(** What is specific to one kind of option dictionary. *)
Inductive Detail :=
| Flight (subtype route : string) (duration_hours : Q)
    (segments : list amadeus_client.Segment) (airline : string)
| Hotel (chain category location : string)
| Giftcard (merchant : string)
| StatementCredit (program : string).

(** An option dictionary of the pool.  The cost is stored under
    ['cost_miles'] (flights) or ['cost_points']; the value under
    ['value_per_mile'] (flights) or ['value_per_point'], and the two
    keys are kept apart because the aggregator looks them up by name
    with a default. *)
Record Option := {
  type : string;
  detail : Detail;
  cost : Z;
  cash_equivalent : Q;
  fees : Q;
  value_per_mile : option Q;
  value_per_point : option Q;
  savings_vs_cash : Q;
  is_affordable : bool
}.

(** [x.get('value_per_mile', x.get('value_per_point', 0))]. *)
Definition value_of (x : Option) : Q :=
  match value_per_mile x with
  | Some v => v
  | None => match value_per_point x with Some v => v | None => 0%Q end
  end.

(** [x['value_per_point']] on the hotel dictionaries, which all have
    the key. *)
Definition point_value (x : Option) : Q :=
  match value_per_point x with Some v => v | None => 0%Q end.

(** One cell of the hotel table and of the gift card table. *)
Record Award := {
  points : Z;
  cash_value : Z
}.

(** [alternative_data]; the ['transfers'] table is never read. *)
Record AlternativeData := {
  gift_cards : list (string * Award);
  transfers : list (string * (Q * Q));
  statement_credits : list (string * Q)
}.

(** [RedemptionRecommender].  The tables are dictionaries that the
    code only iterates, in insertion order: association lists. *)
Record RedemptionRecommender := {
  calculator : calculator.RedemptionCalculator;
  amadeus_client : amadeus_client.AmadeusClient;
  route_optimizer : route_optimizer.RouteOptimizer;
  hotel_data : list (string * list (string * Award));
  alternative_data : AlternativeData
}.

(** [_load_hotel_data]. *)
Definition _load_hotel_data : list (string * list (string * Award)) :=
  let cell p c := {| points := p; cash_value := c |} in
  [ ("marriott",
     [ ("category_1", cell 7500 75); ("category_2", cell 12500 125);
       ("category_3", cell 17500 175); ("category_4", cell 25000 250);
       ("category_5", cell 35000 350); ("category_6", cell 50000 500);
       ("category_7", cell 70000 700); ("category_8", cell 100000 1000) ]);
    ("hilton",
     [ ("category_1", cell 10000 60); ("category_2", cell 20000 120);
       ("category_3", cell 30000 180); ("category_4", cell 40000 240);
       ("category_5", cell 50000 300); ("category_6", cell 60000 360);
       ("category_7", cell 70000 420); ("category_8", cell 80000 480) ]);
    ("hyatt",
     [ ("category_1", cell 3500 70); ("category_2", cell 6500 130);
       ("category_3", cell 9000 180); ("category_4", cell 12000 240);
       ("category_5", cell 17000 340); ("category_6", cell 21000 420);
       ("category_7", cell 25000 500); ("category_8", cell 30000 600) ]) ].

(** [_load_alternative_data]. *)
Definition _load_alternative_data : AlternativeData :=
  let cell p c := {| points := p; cash_value := c |} in
  {| gift_cards :=
       [ ("amazon", cell 10000 100); ("target", cell 10000 100);
         ("walmart", cell 10000 100); ("starbucks", cell 10000 100);
         ("uber", cell 10000 100) ];
     transfers :=
       [ ("chase_ur_to_hyatt", (1, 25 # 100)%Q);
         ("chase_ur_to_marriott", (1, 0)%Q);
         ("amex_mr_to_hilton", (1, 0)%Q);
         ("amex_mr_to_marriott", (1, 0)%Q) ];
     statement_credits :=
       [ ("chase_pay_yourself_back", (125 # 100)%Q);
         ("amex_statement_credit", (6 # 10)%Q) ] |}.

(** [RedemptionRecommender.__init__], given the client to use. *)
Definition init (client : amadeus_client.AmadeusClient) : RedemptionRecommender :=
  {| calculator := calculator.init;
     amadeus_client := client;
     route_optimizer := route_optimizer.init client;
     hotel_data := _load_hotel_data;
     alternative_data := _load_alternative_data |}.

(** The body of the loop of [get_flight_options]. *)
Definition flight_option (self : RedemptionRecommender) (available_miles : Z)
    (route_analysis : route_optimizer.ValueAnalysis) : option Option :=
  let route := route_optimizer.route route_analysis in
  if route_optimizer.total_miles route <=? available_miles then
    let cash_price :=
      if num.Qltb 0 (route_optimizer.cash_price route)
      then route_optimizer.cash_price route
      else (inject_Z (route_optimizer.total_miles route) * (2 # 100))%Q in
    let value_calc :=
      calculator.calculate_flight_value (calculator self)
        (route_optimizer.total_miles route) cash_price (route_optimizer.total_fees route) in
    Some {| type := "flight";
            detail := Flight (route_optimizer.route_type route)
                             (route_optimizer.route_description route)
                             (route_optimizer.duration_hours route)
                             (route_optimizer.segments route)
                             (route_optimizer.airline route);
            cost := route_optimizer.total_miles route;
            cash_equivalent := calculator.c_cash value_calc;
            fees := route_optimizer.total_fees route;
            value_per_mile := calculator.c_value_per_mile value_calc;
            value_per_point := None;
            savings_vs_cash := calculator.c_savings_vs_cash value_calc;
            is_affordable := true |}
  else None.

(** [get_flight_options]. *)
Definition get_flight_options (self : RedemptionRecommender)
    (origin destination : string) (travel_date : amadeus_client.date)
    (available_miles : Z) : M (list Option) :=
  let* route_results :=
    route_optimizer.find_optimal_routes (route_optimizer self)
      origin destination travel_date 5 in
  ret (omap (flight_option self available_miles) (route_optimizer.routes route_results)).

(** The body of the inner loop of [get_hotel_options]. *)
Definition hotel_option (self : RedemptionRecommender) (destination : string)
    (available_points : Z) (chain : string) (entry : string * Award) : option Option :=
  let '(category, data) := entry in
  if points data <=? available_points then
    let value_calc :=
      calculator.calculate_hotel_value (calculator self)
        (points data) (inject_Z (cash_value data)) 0 in
    Some {| type := "hotel";
            detail := Hotel chain category destination;
            cost := points data;
            cash_equivalent := inject_Z (cash_value data);
            fees := 0;
            value_per_mile := None;
            value_per_point := calculator.c_value_per_point value_calc;
            savings_vs_cash := calculator.c_savings_vs_cash value_calc;
            is_affordable := true |}
  else None.

(** [get_hotel_options]; the preferences are not consulted. *)
Definition get_hotel_options (self : RedemptionRecommender) (destination : string)
    (available_points : Z) (preferences : UserPreferences) : list Option :=
  let hotel_options :=
    flat_map (fun '(chain, categories) =>
                omap (hotel_option self destination available_points chain) categories)
             (hotel_data self) in
  firstn 5 (pylist.sort_by_reverse point_value hotel_options).

(** The body of the gift card loop of [get_alternative_redemptions]. *)
Definition giftcard_option (self : RedemptionRecommender) (available_points : Z)
    (entry : string * Award) : option Option :=
  let '(merchant, data) := entry in
  if points data <=? available_points then
    let value_calc :=
      calculator.calculate_giftcard_value (calculator self)
        (points data) (inject_Z (cash_value data)) in
    Some {| type := "giftcard";
            detail := Giftcard merchant;
            cost := points data;
            cash_equivalent := inject_Z (cash_value data);
            fees := 0;
            value_per_mile := None;
            value_per_point := calculator.c_value_per_point value_calc;
            savings_vs_cash := calculator.c_savings_vs_cash value_calc;
            is_affordable := true |}
  else None.

(** The body of the statement credit loop. *)
Definition statement_credit_option (available_points : Z)
    (entry : string * Q) : option Option :=
  let '(program, data_value_per_point) := entry in
  let points_required := 10000 in
  if points_required <=? available_points then
    let cash_value := (inject_Z points_required * data_value_per_point / 100)%Q in
    Some {| type := "statement_credit";
            detail := StatementCredit program;
            cost := points_required;
            cash_equivalent := cash_value;
            fees := 0;
            value_per_mile := None;
            value_per_point := Some data_value_per_point;
            savings_vs_cash := cash_value;
            is_affordable := true |}
  else None.

(** [get_alternative_redemptions]. *)
Definition get_alternative_redemptions (self : RedemptionRecommender)
    (available_points : Z) : list Option :=
  (omap (giftcard_option self available_points) (gift_cards (alternative_data self))
   ++ omap (statement_credit_option available_points)
        (statement_credits (alternative_data self)))%list.

(** The ['summary'] and ['search_criteria'] dictionaries. *)
Record Summary := {
  total_options_found : Z;
  affordable_options : Z;
  recommendations_generated : Z;
  average_value_per_mile : Q
}.

Record SearchCriteria := {
  sc_origin : string;
  sc_destination : string;
  sc_travel_date : string;
  sc_available_miles : Z;
  sc_maximize_value : bool;
  sc_minimize_fees : bool;
  sc_include_alternatives : bool
}.

(** The dictionary returned by [generate_recommendations]. *)
Record RecommendationResult := {
  recommendations : list Option;
  best_overall : option Option;
  best_value_per_mile : option Option;
  summary : Summary;
  search_criteria : SearchCriteria
}.

(** [all_options] of [generate_recommendations]: the merged pool. *)
Definition all_options (self : RedemptionRecommender)
    (origin_airport destination_airport : string) (travel_date : amadeus_client.date)
    (available_miles : Z) (user_preferences : UserPreferences) : M (list Option) :=
  let* flight_options :=
    get_flight_options self origin_airport destination_airport travel_date available_miles in
  let hotel_options :=
    get_hotel_options self destination_airport available_miles user_preferences in
  let alternative_options :=
    if include_alternatives user_preferences
    then get_alternative_redemptions self available_miles
    else [] in
  ret (flight_options ++ hotel_options ++ alternative_options)%list.

(** The two [sort] calls of [generate_recommendations]; without either
    flag the list is left as it is. *)
Definition order (user_preferences : UserPreferences) (filtered_options : list Option)
    : list Option :=
  if maximize_value user_preferences then
    pylist.sort_by_reverse value_of filtered_options
  else if minimize_fees user_preferences then
    pylist.sort_by fees filtered_options
  else filtered_options.

(** [user_preferences] of [generate_recommendations] after the
    [is None] test. *)
Definition preferences_or_default (user_preferences : option UserPreferences)
    : UserPreferences :=
  match user_preferences with
  | None => default_preferences
  | Some p => p
  end.

(** What [generate_recommendations] does with the merged pool. *)
Definition select (origin_airport destination_airport : string)
    (travel_date : amadeus_client.date) (available_miles : Z)
    (user_preferences : UserPreferences) (all_options : list Option)
    : RecommendationResult :=
  let filtered_options :=
    List.filter
      (fun option => num.Qleb (min_value_per_mile user_preferences) (value_of option))
      all_options in
  let filtered_options := order user_preferences filtered_options in
  let top_recommendations := firstn 5 filtered_options in
  let best_overall := head top_recommendations in
  let best_value_per_mile := pylist.max_by value_of top_recommendations in
  let total_options_found := Z.of_nat (length all_options) in
  let affordable_options := Z.of_nat (length (List.filter is_affordable all_options)) in
  {| recommendations := top_recommendations;
     best_overall := best_overall;
     best_value_per_mile := best_value_per_mile;
     summary :=
       {| total_options_found := total_options_found;
          affordable_options := affordable_options;
          recommendations_generated := Z.of_nat (length top_recommendations);
          average_value_per_mile :=
            match top_recommendations with
            | [] => 0%Q
            | _ :: _ =>
                (pylist.sum (map value_of top_recommendations)
                 / inject_Z (Z.of_nat (length top_recommendations)))%Q
            end |};
     search_criteria :=
       {| sc_origin := origin_airport;
          sc_destination := destination_airport;
          sc_travel_date := amadeus_client.isoformat travel_date;
          sc_available_miles := available_miles;
          sc_maximize_value := maximize_value user_preferences;
          sc_minimize_fees := minimize_fees user_preferences;
          sc_include_alternatives := include_alternatives user_preferences |} |}.

(** [generate_recommendations]. *)
Definition generate_recommendations (self : RedemptionRecommender)
    (origin_airport destination_airport : string) (travel_date : amadeus_client.date)
    (available_miles : Z) (user_preferences : option UserPreferences)
    : M RecommendationResult :=
  let user_preferences := preferences_or_default user_preferences in
  let* all_options :=
    all_options self origin_airport destination_airport travel_date
      available_miles user_preferences in
  ret (select origin_airport destination_airport travel_date available_miles
         user_preferences all_options).

End recommender.

(** * Properties *)

(** ** Rational comparisons *)

Lemma Qleb_le (a b : Q) : num.Qleb a b = true <-> (a <= b)%Q.
Proof. apply Qle_bool_iff. Qed.

Lemma Qltb_lt (a b : Q) : num.Qltb a b = true <-> (a < b)%Q.
Proof.
  unfold num.Qltb. rewrite negb_true_iff, <- not_true_iff_false, Qle_bool_iff.
  split; [apply Qnot_le_lt | apply Qlt_not_le].
Qed.

Lemma Qltb_ge (a b : Q) : num.Qltb a b = false <-> (b <= a)%Q.
Proof.
  unfold num.Qltb. rewrite negb_false_iff. apply Qle_bool_iff.
Qed.

(** ** The stable sort *)

Lemma StronglySorted_weaken {A} (R R' : A -> A -> Prop) (l : list A) :
  (forall a b, R a b -> R' a b) -> StronglySorted R l -> StronglySorted R' l.
Proof.
  intros HR. induction 1 as [|x l Hl IH Hx]; constructor; [assumption|].
  eapply List.Forall_impl; [|exact Hx]. intros b. apply HR.
Qed.

Section sort_facts.
Context {A : Type} (before : A -> A -> bool).

Lemma insert_Permutation (x : A) (l : list A) :
  Permutation (pylist.insert before x l) (x :: l).
Proof.
  induction l as [|y l IH]; simpl; [reflexivity|].
  destruct (before y x); [|reflexivity].
  rewrite IH. apply perm_swap.
Qed.

Lemma sort_Permutation (l : list A) : Permutation (pylist.sort before l) l.
Proof.
  induction l as [|x l IH]; simpl; [reflexivity|].
  rewrite insert_Permutation. now apply perm_skip.
Qed.

Local Abbreviation may_precede := (pylist.may_precede before).

Hypothesis before_asym : forall a b, before a b = true -> before b a = false.
Hypothesis may_precede_trans :
  forall a b c, may_precede a b -> may_precede b c -> may_precede a c.

Lemma insert_sorted (x : A) (l : list A) :
  StronglySorted may_precede l -> StronglySorted may_precede (pylist.insert before x l).
Proof.
  induction 1 as [|y l Hl IH Hy]; simpl.
  - repeat constructor.
  - destruct (before y x) eqn:E.
    + constructor; [assumption|].
      apply List.Forall_forall. intros z Hz.
      apply (Permutation_in _ (insert_Permutation x l)) in Hz.
      destruct Hz as [<-|Hz].
      * now apply before_asym.
      * rewrite List.Forall_forall in Hy. now apply Hy.
    + constructor; [now constructor|].
      constructor; [exact E|].
      apply List.Forall_forall. intros z Hz.
      rewrite List.Forall_forall in Hy.
      apply (may_precede_trans x y z); [exact E | now apply Hy].
Qed.

Lemma sort_sorted (l : list A) : StronglySorted may_precede (pylist.sort before l).
Proof.
  induction l as [|x l IH]; simpl; [constructor | now apply insert_sorted].
Qed.
End sort_facts.

Section sort_stable.
Context {A : Type} (before : A -> A -> bool) (P : A -> bool).

(** Two elements selected by [P] are never ordered by [before]. *)
Hypothesis same_class : forall x y, P x = true -> P y = true -> before y x = false.

Lemma insert_filter_out (x : A) (l : list A) :
  P x = false -> List.filter P (pylist.insert before x l) = List.filter P l.
Proof.
  intros Hx. induction l as [|y l IH]; simpl.
  - now rewrite Hx.
  - destruct (before y x); simpl.
    + rewrite IH. reflexivity.
    + now rewrite Hx.
Qed.

Lemma insert_filter (x : A) (l : list A) :
  List.filter P (pylist.insert before x l) = List.filter P (x :: l).
Proof.
  destruct (P x) eqn:Hx.
  - induction l as [|y l IH]; simpl.
    + now rewrite Hx.
    + destruct (before y x) eqn:E.
      * destruct (P y) eqn:Hy.
        -- now rewrite (same_class x y Hx Hy) in E.
        -- simpl. rewrite Hy, IH. simpl. now rewrite Hx.
      * simpl. now rewrite Hx.
  - simpl. rewrite Hx. now apply insert_filter_out.
Qed.

Lemma sort_filter (l : list A) :
  List.filter P (pylist.sort before l) = List.filter P l.
Proof.
  induction l as [|x l IH]; simpl; [reflexivity|].
  rewrite insert_filter. simpl. now rewrite IH.
Qed.
End sort_stable.

Section sort_keys.
Context {A : Type} (key : A -> Q).

Lemma sort_by_reverse_Permutation (l : list A) :
  Permutation (pylist.sort_by_reverse key l) l.
Proof. apply sort_Permutation. Qed.

Lemma sort_by_Permutation (l : list A) : Permutation (pylist.sort_by key l) l.
Proof. apply sort_Permutation. Qed.

Lemma sort_by_reverse_sorted (l : list A) :
  StronglySorted (fun a b => (key b <= key a)%Q) (pylist.sort_by_reverse key l).
Proof.
  unfold pylist.sort_by_reverse.
  apply StronglySorted_weaken
    with (R := pylist.may_precede (fun y x => num.Qltb (key x) (key y)));
    [| apply sort_sorted].
  - intros a b H. unfold pylist.may_precede in H. now apply Qltb_ge in H.
  - intros a b H. apply Qltb_lt in H. apply Qltb_ge. now apply Qlt_le_weak.
  - unfold pylist.may_precede. intros a b c H1 H2.
    apply Qltb_ge in H1, H2. apply Qltb_ge. now apply Qle_trans with (key b).
Qed.

Lemma sort_by_sorted (l : list A) :
  StronglySorted (fun a b => (key a <= key b)%Q) (pylist.sort_by key l).
Proof.
  unfold pylist.sort_by.
  apply StronglySorted_weaken
    with (R := pylist.may_precede (fun y x => num.Qltb (key y) (key x)));
    [| apply sort_sorted].
  - intros a b H. unfold pylist.may_precede in H. now apply Qltb_ge in H.
  - intros a b H. apply Qltb_lt in H. apply Qltb_ge. now apply Qlt_le_weak.
  - unfold pylist.may_precede. intros a b c H1 H2.
    apply Qltb_ge in H1, H2. apply Qltb_ge. now apply Qle_trans with (key b).
Qed.

(** Stability: the elements with a given key come out in the order in
    which they went in. *)
Lemma sort_by_reverse_stable (v : Q) (l : list A) :
  List.filter (fun x => Qeq_bool (key x) v) (pylist.sort_by_reverse key l)
  = List.filter (fun x => Qeq_bool (key x) v) l.
Proof.
  apply sort_filter. intros x y Hx Hy.
  apply Qeq_bool_iff in Hx, Hy. apply Qltb_ge.
  rewrite Hx, Hy. apply Qle_refl.
Qed.

Lemma sort_by_stable (v : Q) (l : list A) :
  List.filter (fun x => Qeq_bool (key x) v) (pylist.sort_by key l)
  = List.filter (fun x => Qeq_bool (key x) v) l.
Proof.
  apply sort_filter. intros x y Hx Hy.
  apply Qeq_bool_iff in Hx, Hy. apply Qltb_ge.
  rewrite Hx, Hy. apply Qle_refl.
Qed.

Lemma max_from_spec (best : A) (l : list A) :
  In (pylist.max_from key best l) (best :: l) /\
  forall x, In x (best :: l) -> (key x <= key (pylist.max_from key best l))%Q.
Proof.
  revert best. induction l as [|y l IH]; intros best; simpl.
  - split; [now left|]. intros x [<-|[]]. apply Qle_refl.
  - destruct (IH (if num.Qltb (key best) (key y) then y else best)) as [Hin Hmax].
    split.
    + destruct Hin as [Hin|Hin]; [|now right; right].
      rewrite <- Hin. destruct (num.Qltb (key best) (key y)); [right|]; now left.
    + intros x Hx.
      destruct (num.Qltb (key best) (key y)) eqn:E.
      * destruct Hx as [<-|Hx]; [|now apply Hmax].
        apply Qltb_lt in E. apply Qle_trans with (key y).
        -- now apply Qlt_le_weak.
        -- apply Hmax. now left.
      * destruct Hx as [<-|[<-|Hx]].
        -- apply Hmax. now left.
        -- apply Qltb_ge in E. apply Qle_trans with (key best); [exact E|].
           apply Hmax. now left.
        -- apply Hmax. now right.
Qed.

Lemma max_by_spec (l : list A) :
  match pylist.max_by key l with
  | None => l = []
  | Some b => In b l /\ forall x, In x l -> (key x <= key b)%Q
  end.
Proof.
  destruct l as [|x l]; simpl; [reflexivity | apply max_from_spec].
Qed.
End sort_keys.

(** ** ValuationModel *)

Lemma Qdiv_mult_nonneg (a : Q) (m : Z) :
  (0 <= a)%Q -> 0 < m -> (0 <= a / inject_Z m * 100)%Q.
Proof.
  intros Ha Hm.
  apply Qmult_le_0_compat; [|discriminate].
  apply Qle_shift_div_l.
  - change 0%Q with (inject_Z 0). rewrite <- Zlt_Qlt. exact Hm.
  - now rewrite Qmult_0_l.
Qed.

(** C1, as the code has it: for a positive cost the value per unit is
    [(cash_price - taxes_fees) / units_cost * 100] without any clamping,
    hence non-negative when the fees do not exceed the cash price; for a
    cost of zero or less it is [0].  The same holds for the
    [value_per_mile] property of [RedemptionOption]. *)
Theorem calculate_flight_value_per_unit
    (self : calculator.RedemptionCalculator) (units_cost : Z) (cash_price taxes_fees : Q)
    (o : calculator.RedemptionOption) :
  let r := calculator.calculate_flight_value self units_cost cash_price taxes_fees in
  (0 < units_cost ->
     calculator.c_value_per_mile r
     = Some ((cash_price - taxes_fees) / inject_Z units_cost * 100)%Q) /\
  (0 < units_cost -> (taxes_fees <= cash_price)%Q -> (0 <= calculator.calc_value r)%Q) /\
  (units_cost <= 0 -> calculator.c_value_per_mile r = Some 0%Q) /\
  (0 < calculator.miles_cost o ->
     calculator.value_per_mile o
     = ((calculator.cash_equivalent o - calculator.taxes_fees o)
        / inject_Z (calculator.miles_cost o) * 100)%Q) /\
  (0 < calculator.miles_cost o ->
     (calculator.taxes_fees o <= calculator.cash_equivalent o)%Q ->
     (0 <= calculator.value_per_mile o)%Q) /\
  (calculator.miles_cost o <= 0 -> calculator.value_per_mile o = 0%Q).
Proof.
  cbv zeta. unfold calculator.calc_value, calculator.value_per_mile,
    calculator.net_cash_value. simpl.
  repeat split.
  - intros H. apply Z.ltb_lt in H. now rewrite H.
  - intros H Hle. pose proof H as Hb. apply Z.ltb_lt in Hb. rewrite Hb.
    apply Qdiv_mult_nonneg; [|exact H].
    apply Qle_minus_iff in Hle. exact Hle.
  - intros H. apply Z.ltb_ge in H. now rewrite H.
  - intros H. apply Z.leb_gt in H. now rewrite H.
  - intros H Hle. pose proof H as Hb. apply Z.leb_gt in Hb. rewrite Hb.
    apply Qdiv_mult_nonneg; [|exact H].
    apply Qle_minus_iff in Hle. exact Hle.
  - intros H. apply Z.leb_le in H. now rewrite H.
Qed.

Lemma calculate_flight_value_per_unit_witness :
  let o :=
    {| calculator.type := "flight"; calculator.name := "JFK to LAX Direct";
       calculator.miles_cost := 25000; calculator.cash_equivalent := 400;
       calculator.taxes_fees := 50;
       calculator.description := "American Airlines direct flight" |} in
  let free :=
    {| calculator.type := "flight"; calculator.name := "JFK to LAX Direct";
       calculator.miles_cost := 0; calculator.cash_equivalent := 400;
       calculator.taxes_fees := 50;
       calculator.description := "American Airlines direct flight" |} in
  calculator.c_value_per_mile (calculator.calculate_flight_value calculator.init 25000 400 50)
  = Some ((400 - 50) / inject_Z 25000 * 100)%Q /\
  (0 <= calculator.calc_value
          (calculator.calculate_flight_value calculator.init 25000 400 50))%Q /\
  calculator.c_value_per_mile (calculator.calculate_flight_value calculator.init 0 400 50)
  = Some 0%Q /\
  calculator.value_per_mile o = ((400 - 50) / inject_Z 25000 * 100)%Q /\
  (0 <= calculator.value_per_mile o)%Q /\
  calculator.value_per_mile free = 0%Q.
Proof.
  cbv zeta.
  pose proof (calculate_flight_value_per_unit calculator.init 25000 400 50
                {| calculator.type := "flight"; calculator.name := "JFK to LAX Direct";
                   calculator.miles_cost := 25000; calculator.cash_equivalent := 400;
                   calculator.taxes_fees := 50;
                   calculator.description := "American Airlines direct flight" |})
    as (H1 & H2 & _ & H4 & H5 & _).
  pose proof (calculate_flight_value_per_unit calculator.init 0 400 50
                {| calculator.type := "flight"; calculator.name := "JFK to LAX Direct";
                   calculator.miles_cost := 0; calculator.cash_equivalent := 400;
                   calculator.taxes_fees := 50;
                   calculator.description := "American Airlines direct flight" |})
    as (_ & _ & H3 & _ & _ & H6).
  split; [apply H1; reflexivity|].
  split; [apply H2; [reflexivity | discriminate]|].
  split; [apply H3; discriminate|].
  split; [apply H4; reflexivity|].
  split; [apply H5; [reflexivity | discriminate]|].
  apply H6. discriminate.
Defined.

(** C1 as stated fails: with fees above the cash price the value per
    unit is negative, not [max(0, cash_price - taxes_fees) / units_cost
    * 100], which is [0]. *)
Lemma calculate_flight_value_not_clamped :
  let r := calculator.calculate_flight_value calculator.init 100 50 150 in
  let o :=
    {| calculator.type := "flight"; calculator.name := "Short hop";
       calculator.miles_cost := 100; calculator.cash_equivalent := 50;
       calculator.taxes_fees := 150; calculator.description := "" |} in
  (calculator.calc_value r == -100)%Q /\
  (Qmax 0 (50 - 150) / inject_Z 100 * 100 == 0)%Q /\
  ~ (calculator.calc_value r == Qmax 0 (50 - 150) / inject_Z 100 * 100)%Q /\
  (calculator.value_per_mile o == -100)%Q.
Proof.
  cbv zeta. split; [reflexivity|]. split; [reflexivity|]. split; [|reflexivity].
  intros H. vm_compute in H. discriminate H.
Qed.

(** ** RouteRanker: synthetic savings *)

(** C6: [calculate_synthetic_savings] returns the difference of the two
    costs, its percentage of the direct cost (0 when the direct cost is
    not positive), and is worthwhile exactly when the savings are
    positive and the percentage exceeds 10; on [(1000, 1200)] the
    savings are [-200] and not worthwhile, on [(1000, 800)] they are
    [200], that is [20] percent, and worthwhile. *)
Theorem calculate_synthetic_savings_spec (direct_cost layover_cost : Q) :
  let r := route_optimizer.calculate_synthetic_savings direct_cost layover_cost in
  route_optimizer.savings r = (direct_cost - layover_cost)%Q /\
  ((0 < direct_cost)%Q ->
     route_optimizer.savings_percentage r
     = ((direct_cost - layover_cost) / direct_cost * 100)%Q) /\
  ((direct_cost <= 0)%Q -> route_optimizer.savings_percentage r = 0%Q) /\
  (route_optimizer.is_worthwhile r = true <->
     (0 < route_optimizer.savings r)%Q /\ (10 < route_optimizer.savings_percentage r)%Q) /\
  (let a := route_optimizer.calculate_synthetic_savings 1000 1200 in
   (route_optimizer.savings a == -200)%Q /\ route_optimizer.is_worthwhile a = false) /\
  (let b := route_optimizer.calculate_synthetic_savings 1000 800 in
   (route_optimizer.savings b == 200)%Q /\
   (route_optimizer.savings_percentage b == 20)%Q /\
   route_optimizer.is_worthwhile b = true).
Proof.
  cbv zeta. simpl. repeat split; try reflexivity.
  - intros H. apply Qltb_lt in H. now rewrite H.
  - intros H. apply Qltb_ge in H. now rewrite H.
  - apply andb_true_iff in H. now apply Qltb_lt, H.
  - apply andb_true_iff in H. now apply Qltb_lt, H.
  - intros [H1 H2]. apply andb_true_iff. split; now apply Qltb_lt.
Qed.

Lemma calculate_synthetic_savings_spec_witness :
  route_optimizer.savings_percentage (route_optimizer.calculate_synthetic_savings 1000 800)
  = ((1000 - 800) / 1000 * 100)%Q
  /\ route_optimizer.savings_percentage (route_optimizer.calculate_synthetic_savings 0 800)
     = 0%Q.
Proof.
  split.
  - apply (calculate_synthetic_savings_spec 1000 800). reflexivity.
  - apply (calculate_synthetic_savings_spec 0 800). discriminate.
Defined.

(** ** AwardCostModel *)

(** A key of the table is never stored under its reverse as well. *)
Lemma distances_one_way (a b : string) (d : Z) :
  route_optimizer.distances !! (a, b) = Some d ->
  route_optimizer.distances !! (b, a) = None.
Proof.
  intros H. apply elem_of_list_to_map_2 in H.
  repeat (apply elem_of_cons in H; destruct H as [H|H];
          [injection H as -> -> ->; reflexivity|]).
  now apply elem_of_nil in H.
Qed.

Lemma _calculate_distance_sym (a b : string) :
  route_optimizer._calculate_distance a b = route_optimizer._calculate_distance b a.
Proof.
  unfold route_optimizer._calculate_distance.
  destruct (route_optimizer.distances !! (a, b)) as [d|] eqn:Hab.
  - now rewrite (distances_one_way a b d Hab).
  - destruct (route_optimizer.distances !! (b, a)); reflexivity.
Qed.

(** C7: the award cost is symmetric in the two airports, for both
    charts; a pair stored in neither direction costs what the default
    distance of 1000 miles costs, both ways. *)
Theorem _get_award_cost_sym (self : route_optimizer.RouteOptimizer)
    (a b : string) (is_international : bool) :
  route_optimizer._get_award_cost self a b is_international
  = route_optimizer._get_award_cost self b a is_international /\
  (route_optimizer.distances !! (a, b) = None ->
   route_optimizer.distances !! (b, a) = None ->
   route_optimizer._calculate_distance a b = 1000 /\
   route_optimizer._calculate_distance b a = 1000).
Proof.
  split.
  - unfold route_optimizer._get_award_cost. now rewrite (_calculate_distance_sym a b).
  - intros Hab Hba. unfold route_optimizer._calculate_distance.
    now rewrite Hab, Hba.
Qed.

Lemma _get_award_cost_sym_witness :
  route_optimizer._calculate_distance "SEA" "MIA" = 1000 /\
  route_optimizer._calculate_distance "MIA" "SEA" = 1000.
Proof.
  apply (_get_award_cost_sym
           (route_optimizer.init {| amadeus_client.client := None |})
           "SEA" "MIA" false); vm_compute; reflexivity.
Defined.

(** ** RouteRanker: scores *)

Lemma rank_routes_by_value_In (routes_list : list route_optimizer.FlightRoute)
    (a : route_optimizer.ValueAnalysis) :
  In a (route_optimizer.rank_routes_by_value routes_list)
  <-> exists r, In r routes_list /\ a = route_optimizer.value_analysis r.
Proof.
  unfold route_optimizer.rank_routes_by_value. split.
  - intros H. apply (Permutation_in _ (sort_by_reverse_Permutation _ _)) in H.
    apply in_map_iff in H. destruct H as (r & <- & Hr). now exists r.
  - intros (r & Hr & ->).
    apply (Permutation_in _ (Permutation_sym (sort_by_reverse_Permutation _ _))).
    now apply in_map.
Qed.

Lemma Qdiv_lt_contravar (c1 c2 : Q) :
  (0 < c1)%Q -> (c1 < c2)%Q -> (1000 / c2 < 1000 / c1)%Q.
Proof.
  intros H0 H. unfold Qdiv.
  apply Qmult_lt_l; [reflexivity|].
  apply (Qinv_lt_contravar c1 c2); [exact H0 | now apply Qlt_trans with c1 | exact H].
Qed.

(** C4, as the code has it: of two ranked routes with the same number
    of segments, the one with the lower total cost never gets the lower
    final score provided that lower cost is positive; [final_score] is
    [1000 / total_cost - 0.1 * segment_count] for a positive total cost.
    The order is stated as not lower: a strictly higher score is what
    exact arithmetic gives, and the rounding of the division and of the
    subtraction can turn it into a tie, as shown below. *)
Theorem rank_routes_lower_cost_never_lower_score
    (routes_list : list route_optimizer.FlightRoute)
    (r1 r2 : route_optimizer.FlightRoute) :
  In r1 routes_list -> In r2 routes_list ->
  length (route_optimizer.segments r1) = length (route_optimizer.segments r2) ->
  (0 < route_optimizer.total_cost r1)%Q ->
  (route_optimizer.total_cost r1 < route_optimizer.total_cost r2)%Q ->
  let a1 := route_optimizer.value_analysis r1 in
  let a2 := route_optimizer.value_analysis r2 in
  let ranked := route_optimizer.rank_routes_by_value routes_list in
  In a1 ranked /\ In a2 ranked /\
  route_optimizer.final_score a1
  = (1000 / route_optimizer.total_cost r1
     - inject_Z (Z.of_nat (length (route_optimizer.segments r1))) * (1 # 10))%Q /\
  route_optimizer.final_score a2
  = (1000 / route_optimizer.total_cost r2
     - inject_Z (Z.of_nat (length (route_optimizer.segments r2))) * (1 # 10))%Q /\
  (route_optimizer.final_score a2 <= route_optimizer.final_score a1)%Q.
Proof.
  intros In1 In2 Hlen Hpos Hlt. cbv zeta.
  assert (Hpos2 : (0 < route_optimizer.total_cost r2)%Q)
    by now apply Qlt_trans with (route_optimizer.total_cost r1).
  split; [apply rank_routes_by_value_In; now exists r1|].
  split; [apply rank_routes_by_value_In; now exists r2|].
  unfold route_optimizer.value_analysis. simpl.
  apply Qltb_lt in Hpos, Hpos2. rewrite Hpos, Hpos2.
  apply Qltb_lt in Hpos.
  split; [reflexivity|]. split; [reflexivity|].
  rewrite Hlen. unfold Qminus. apply Qplus_le_l.
  apply Qlt_le_weak. now apply Qdiv_lt_contravar.
Qed.

Lemma rank_routes_lower_cost_never_lower_score_witness :
  let route miles :=
    {| route_optimizer.origin := "JFK"; route_optimizer.destination := "LAX";
       route_optimizer.route_type := "direct"; route_optimizer.total_miles := miles;
       route_optimizer.total_fees := 50; route_optimizer.segments := [];
       route_optimizer.duration_hours := 5; route_optimizer.layover_airports := [];
       route_optimizer.cash_price := 300; route_optimizer.airline := "AA" |} in
  (route_optimizer.final_score (route_optimizer.value_analysis (route 35000%Z))
   <= route_optimizer.final_score (route_optimizer.value_analysis (route 25000%Z)))%Q.
Proof.
  cbv zeta.
  eapply (rank_routes_lower_cost_never_lower_score [_; _]);
    [left; reflexivity | right; left; reflexivity | reflexivity
     | reflexivity | reflexivity].
Defined.

(** C4 as stated fails in two places.  Where the guard applies: a route
    whose total cost is zero has the lower cost and the lower final
    score.  And where the rounding decides: with 25000 miles and two
    segments, fees of [75] and of [75 + 2^-38] give the total costs
    [25075.0 < 25075.000000000004], both positive, and one and the same
    final score. *)
Lemma rank_routes_lower_cost_not_higher_score :
  let route miles :=
    {| route_optimizer.origin := "JFK"; route_optimizer.destination := "LAX";
       route_optimizer.route_type := "direct"; route_optimizer.total_miles := miles;
       route_optimizer.total_fees := 0; route_optimizer.segments := [];
       route_optimizer.duration_hours := 5; route_optimizer.layover_airports := [];
       route_optimizer.cash_price := 300; route_optimizer.airline := "AA" |} in
  let fees := binary64.of_Z 75 in
  let fees' := binary64.scaled (75 * 2 ^ 38 + 1) (-38) in
  (length (route_optimizer.segments (route 0%Z))
   = length (route_optimizer.segments (route 100%Z)) /\
   (route_optimizer.total_cost (route 0%Z) < route_optimizer.total_cost (route 100%Z))%Q /\
   (route_optimizer.final_score (route_optimizer.value_analysis (route 0%Z)) == 0)%Q /\
   (route_optimizer.final_score (route_optimizer.value_analysis (route 100%Z)) == 10)%Q /\
   ~ (route_optimizer.final_score (route_optimizer.value_analysis (route 100%Z))
      < route_optimizer.final_score (route_optimizer.value_analysis (route 0%Z)))%Q /\
   map route_optimizer.route
     (route_optimizer.rank_routes_by_value [route 0%Z; route 100%Z])
   = [route 100%Z; route 0%Z]) /\
  (binary64.ltb (binary64.of_Z 0) (route_optimizer.total_cost_binary64 25000 fees) = true /\
   binary64.ltb (route_optimizer.total_cost_binary64 25000 fees)
     (route_optimizer.total_cost_binary64 25000 fees') = true /\
   route_optimizer.final_score_binary64 25000 fees 2
   = route_optimizer.final_score_binary64 25000 fees' 2 /\
   binary64.ltb (route_optimizer.final_score_binary64 25000 fees' 2)
     (route_optimizer.final_score_binary64 25000 fees 2) = false).
Proof.
  cbv zeta. split.
  - repeat split. intros H. vm_compute in H. discriminate H.
  - vm_compute. repeat split.
Qed.

(** ** The duration parser *)








(** ** RouteConstructor *)

Lemma for_each_cons {A B} (body : A -> service.M (option B)) (x : A) (l : list A) (t : nat) :
  service.for_each body (x :: l) t
  = (let '(r, t1) := body x t in
     let '(rs, t2) := service.for_each body l t1 in
     (match r with Some b => b :: rs | None => rs end, t2)).
Proof.
  simpl. unfold service.bind, service.ret.
  destruct (body x t) as [r t1]. now destruct (service.for_each body l t1).
Qed.

Lemma for_each_In {A B} (body : A -> service.M (option B)) (l : list A) (t : nat) (b : B) :
  In b (fst (service.for_each body l t)) ->
  exists x t0, In x l /\ fst (body x t0) = Some b.
Proof.
  revert t. induction l as [|x l IH]; intros t; [intros []|].
  rewrite for_each_cons.
  destruct (body x t) as [r t1] eqn:Hx.
  destruct (service.for_each body l t1) as [rs t2] eqn:Hl. simpl.
  assert (Hrs : In b rs -> exists x0 t0, In x0 (x :: l) /\ fst (body x0 t0) = Some b).
  { intros H. destruct (IH t1) as (x0 & t0 & H0 & H1); [now rewrite Hl|].
    exists x0, t0. split; [now right | exact H1]. }
  destruct r as [b'|]; [|exact Hrs].
  intros [->|H]; [|now apply Hrs].
  exists x, t. split; [now left | now rewrite Hx].
Qed.

Lemma layover_route_skip (self : route_optimizer.RouteOptimizer) (origin destination : string)
    (travel_date : amadeus_client.date) (hub : string) (t : nat) :
  hub = origin \/ hub = destination ->
  route_optimizer.layover_route self origin destination travel_date hub t = (None, t).
Proof.
  intros H. unfold route_optimizer.layover_route.
  replace (String.eqb hub origin || String.eqb hub destination) with true; [reflexivity|].
  symmetry. apply orb_true_iff. destruct H as [->| ->]; [left|right]; apply String.eqb_refl.
Qed.

Lemma layover_route_Some (self : route_optimizer.RouteOptimizer) (origin destination : string)
    (travel_date : amadeus_client.date) (hub : string) (t : nat)
    (r : route_optimizer.FlightRoute) :
  fst (route_optimizer.layover_route self origin destination travel_date hub t) = Some r ->
  hub <> origin /\ hub <> destination /\
  exists segment1 segment2,
    r = route_optimizer.combine_legs self origin destination hub segment1 segment2.
Proof.
  unfold route_optimizer.layover_route.
  destruct (String.eqb hub origin) eqn:E1; [discriminate|].
  destruct (String.eqb hub destination) eqn:E2; [discriminate|].
  apply String.eqb_neq in E1, E2. simpl.
  unfold service.bind, service.ret.
  destruct (amadeus_client.search_flights _ origin hub travel_date 1 t) as [l1 t1].
  destruct (amadeus_client.search_flights _ hub destination travel_date 1 t1) as [l2 t2].
  destruct l1 as [|s1 l1]; [discriminate|].
  destruct l2 as [|s2 l2]; [discriminate|].
  simpl. intros [= <-]. repeat split; try assumption. now exists s1, s2.
Qed.

(** C5: a hub equal to the origin or the destination is skipped; any
    other hub yields a route if and only if both the origin-to-hub and
    the hub-to-destination search return an offer; the route's miles
    are the sum of the two legs' award costs, its fees are [75], its
    duration is the two parsed durations plus [2], and its segments are
    those of the first leg followed by those of the second.  The loop
    visits the hubs in order and every route it returns is the route of
    one of them. *)
Theorem find_layover_routes_spec (self : route_optimizer.RouteOptimizer)
    (origin destination : string) (travel_date : amadeus_client.date)
    (hub : string) (hubs : list string) (t : nat) :
  let step := route_optimizer.layover_route self origin destination travel_date in
  let search a b :=
    amadeus_client.search_flights (route_optimizer.amadeus_client self) a b travel_date 1 in
  let loop l := route_optimizer.find_layover_routes self origin destination travel_date (Some l) in
  (hub = origin \/ hub = destination -> step hub t = (None, t)) /\
  (hub <> origin -> hub <> destination ->
   let '(segment1_offers, t1) := search origin hub t in
   let '(segment2_offers, t2) := search hub destination t1 in
   snd (step hub t) = t2 /\
   (fst (step hub t) <> None <-> segment1_offers <> [] /\ segment2_offers <> []) /\
   forall r, fst (step hub t) = Some r ->
     exists segment1 segment2,
       head segment1_offers = Some segment1 /\
       head segment2_offers = Some segment2 /\
       route_optimizer.total_miles r
       = route_optimizer._get_award_cost self origin hub false
         + route_optimizer._get_award_cost self hub destination false /\
       route_optimizer.total_fees r = 75%Q /\
       route_optimizer.duration_hours r
       = (route_optimizer._parse_duration (amadeus_client.duration segment1)
          + route_optimizer._parse_duration (amadeus_client.duration segment2) + 2)%Q /\
       route_optimizer.segments r
       = (amadeus_client.segments segment1 ++ amadeus_client.segments segment2)%list) /\
  loop [] t = ([], t) /\
  loop (hub :: hubs) t
  = (let '(r, t1) := step hub t in
     let '(rs, t2) := loop hubs t1 in
     (match r with Some r => r :: rs | None => rs end, t2)) /\
  (forall r, In r (fst (loop hubs t)) ->
     exists h t0, In h hubs /\ h <> origin /\ h <> destination /\ fst (step h t0) = Some r).
Proof.
  cbv zeta. split; [apply layover_route_skip|].
  split.
  { intros Ho Hd. unfold route_optimizer.layover_route.
    apply String.eqb_neq in Ho, Hd. rewrite Ho, Hd. cbn [orb].
    unfold service.bind, service.ret.
    destruct (amadeus_client.search_flights _ origin hub travel_date 1 t) as [l1 t1].
    destruct (amadeus_client.search_flights _ hub destination travel_date 1 t1) as [l2 t2].
    split; [reflexivity|]. cbn [fst snd].
    destruct l1 as [|s1 l1]; [|destruct l2 as [|s2 l2]].
    - split; [split; [intros H; now contradiction H | intros [H _]; now contradiction H]|].
      discriminate.
    - split; [split; [intros H; now contradiction H | intros [_ H]; now contradiction H]|].
      discriminate.
    - split; [split; [intros _; split; discriminate | discriminate]|].
      intros r [= <-]. exists s1, s2. repeat split. }
  split; [reflexivity|].
  split; [apply for_each_cons|].
  intros r Hr. unfold route_optimizer.find_layover_routes in Hr.
  apply for_each_In in Hr. destruct Hr as (h & t0 & Hh & Hstep).
  exists h, t0. destruct (layover_route_Some _ _ _ _ _ _ _ Hstep) as (H1 & H2 & _).
  now repeat split.
Qed.

Lemma find_layover_routes_spec_witness :
  let self := route_optimizer.init {| amadeus_client.client := None |} in
  let day := {| amadeus_client.year := 2024; amadeus_client.month := 6;
                amadeus_client.day := 15 |} in
  route_optimizer.layover_route self "JFK" "LAX" day "LAX" 0%nat = (None, 0%nat) /\
  fst (route_optimizer.layover_route self "JFK" "LAX" day "ATL" 0%nat) <> None.
Proof.
  cbv zeta. split.
  - apply (find_layover_routes_spec
             (route_optimizer.init {| amadeus_client.client := None |}) "JFK" "LAX"
             {| amadeus_client.year := 2024; amadeus_client.month := 6;
                amadeus_client.day := 15 |}
             "LAX" [] 0%nat).
    right. reflexivity.
  - pose proof (find_layover_routes_spec
                  (route_optimizer.init {| amadeus_client.client := None |}) "JFK" "LAX"
                  {| amadeus_client.year := 2024; amadeus_client.month := 6;
                     amadeus_client.day := 15 |}
                  "ATL" [] 0%nat) as H.
    cbv zeta in H. destruct H as (_ & H & _).
    assert (Ho : "ATL" <> "JFK") by discriminate.
    assert (Hd : "ATL" <> "LAX") by discriminate.
    specialize (H Ho Hd).
    cbv beta iota zeta delta
      [amadeus_client.search_flights amadeus_client.client service.ret
       route_optimizer.amadeus_client route_optimizer.init] in H.
    destruct H as (_ & [_ H] & _). apply H. split; discriminate.
Defined.

Lemma _get_award_cost_domestic (self : route_optimizer.RouteOptimizer) (a b : string) :
  let chart := route_optimizer.domestic (route_optimizer.award_charts self) in
  In (route_optimizer._get_award_cost self a b false)
     [route_optimizer.zone_1 chart; route_optimizer.zone_2 chart;
      route_optimizer.zone_3 chart; route_optimizer.zone_4 chart;
      route_optimizer.zone_5 chart].
Proof.
  cbv zeta. unfold route_optimizer._get_award_cost.
  repeat (match goal with |- context [if ?c then _ else _] => destruct c end);
    cbn [In]; auto 6.
Qed.

Lemma find_direct_routes_In (self : route_optimizer.RouteOptimizer)
    (origin destination : string) (travel_date : amadeus_client.date) (t : nat)
    (r : route_optimizer.FlightRoute) :
  In r (fst (route_optimizer.find_direct_routes self origin destination travel_date t)) ->
  exists offer, route_optimizer.direct_route self origin destination offer = Some r.
Proof.
  unfold route_optimizer.find_direct_routes, service.bind, service.ret.
  destruct (amadeus_client.search_flights _ origin destination travel_date 5 t) as [l t1].
  simpl. intros H. apply list_elem_of_In, list_elem_of_omap in H.
  destruct H as (offer & _ & H). now exists offer.
Qed.

(** C10: each leg of a layover route is priced from the domestic chart,
    whatever its distance: the route's miles are the two domestic leg
    prices.  A direct route is priced from the international chart
    exactly when its distance exceeds 2000 miles.  With the mock data
    the leg from JFK to LAX, 2475 miles long, costs 35000 miles inside
    a layover route and 40000 miles as a direct route. *)
Theorem layover_legs_priced_domestic (self : route_optimizer.RouteOptimizer)
    (origin destination : string) (travel_date : amadeus_client.date)
    (hub_airports : option (list string)) (t : nat) (r : route_optimizer.FlightRoute) :
  let chart := route_optimizer.domestic (route_optimizer.award_charts self) in
  let prices :=
    [route_optimizer.zone_1 chart; route_optimizer.zone_2 chart;
     route_optimizer.zone_3 chart; route_optimizer.zone_4 chart;
     route_optimizer.zone_5 chart] in
  (In r (fst (route_optimizer.find_layover_routes self origin destination travel_date
                hub_airports t)) ->
   exists hub leg1 leg2,
     route_optimizer.layover_airports r = [hub] /\
     route_optimizer.total_miles r = leg1 + leg2 /\
     leg1 = route_optimizer._get_award_cost self origin hub false /\
     leg2 = route_optimizer._get_award_cost self hub destination false /\
     In leg1 prices /\ In leg2 prices) /\
  (In r (fst (route_optimizer.find_direct_routes self origin destination travel_date t)) ->
   route_optimizer.total_miles r
   = route_optimizer._get_award_cost self origin destination
       (2000 <? route_optimizer._calculate_distance origin destination)) /\
  (let mock := route_optimizer.init {| amadeus_client.client := None |} in
   let day := {| amadeus_client.year := 2024; amadeus_client.month := 6;
                 amadeus_client.day := 15 |} in
   route_optimizer._calculate_distance "JFK" "LAX" = 2475 /\
   route_optimizer._get_award_cost mock "JFK" "LAX" false = 35000 /\
   route_optimizer._get_award_cost mock "LAX" "ORD" false = 25000 /\
   map route_optimizer.total_miles
     (fst (route_optimizer.find_layover_routes mock "JFK" "ORD" day (Some ["LAX"]) 0%nat))
   = [60000] /\
   map route_optimizer.total_miles
     (fst (route_optimizer.find_direct_routes mock "JFK" "LAX" day 0%nat))
   = [40000]).
Proof.
  cbv zeta. split; [|split].
  - intros H. unfold route_optimizer.find_layover_routes in H.
    apply for_each_In in H. destruct H as (hub & t0 & _ & H).
    apply layover_route_Some in H. destruct H as (_ & _ & s1 & s2 & ->).
    exists hub, (route_optimizer._get_award_cost self origin hub false),
      (route_optimizer._get_award_cost self hub destination false).
    repeat split; try reflexivity; apply _get_award_cost_domestic.
  - intros H. apply find_direct_routes_In in H. destruct H as (offer & H).
    unfold route_optimizer.direct_route in H.
    destruct (amadeus_client.stops offer =? 0); [|discriminate].
    injection H as <-. reflexivity.
  - repeat split; vm_compute; reflexivity.
Qed.

Lemma layover_legs_priced_domestic_witness :
  let mock := route_optimizer.init {| amadeus_client.client := None |} in
  let day := {| amadeus_client.year := 2024; amadeus_client.month := 6;
                amadeus_client.day := 15 |} in
  List.Forall (fun r => route_optimizer.total_miles r = 60000)
    (fst (route_optimizer.find_layover_routes mock "JFK" "ORD" day (Some ["LAX"]) 0%nat)) /\
  List.Forall (fun r => route_optimizer.total_miles r = 40000)
    (fst (route_optimizer.find_direct_routes mock "JFK" "LAX" day 0%nat)).
Proof.
  cbv zeta. split; apply List.Forall_forall; intros r Hr.
  - pose proof (layover_legs_priced_domestic
                  (route_optimizer.init {| amadeus_client.client := None |}) "JFK" "ORD"
                  {| amadeus_client.year := 2024; amadeus_client.month := 6;
                     amadeus_client.day := 15 |}
                  (Some ["LAX"]) 0%nat r) as H.
    cbv zeta in H. destruct H as (H & _).
    destruct (H Hr) as (hub & leg1 & leg2 & Hhub & -> & -> & -> & _).
    vm_compute in Hr. destruct Hr as [<-|[]].
    injection Hhub as <-. vm_compute. reflexivity.
  - pose proof (layover_legs_priced_domestic
                  (route_optimizer.init {| amadeus_client.client := None |}) "JFK" "LAX"
                  {| amadeus_client.year := 2024; amadeus_client.month := 6;
                     amadeus_client.day := 15 |}
                  None 0%nat r) as H.
    cbv zeta in H. destruct H as (_ & H & _).
    rewrite (H Hr). vm_compute. reflexivity.
Defined.

(** ** ValuationModel: comparison *)

Lemma compare_one_Some (self : calculator.RedemptionCalculator)
    (o : calculator.RedemptionOption) (c : calculator.Comparison) :
  calculator.compare_one self o = Some c ->
  calculator.option c = o /\ calculator.supported o = true /\
  calculator.value_per_unit c = calculator.calc_value (calculator.calculation c).
Proof.
  unfold calculator.compare_one, calculator.supported.
  destruct (String.eqb (calculator.type o) "flight");
    [|destruct (String.eqb (calculator.type o) "hotel");
      [|destruct (String.eqb (calculator.type o) "giftcard")]];
    try discriminate; intros [= <-]; now repeat split.
Qed.

Lemma compare_one_None (self : calculator.RedemptionCalculator)
    (o : calculator.RedemptionOption) :
  calculator.compare_one self o = None <-> calculator.supported o = false.
Proof.
  unfold calculator.compare_one, calculator.supported.
  destruct (String.eqb (calculator.type o) "flight");
    [|destruct (String.eqb (calculator.type o) "hotel");
      [|destruct (String.eqb (calculator.type o) "giftcard")]];
    simpl; split; intros H; try discriminate H; reflexivity.
Qed.

Lemma collect_options (self : calculator.RedemptionCalculator)
    (l : list calculator.RedemptionOption) :
  map calculator.option (calculator.collect self l) = List.filter calculator.supported l.
Proof.
  induction l as [|o l IH]; simpl; [reflexivity|].
  destruct (calculator.compare_one self o) as [c|] eqn:E.
  - destruct (compare_one_Some _ _ _ E) as (Ho & Hs & _).
    rewrite Hs. simpl. now rewrite Ho, IH.
  - apply compare_one_None in E. now rewrite E.
Qed.

Lemma collect_In (self : calculator.RedemptionCalculator)
    (l : list calculator.RedemptionOption) (c : calculator.Comparison) :
  In c (calculator.collect self l) ->
  In (calculator.option c) l /\ calculator.compare_one self (calculator.option c) = Some c.
Proof.
  induction l as [|o l IH]; simpl; [intros []|].
  destruct (calculator.compare_one self o) as [c'|] eqn:E.
  - intros [<-|H].
    + destruct (compare_one_Some _ _ _ E) as (-> & _). split; [now left | exact E].
    + destruct (IH H). split; [now right | assumption].
  - intros H. destruct (IH H). split; [now right | assumption].
Qed.

Lemma collect_filter (self : calculator.RedemptionCalculator) (v : Q)
    (l : list calculator.RedemptionOption) :
  map calculator.option
    (List.filter (fun c => Qeq_bool (calculator.value_per_unit c) v)
       (calculator.collect self l))
  = List.filter
      (fun o => match calculator.compare_one self o with
                | Some c => Qeq_bool (calculator.value_per_unit c) v
                | None => false
                end) l.
Proof.
  induction l as [|o l IH]; simpl; [reflexivity|].
  destruct (calculator.compare_one self o) as [c|] eqn:E; [|exact IH].
  simpl. destruct (Qeq_bool (calculator.value_per_unit c) v); [|exact IH].
  simpl. destruct (compare_one_Some _ _ _ E) as (-> & _). now rewrite IH.
Qed.

(** C3, as the code has it: [compare_redemptions] computes a value
    record for every option of type flight, hotel or giftcard and skips
    every other option (statement credits included); the records come
    out sorted by descending [value_per_unit], records of equal value in
    input order; there is one record per option of a supported type,
    hence one per input option when all the types are supported. *)
Theorem compare_redemptions_ranked (self : calculator.RedemptionCalculator)
    (redemption_options : list calculator.RedemptionOption) :
  let out := calculator.compare_redemptions self redemption_options in
  Permutation (map calculator.option out)
    (List.filter calculator.supported redemption_options) /\
  (forall c, In c out ->
     In (calculator.option c) redemption_options /\
     calculator.compare_one self (calculator.option c) = Some c /\
     calculator.value_per_unit c = calculator.calc_value (calculator.calculation c)) /\
  StronglySorted
    (fun a b => (calculator.value_per_unit b <= calculator.value_per_unit a)%Q) out /\
  (forall v,
     map calculator.option
       (List.filter (fun c => Qeq_bool (calculator.value_per_unit c) v) out)
     = List.filter
         (fun o => match calculator.compare_one self o with
                   | Some c => Qeq_bool (calculator.value_per_unit c) v
                   | None => false
                   end) redemption_options) /\
  length out = length (List.filter calculator.supported redemption_options) /\
  (forallb calculator.supported redemption_options = true ->
   length out = length redemption_options).
Proof.
  cbv zeta. unfold calculator.compare_redemptions.
  assert (Hperm : Permutation
            (map calculator.option
               (pylist.sort_by_reverse calculator.value_per_unit
                  (calculator.collect self redemption_options)))
            (List.filter calculator.supported redemption_options)).
  { rewrite <- (collect_options self). apply Permutation_map, sort_by_reverse_Permutation. }
  assert (Hlen : length (pylist.sort_by_reverse calculator.value_per_unit
                           (calculator.collect self redemption_options))
                 = length (List.filter calculator.supported redemption_options)).
  { rewrite <- (Permutation_length Hperm). now rewrite length_map. }
  split; [exact Hperm|].
  split.
  { intros c Hc.
    apply (Permutation_in _ (sort_by_reverse_Permutation _ _)) in Hc.
    destruct (collect_In _ _ _ Hc) as (H1 & H2).
    repeat split; try assumption. now apply (compare_one_Some _ _ _ H2). }
  split; [apply sort_by_reverse_sorted|].
  split; [intros v; rewrite sort_by_reverse_stable; apply collect_filter|].
  split; [exact Hlen|].
  intros Hall. rewrite Hlen. f_equal.
  clear Hperm Hlen. induction redemption_options as [|o l IH]; [reflexivity|].
  simpl in Hall |- *. apply andb_true_iff in Hall. destruct Hall as [-> Hall].
  now rewrite IH.
Qed.

Lemma compare_redemptions_ranked_witness :
  let flight :=
    {| calculator.type := "flight"; calculator.name := "JFK to LAX Direct";
       calculator.miles_cost := 25000; calculator.cash_equivalent := 400;
       calculator.taxes_fees := 50;
       calculator.description := "American Airlines direct flight" |} in
  let hotel :=
    {| calculator.type := "hotel"; calculator.name := "Marriott Hotel Night";
       calculator.miles_cost := 30000; calculator.cash_equivalent := 300;
       calculator.taxes_fees := 0;
       calculator.description := "Marriott Bonvoy redemption" |} in
  let giftcard :=
    {| calculator.type := "giftcard"; calculator.name := "Amazon Gift Card";
       calculator.miles_cost := 10000; calculator.cash_equivalent := 100;
       calculator.taxes_fees := 0;
       calculator.description := "Amazon gift card redemption" |} in
  length (calculator.compare_redemptions calculator.init [flight; hotel; giftcard]) = 3%nat.
Proof.
  cbv zeta.
  apply (compare_redemptions_ranked calculator.init [_; _; _]). reflexivity.
Defined.

(** C3 as stated fails: an option of type statement credit gets no
    value record, so the output has fewer entries than the input. *)
Lemma compare_redemptions_skips_statement_credit :
  let credit :=
    {| calculator.type := "statement_credit"; calculator.name := "Pay Yourself Back";
       calculator.miles_cost := 10000; calculator.cash_equivalent := 125;
       calculator.taxes_fees := 0; calculator.description := "" |} in
  let flight :=
    {| calculator.type := "flight"; calculator.name := "JFK to LAX Direct";
       calculator.miles_cost := 25000; calculator.cash_equivalent := 400;
       calculator.taxes_fees := 50; calculator.description := "" |} in
  calculator.compare_redemptions calculator.init [credit] = [] /\
  map calculator.option (calculator.compare_redemptions calculator.init [credit; flight])
  = [flight] /\
  length (calculator.compare_redemptions calculator.init [credit; flight])
  <> length [credit; flight].
Proof.
  cbv zeta. repeat split. discriminate.
Qed.

(** ** RecommendationAggregator *)

Lemma firstn_In {A} (n : nat) (l : list A) (x : A) : In x (firstn n l) -> In x l.
Proof.
  revert l. induction n as [|n IH]; intros [|y l]; simpl; try tauto.
  intros [->|H]; [now left | right; now apply IH].
Qed.

Lemma order_Permutation (p : recommender.UserPreferences) (l : list recommender.Option) :
  Permutation (recommender.order p l) l.
Proof.
  unfold recommender.order.
  destruct (recommender.maximize_value p); [apply sort_by_reverse_Permutation|].
  destruct (recommender.minimize_fees p); [apply sort_by_Permutation | reflexivity].
Qed.

(** C2: options valued below [min_value_per_mile] are removed from the
    merged pool; what remains is ordered by descending value when
    [maximize_value] is set, whatever [minimize_fees] says, and by
    ascending fees when only [minimize_fees] is set; the recommendations
    are the first five of that order, [best_overall] is the first of
    them (none when there is none), and [best_value_per_mile] is an
    element of those five whose value is maximal among them. *)
Theorem generate_recommendations_selection (self : recommender.RedemptionRecommender)
    (origin_airport destination_airport : string) (travel_date : amadeus_client.date)
    (available_miles : Z) (user_preferences : option recommender.UserPreferences)
    (t : nat) :
  let p := recommender.preferences_or_default user_preferences in
  let res :=
    fst (recommender.generate_recommendations self origin_airport destination_airport
           travel_date available_miles user_preferences t) in
  let pool :=
    fst (recommender.all_options self origin_airport destination_airport
           travel_date available_miles p t) in
  let kept :=
    List.filter
      (fun x => num.Qleb (recommender.min_value_per_mile p) (recommender.value_of x)) pool in
  let ordered := recommender.order p kept in
  let top := recommender.recommendations res in
  (forall x, In x pool ->
     (recommender.value_of x < recommender.min_value_per_mile p)%Q -> ~ In x top) /\
  (forall x, In x ordered <->
     In x pool /\ (recommender.min_value_per_mile p <= recommender.value_of x)%Q) /\
  Permutation ordered kept /\
  (recommender.maximize_value p = true ->
   StronglySorted (fun a b => (recommender.value_of b <= recommender.value_of a)%Q) ordered) /\
  (recommender.maximize_value p = false -> recommender.minimize_fees p = true ->
   StronglySorted (fun a b => (recommender.fees a <= recommender.fees b)%Q) ordered) /\
  top = firstn 5 ordered /\
  recommender.best_overall res = head top /\
  match recommender.best_value_per_mile res with
  | None => top = []
  | Some b =>
      In b top /\ forall x, In x top -> (recommender.value_of x <= recommender.value_of b)%Q
  end.
Proof.
  cbv zeta. unfold recommender.generate_recommendations, service.bind, service.ret.
  destruct (recommender.all_options self origin_airport destination_airport travel_date
              available_miles (recommender.preferences_or_default user_preferences) t)
    as [pool t1].
  simpl.
  set (p := recommender.preferences_or_default user_preferences).
  set (kept := List.filter _ pool).
  assert (Hin : forall x, In x (recommender.order p kept) <->
                  In x pool /\
                  (recommender.min_value_per_mile p <= recommender.value_of x)%Q).
  { intros x. split.
    - intros H. apply (Permutation_in _ (order_Permutation p kept)) in H.
      apply filter_In in H. destruct H as [H1 H2]. split; [exact H1 | now apply Qleb_le].
    - intros [H1 H2].
      apply (Permutation_in _ (Permutation_sym (order_Permutation p kept))).
      apply filter_In. split; [exact H1 | now apply Qleb_le]. }
  split.
  { intros x _ Hlt Hx. apply firstn_In, Hin in Hx. destruct Hx as [_ Hle].
    now apply (Qlt_not_le _ _ Hlt). }
  split; [exact Hin|].
  split; [apply order_Permutation|].
  split; [intros Hmax; unfold recommender.order; rewrite Hmax; apply sort_by_reverse_sorted|].
  split; [intros Hmax Hmin; unfold recommender.order; rewrite Hmax, Hmin;
          apply sort_by_sorted|].
  split; [reflexivity|]. split; [reflexivity|].
  apply max_by_spec.
Qed.

Lemma generate_recommendations_selection_witness :
  let self := recommender.init {| amadeus_client.client := None |} in
  let day := {| amadeus_client.year := 2024; amadeus_client.month := 6;
                amadeus_client.day := 15 |} in
  let p := recommender.preferences_or_default None in
  let q :=
    recommender.preferences_or_default
      (Some {| recommender.maximize_value := false;
               recommender.minimize_fees := true;
               recommender.prefer_direct_flights := true;
               recommender.max_layovers := 1;
               recommender.hotel_preference := "any";
               recommender.include_alternatives := true;
               recommender.min_value_per_mile := 1 |}) in
  StronglySorted (fun a b => (recommender.value_of b <= recommender.value_of a)%Q)
    (recommender.order p
       (List.filter
          (fun x => num.Qleb (recommender.min_value_per_mile p) (recommender.value_of x))
          (fst (recommender.all_options self "JFK" "LAX" day 50000 p 0%nat)))) /\
  StronglySorted (fun a b => (recommender.fees a <= recommender.fees b)%Q)
    (recommender.order q
       (List.filter
          (fun x => num.Qleb (recommender.min_value_per_mile q) (recommender.value_of x))
          (fst (recommender.all_options self "JFK" "LAX" day 50000 q 0%nat)))).
Proof.
  cbv zeta. split.
  - pose proof (generate_recommendations_selection
                  (recommender.init {| amadeus_client.client := None |}) "JFK" "LAX"
                  {| amadeus_client.year := 2024; amadeus_client.month := 6;
                     amadeus_client.day := 15 |} 50000 None 0%nat) as H.
    cbv zeta in H. destruct H as (_ & _ & _ & H & _).
    exact (H eq_refl).
  - pose proof (generate_recommendations_selection
                  (recommender.init {| amadeus_client.client := None |}) "JFK" "LAX"
                  {| amadeus_client.year := 2024; amadeus_client.month := 6;
                     amadeus_client.day := 15 |} 50000
                  (Some {| recommender.maximize_value := false;
                           recommender.minimize_fees := true;
                           recommender.prefer_direct_flights := true;
                           recommender.max_layovers := 1;
                           recommender.hotel_preference := "any";
                           recommender.include_alternatives := true;
                           recommender.min_value_per_mile := 1 |}) 0%nat) as H.
    cbv zeta in H. destruct H as (_ & _ & _ & _ & H & _).
    exact (H eq_refl eq_refl).
Defined.

(** ** Determinism *)

Lemma independent_ret {A} (a : A) : service.independent (service.ret a).
Proof. intros t t'. reflexivity. Qed.

Lemma independent_bind {A B} (m : service.M A) (k : A -> service.M B) :
  service.independent m -> (forall a, service.independent (k a)) ->
  service.independent (service.bind m k).
Proof.
  intros Hm Hk t t'. unfold service.bind.
  specialize (Hm t t'). destruct (m t) as [a t1], (m t') as [a' t1'].
  simpl in Hm. subst a'. apply Hk.
Qed.

Lemma independent_for_each {A B} (body : A -> service.M (option B)) (l : list A) :
  (forall x, service.independent (body x)) ->
  service.independent (service.for_each body l).
Proof.
  intros Hbody. induction l as [|x l IH]; simpl.
  - apply independent_ret.
  - apply independent_bind; [apply Hbody|]. intros r.
    apply independent_bind; [exact IH|]. intros rs. apply independent_ret.
Qed.

Lemma search_flights_independent (c : amadeus_client.AmadeusClient)
    (origin destination : string) (departure_date : amadeus_client.date) (max_offers : Z) :
  amadeus_client.steady c ->
  service.independent
    (amadeus_client.search_flights c origin destination departure_date max_offers).
Proof.
  unfold amadeus_client.steady, amadeus_client.search_flights.
  destruct (amadeus_client.client c) as [get|]; [|intros _; apply independent_ret].
  intros Hget t t'. rewrite (Hget t t').
  now destruct (get t' _).
Qed.

Lemma find_optimal_routes_independent (self : route_optimizer.RouteOptimizer)
    (origin destination : string) (travel_date : amadeus_client.date) (max_routes : nat) :
  amadeus_client.steady (route_optimizer.amadeus_client self) ->
  service.independent
    (route_optimizer.find_optimal_routes self origin destination travel_date max_routes).
Proof.
  intros Hc. unfold route_optimizer.find_optimal_routes.
  apply independent_bind.
  - unfold route_optimizer.find_direct_routes.
    apply independent_bind; [now apply search_flights_independent|].
    intros offers. apply independent_ret.
  - intros direct_routes. apply independent_bind; [|intros; apply independent_ret].
    unfold route_optimizer.find_layover_routes.
    apply independent_for_each. intros hub.
    unfold route_optimizer.layover_route.
    destruct (String.eqb hub origin || String.eqb hub destination);
      [apply independent_ret|].
    apply independent_bind; [now apply search_flights_independent|]. intros l1.
    apply independent_bind; [now apply search_flights_independent|]. intros l2.
    apply independent_ret.
Qed.

Lemma generate_recommendations_independent (self : recommender.RedemptionRecommender)
    (origin_airport destination_airport : string) (travel_date : amadeus_client.date)
    (available_miles : Z) (user_preferences : option recommender.UserPreferences) :
  amadeus_client.steady (route_optimizer.amadeus_client (recommender.route_optimizer self)) ->
  service.independent
    (recommender.generate_recommendations self origin_airport destination_airport
       travel_date available_miles user_preferences).
Proof.
  intros Hc. unfold recommender.generate_recommendations.
  apply independent_bind; [|intros; apply independent_ret].
  unfold recommender.all_options.
  apply independent_bind; [|intros; apply independent_ret].
  unfold recommender.get_flight_options.
  apply independent_bind; [|intros; apply independent_ret].
  now apply find_optimal_routes_independent.
Qed.

(** The one effect in the pipeline is the remote flight service.  With
    an unchanged data source (the mock offers, or a client whose answers
    do not change), [generate_recommendations] returns the same result
    for the same arguments whatever requests the service has already
    received; in particular a second call right after the first returns
    the result of the first.  This is the part of C8 that a theorem can
    carry: that nothing else varies from one call to the next is read
    off the program text, where every function here is a function of
    its arguments. *)
Theorem generate_recommendations_deterministic (self : recommender.RedemptionRecommender)
    (origin_airport destination_airport : string) (travel_date : amadeus_client.date)
    (available_miles : Z) (user_preferences : option recommender.UserPreferences)
    (t t' : nat) :
  amadeus_client.steady (route_optimizer.amadeus_client (recommender.route_optimizer self)) ->
  let call :=
    recommender.generate_recommendations self origin_airport destination_airport
      travel_date available_miles user_preferences in
  fst (call t) = fst (call t') /\
  (let '(first, t1) := call t in
   let '(second, _) := call t1 in
   first = second).
Proof.
  intros Hc. cbv zeta.
  pose proof (generate_recommendations_independent self origin_airport destination_airport
                travel_date available_miles user_preferences Hc) as H.
  split; [apply H|].
  specialize
    (H t (snd (recommender.generate_recommendations self origin_airport
                 destination_airport travel_date available_miles user_preferences t))).
  destruct (recommender.generate_recommendations self origin_airport destination_airport
              travel_date available_miles user_preferences t) as [first t1].
  simpl in H.
  destruct (recommender.generate_recommendations self origin_airport destination_airport
              travel_date available_miles user_preferences t1) as [second t2].
  exact H.
Qed.

Lemma generate_recommendations_deterministic_witness :
  let self := recommender.init {| amadeus_client.client := None |} in
  let day := {| amadeus_client.year := 2024; amadeus_client.month := 6;
                amadeus_client.day := 15 |} in
  fst (recommender.generate_recommendations self "JFK" "LAX" day 50000 None 0%nat)
  = fst (recommender.generate_recommendations self "JFK" "LAX" day 50000 None 7%nat).
Proof.
  cbv zeta.
  apply (generate_recommendations_deterministic
           (recommender.init {| amadeus_client.client := None |}) "JFK" "LAX"
           {| amadeus_client.year := 2024; amadeus_client.month := 6;
              amadeus_client.day := 15 |} 50000 None 0%nat 7%nat).
  exact I.
Defined.

(** The hypothesis of an unchanged source matters: a client that
    answers the first request with no offer and raises afterwards makes
    the same search return different offers. *)
Remark search_flights_changing_source :
  let changing :=
    {| amadeus_client.client :=
         Some (fun n _ => match n with
                          | O => amadeus_client.Offers []
                          | S _ => amadeus_client.Raised
                          end) |} in
  let day := {| amadeus_client.year := 2024; amadeus_client.month := 6;
                amadeus_client.day := 15 |} in
  ~ amadeus_client.steady changing /\
  fst (amadeus_client.search_flights changing "JFK" "LAX" day 5 0%nat) = [] /\
  length (fst (amadeus_client.search_flights changing "JFK" "LAX" day 5 1%nat)) = 2%nat.
Proof.
  cbv zeta. split; [|split; reflexivity].
  intros H. specialize (H 0%nat 1%nat
    {| amadeus_client.originLocationCode := ""; amadeus_client.destinationLocationCode := "";
       amadeus_client.departureDate := ""; amadeus_client.returnDate := None;
       amadeus_client.adults := 1; amadeus_client.max := 1 |}).
  discriminate H.
Qed.

(** * Further properties of the engine *)

(** ** The distance tables *)

Lemma _calculate_distance_values (a b : string) :
  In (route_optimizer._calculate_distance a b)
     [2475; 740; 760; 1389; 1744; 1947; 1235; 606; 802; 731; 1000].
Proof.
  unfold route_optimizer._calculate_distance.
  assert (Hkey : forall k d, route_optimizer.distances !! k = Some d ->
                   In d [2475; 740; 760; 1389; 1744; 1947; 1235; 606; 802; 731; 1000]).
  { intros k d H. apply elem_of_list_to_map_2 in H.
    repeat (apply elem_of_cons in H; destruct H as [H|H];
            [injection H as _ ->; cbn [In]; tauto|]).
    now apply elem_of_nil in H. }
  destruct (route_optimizer.distances !! (a, b)) as [d|] eqn:Hab; [now apply (Hkey (a, b))|].
  destruct (route_optimizer.distances !! (b, a)) as [d|] eqn:Hba; [now apply (Hkey (b, a))|].
  cbn [In]. tauto.
Qed.

(** Case analysis on the value of [_calculate_distance a b]. *)
Ltac distance_cases a b :=
  let H := fresh "Hd" in
  pose proof (_calculate_distance_values a b) as H; cbn [In] in H;
  repeat (destruct H as [H|H]); [..|contradiction H]; rewrite <- H.

(** The flight client and the route optimizer measure the same
    distances: the two copies of the table agree; the distance is
    symmetric, lies between 606 and 2475 miles, and is the default of
    1000 miles for a pair that is stored in neither direction, a pair
    of equal airports included. *)
Theorem _calculate_distance_consistent (a b : string) :
  amadeus_client._calculate_distance a b = route_optimizer._calculate_distance a b /\
  amadeus_client._calculate_distance a b = amadeus_client._calculate_distance b a /\
  606 <= route_optimizer._calculate_distance a b <= 2475 /\
  route_optimizer._calculate_distance a a = 1000.
Proof.
  assert (Heq : forall x y, amadeus_client._calculate_distance x y
                            = route_optimizer._calculate_distance x y)
    by reflexivity.
  split; [apply Heq|].
  split; [rewrite !Heq; apply _calculate_distance_sym|].
  split; [distance_cases a b; lia|].
  unfold route_optimizer._calculate_distance.
  destruct (route_optimizer.distances !! (a, a)) as [d|] eqn:H; [|reflexivity].
  pose proof (distances_one_way a a d H) as H'. congruence.
Qed.

(** ** The award charts *)

(** With the built-in charts the international price of a pair of
    airports is always above its domestic price; the domestic price is
    one of 12500, 20000, 25000 and 35000 and the international price is
    30000 or 40000: the first domestic zone and the last three
    international zones are never reached by any pair of airports. *)
Theorem _get_award_cost_reachable (client : amadeus_client.AmadeusClient) (a b : string) :
  let self := route_optimizer.init client in
  route_optimizer._get_award_cost self a b false
  < route_optimizer._get_award_cost self a b true /\
  In (route_optimizer._get_award_cost self a b false) [12500; 20000; 25000; 35000] /\
  In (route_optimizer._get_award_cost self a b true) [30000; 40000].
Proof.
  cbv zeta. unfold route_optimizer._get_award_cost.
  distance_cases a b; cbn; repeat split; try reflexivity; tauto.
Qed.

(** ** Synthetic savings *)

(** The flag [is_worthwhile] is decided by the percentage alone: it is
    set exactly when [savings_percentage] exceeds 10, and the separate
    test that the savings are positive never decides.  A layover that
    is flagged costs less than the direct route, whose cost is then
    positive; for a direct cost of zero or less the percentage is 0 and
    nothing is flagged. *)
Theorem is_worthwhile_spec (direct_cost layover_cost : Q) :
  let analysis := route_optimizer.calculate_synthetic_savings direct_cost layover_cost in
  route_optimizer.is_worthwhile analysis
  = num.Qltb 10 (route_optimizer.savings_percentage analysis) /\
  (route_optimizer.is_worthwhile analysis = true ->
   (0 < direct_cost)%Q /\ (layover_cost < direct_cost)%Q) /\
  ((direct_cost <= 0)%Q ->
   route_optimizer.savings_percentage analysis = 0%Q /\
   route_optimizer.is_worthwhile analysis = false).
Proof.
  cbv zeta. unfold route_optimizer.calculate_synthetic_savings.
  cbn [route_optimizer.is_worthwhile route_optimizer.savings_percentage].
  destruct (num.Qltb 0 direct_cost) eqn:Hd.
  - apply Qltb_lt in Hd.
    assert (Hne : ~ (direct_cost == 0)%Q) by (intros E; rewrite E in Hd; discriminate Hd).
    assert (Hpct : (10 < (direct_cost - layover_cost) / direct_cost * 100)%Q ->
                   (10 * direct_cost < (direct_cost - layover_cost) * 100)%Q).
    { intros H. apply (Qmult_lt_r _ _ direct_cost Hd) in H.
      assert (E : ((direct_cost - layover_cost) / direct_cost * 100 * direct_cost
                   == (direct_cost - layover_cost) * 100)%Q) by (field; exact Hne).
      now rewrite E in H. }
    split; [|split].
    + destruct (num.Qltb 10 _) eqn:H10; [|apply andb_false_r].
      apply Qltb_lt, Hpct in H10.
      assert (H0 : (0 < direct_cost - layover_cost)%Q) by lra.
      apply Qltb_lt in H0. now rewrite H0.
    + intros H. apply andb_true_iff in H as [H0 _]. apply Qltb_lt in H0.
      split; [exact Hd | lra].
    + intros H. lra.
  - split; [|split].
    + apply andb_false_r.
    + intros H. apply andb_true_iff in H as [_ H]. discriminate H.
    + intros _. split; [reflexivity | apply andb_false_r].
Qed.

(** ** The ranking *)

(** [rank_routes_by_value] returns one analysis per route, in descending
    order of final score, analyses of equal score in the order of their
    routes. *)
Theorem rank_routes_by_value_sorted (routes_list : list route_optimizer.FlightRoute) :
  let ranked := route_optimizer.rank_routes_by_value routes_list in
  Permutation (map route_optimizer.route ranked) routes_list /\
  length ranked = length routes_list /\
  StronglySorted
    (fun a b => (route_optimizer.final_score b <= route_optimizer.final_score a)%Q) ranked /\
  (forall v,
     map route_optimizer.route
       (List.filter (fun a => Qeq_bool (route_optimizer.final_score a) v) ranked)
     = List.filter
         (fun r => Qeq_bool (route_optimizer.final_score (route_optimizer.value_analysis r)) v)
         routes_list).
Proof.
  cbv zeta. unfold route_optimizer.rank_routes_by_value.
  assert (Hmap : forall l, map route_optimizer.route (map route_optimizer.value_analysis l) = l).
  { induction l as [|r l IH]; [reflexivity|]. cbn [map]. now rewrite IH. }
  split.
  { rewrite <- (Hmap routes_list) at 2. apply Permutation_map, sort_by_reverse_Permutation. }
  split.
  { rewrite (Permutation_length (sort_by_reverse_Permutation _ _)). apply length_map. }
  split; [apply sort_by_reverse_sorted|].
  intros v. rewrite sort_by_reverse_stable.
  induction routes_list as [|r l IH]; [reflexivity|].
  cbn [map List.filter].
  destruct (Qeq_bool (route_optimizer.final_score (route_optimizer.value_analysis r)) v);
    [cbn [map]; now rewrite IH | exact IH].
Qed.

(** ** Integers written and read back *)

Lemma strip_no_space (l : list ascii) :
  List.Forall (fun c => pystr.is_space c = false) l -> pystr.strip l = l.
Proof.
  intros H. unfold pystr.strip.
  assert (Hl : forall l', List.Forall (fun c => pystr.is_space c = false) l' ->
                          pystr.lstrip l' = l').
  { intros [|c l'] Hc; [reflexivity|]. cbn [pystr.lstrip].
    inversion Hc as [|? ? Hc1 _]; subst. now rewrite Hc1. }
  rewrite (Hl l H), (Hl (rev l)); [apply rev_involutive|].
  apply List.Forall_forall. intros c Hc. apply in_rev in Hc.
  rewrite List.Forall_forall in H. now apply H.
Qed.

Lemma uint_chars (d : Decimal.uint) :
  List.Forall (fun c => pystr.is_digit c = true)
    (list_ascii_of_string (NilEmpty.string_of_uint d)).
Proof.
  induction d; cbn [NilEmpty.string_of_uint list_ascii_of_string];
    constructor; try reflexivity; assumption.
Qed.

Lemma digits_acc (d : Decimal.uint) (p : positive) :
  pystr.digits (Z.pos p) true (list_ascii_of_string (NilEmpty.string_of_uint d))
  = Some (Z.pos (Pos.of_uint_acc d p)).
Proof.
  revert p. induction d; intros p;
    cbn [NilEmpty.string_of_uint list_ascii_of_string pystr.digits Pos.of_uint_acc];
    try reflexivity;
    (replace (pystr.is_digit _) with true by reflexivity); cbv iota;
    match goal with
    | |- pystr.digits ?z true _ = Some (Z.pos (Pos.of_uint_acc _ ?q)) =>
        replace z with (Z.pos q)
          by (match goal with
              | |- context [pystr.digit_value ?c] =>
                  let v := eval vm_compute in (pystr.digit_value c) in
                  change (pystr.digit_value c) with v
              end; lia)
    end; apply IHd.
Qed.

Lemma digits_zero (d : Decimal.uint) :
  pystr.digits 0 true (list_ascii_of_string (NilEmpty.string_of_uint d))
  = Some (Z.of_N (Pos.of_uint d)).
Proof.
  induction d;
    cbn [NilEmpty.string_of_uint list_ascii_of_string pystr.digits Pos.of_uint];
    try reflexivity;
    (replace (pystr.is_digit _) with true by reflexivity); cbv iota;
    [exact IHd | ..];
    match goal with
    | |- pystr.digits ?z true _ = Some (Z.of_N (N.pos (Pos.of_uint_acc _ ?q))) =>
        change z with (Z.pos q)
    end; apply digits_acc.
Qed.

Lemma digit_not_special (c : ascii) :
  pystr.is_digit c = true ->
  pystr.is_space c = false /\ Ascii.eqb c "-" = false /\ Ascii.eqb c "+" = false /\
  Ascii.eqb c "H" = false.
Proof.
  destruct c as [[] [] [] [] [] [] [] []]; intros H;
    try discriminate H; repeat split.
Qed.

Lemma str_of_Z_shape (n : Z) :
  exists u,
    num.str_of_Z n = (if n <? 0 then String "-" u else u) /\
    list_ascii_of_string u <> [] /\
    List.Forall (fun c => pystr.is_digit c = true) (list_ascii_of_string u) /\
    pystr.digits 0 true (list_ascii_of_string u) = Some (Z.abs n).
Proof.
  assert (Hp : forall p,
             let u := NilZero.string_of_uint (Pos.to_uint p) in
             list_ascii_of_string u <> [] /\
             List.Forall (fun c => pystr.is_digit c = true) (list_ascii_of_string u) /\
             pystr.digits 0 true (list_ascii_of_string u) = Some (Z.pos p)).
  { intros p. cbv zeta. pose proof (DecimalPos.Unsigned.of_to p) as Hof.
    destruct (Pos.to_uint p) as [|d|d|d|d|d|d|d|d|d|d] eqn:E; [discriminate Hof|..];
      unfold NilZero.string_of_uint; cbv iota;
      (split; [cbn; discriminate|]); (split; [apply uint_chars|]);
      rewrite digits_zero, Hof; reflexivity. }
  destruct n as [|p|p].
  - exists "0". repeat split; [discriminate | repeat constructor].
  - exists (NilZero.string_of_uint (Pos.to_uint p)). split; [reflexivity | apply Hp].
  - exists (NilZero.string_of_uint (Pos.to_uint p)). split; [reflexivity | apply Hp].
Qed.

Lemma int_str_of_Z (n : Z) : pystr.int (num.str_of_Z n) = pystr.Return n.
Proof.
  destruct (str_of_Z_shape n) as (u & Hu & Hne & Hdig & Hval).
  assert (Hsp : List.Forall (fun c => pystr.is_space c = false) (list_ascii_of_string u)).
  { eapply List.Forall_impl; [|exact Hdig]. intros c Hc. now apply digit_not_special. }
  assert (Hfalse : pystr.digits 0 false (list_ascii_of_string u) = Some (Z.abs n)).
  { rewrite <- Hval. destruct (list_ascii_of_string u) as [|c l]; [now contradiction Hne|].
    inversion Hdig as [|? ? Hc _]; subst. cbn [pystr.digits]. now rewrite Hc. }
  rewrite Hu. unfold pystr.int. destruct (n <? 0) eqn:Hn.
  - cbn [list_ascii_of_string]. rewrite strip_no_space by (constructor; [reflexivity | exact Hsp]).
    cbn [Ascii.eqb Bool.eqb]. cbv iota. rewrite Hfalse.
    apply Z.ltb_lt in Hn. f_equal. lia.
  - rewrite strip_no_space by exact Hsp.
    destruct (list_ascii_of_string u) as [|c l] eqn:El; [now contradiction Hne|].
    inversion Hdig as [|? ? Hc _]; subst.
    destruct (digit_not_special c Hc) as (_ & -> & -> & _).
    rewrite Hfalse. apply Z.ltb_ge in Hn. f_equal. lia.
Qed.

Lemma str_of_Z_no_H (n : Z) : pystr.contains "H" (num.str_of_Z n) = false.
Proof.
  destruct (str_of_Z_shape n) as (u & Hu & _ & Hdig & _).
  assert (Hno : pystr.contains "H" u = false).
  { clear Hu. induction u as [|c u IH]; [reflexivity|].
    cbn [list_ascii_of_string] in Hdig. inversion Hdig as [|? ? Hc Hrest]; subst.
    cbn [pystr.contains]. destruct (digit_not_special c Hc) as (_ & _ & _ & ->).
    now apply IH. }
  rewrite Hu. destruct (n <? 0); [cbn [pystr.contains]; exact Hno | exact Hno].
Qed.

Lemma split_head_app (s : string) :
  pystr.contains "H" s = false ->
  pystr.contains "H" (s ++ "H") = true /\ pystr.split_head "H" (s ++ "H") = s.
Proof.
  induction s as [|c s IH]; [intros _; split; reflexivity|].
  change (String c s ++ "H")%string with (String c (s ++ "H")).
  cbn [pystr.contains pystr.split_head].
  destruct (Ascii.eqb c "H"); [discriminate|].
  intros H. destruct (IH H) as [-> ->]. now split.
Qed.

Lemma round_binary64_exact (n : Z) :
  Z.abs n <= 2 ^ 53 -> pystr.round_binary64 n = n.
Proof.
  intros Hn. unfold pystr.round_binary64.
  destruct (Z.eq_dec (Z.abs n) (2 ^ 53)) as [E|E].
  - rewrite E. change (Z.log2 (2 ^ 53) - 52 <=? 0) with false.
    change (2 ^ 53 / 2 ^ (Z.log2 (2 ^ 53) - 52)) with (2 ^ 52).
    change (2 ^ 53 mod 2 ^ (Z.log2 (2 ^ 53) - 52)) with 0.
    change (2 ^ (Z.log2 (2 ^ 53) - 52 - 1)) with 1.
    change (2 ^ (Z.log2 (2 ^ 53) - 52)) with 2.
    cbn [Z.ltb Z.compare orb Z.eqb andb].
    change (2 ^ 52 * 2) with (2 ^ 53). rewrite <- E.
    rewrite Z.mul_comm. apply Z.abs_sgn.
  - assert (Hlog : Z.log2 (Z.abs n) < 53).
    { destruct (Z.eq_dec (Z.abs n) 0) as [E0|E0]; [now rewrite E0|].
      apply Z.log2_lt_pow2; lia. }
    destruct (Z.leb_spec (Z.log2 (Z.abs n) - 52) 0) as [_|H]; [reflexivity | lia].
Qed.

(** An hours-only duration written from an integer is read back as that
    integer: [_parse_duration] of ["PT" + str(n) + "H"] is [n], for every
    integer of magnitude up to [2^53], the range in which a float holds
    every integer exactly. *)
Theorem _parse_duration_of_hours (n : Z) :
  Z.abs n <= 2 ^ 53 ->
  route_optimizer._parse_duration ("PT" ++ num.str_of_Z n ++ "H") = inject_Z n.
Proof.
  intros Hn. pose proof (round_binary64_exact n Hn) as Hround.
  assert (Hfit : Z.abs n < 2 ^ 1024 - 2 ^ 970).
  { eapply Z.le_lt_trans; [exact Hn|]. vm_compute. reflexivity. }
  clear Hn. rename Hfit into Hn.
  unfold route_optimizer._parse_duration, route_optimizer._parse_duration_body.
  change ("PT" ++ num.str_of_Z n ++ "H")%string
    with (String "P" (String "T" (num.str_of_Z n ++ "H"))).
  cbn [pystr.startswith String.prefix pystr.drop].
  destruct (ascii_dec "P" "P") as [_|E]; [|now contradiction E].
  destruct (ascii_dec "T" "T") as [_|E]; [|now contradiction E].
  assert (Hp : forall s, String.prefix "" s = true) by now intros [].
  rewrite Hp.
  destruct (split_head_app _ (str_of_Z_no_H n)) as [-> ->].
  rewrite int_str_of_Z. cbn [pystr.bind]. unfold pystr.float.
  apply Z.leb_gt in Hn. rewrite Hn, Hround. reflexivity.
Qed.

Lemma _parse_duration_of_hours_witness :
  route_optimizer._parse_duration ("PT" ++ num.str_of_Z 12 ++ "H") = inject_Z 12.
Proof.
  apply (_parse_duration_of_hours 12). vm_compute. discriminate.
Defined.

(** ** Searches that fall back to the mock offers *)

Lemma search_flights_falls_back (c : amadeus_client.AmadeusClient)
    (origin destination : string) (departure_date : amadeus_client.date)
    (max_offers : Z) (t : nat) :
  amadeus_client.falls_back c ->
  fst (amadeus_client.search_flights c origin destination departure_date max_offers t)
  = amadeus_client._get_mock_flights origin destination departure_date None.
Proof.
  unfold amadeus_client.falls_back, amadeus_client.search_flights.
  destruct (amadeus_client.client c) as [get|]; [|reflexivity].
  intros H. now rewrite H.
Qed.

Lemma falls_back_steady (c : amadeus_client.AmadeusClient) :
  amadeus_client.falls_back c -> amadeus_client.steady c.
Proof.
  unfold amadeus_client.falls_back, amadeus_client.steady.
  destruct (amadeus_client.client c) as [get|]; [|trivial].
  intros H n m request. now rewrite !H.
Qed.

Lemma for_each_omap {A B} (body : A -> service.M (option B)) (l : list A) (t : nat) :
  (forall x, service.independent (body x)) ->
  fst (service.for_each body l t) = omap (fun x => fst (body x 0%nat)) l.
Proof.
  intros Hbody. revert t. induction l as [|x l IH]; intros t; [reflexivity|].
  rewrite for_each_cons. specialize (Hbody x t 0%nat).
  destruct (body x t) as [r t1]. specialize (IH t1).
  destruct (service.for_each body l t1) as [rs t2].
  cbn [fst] in *. cbn [omap list_omap]. rewrite <- Hbody, <- IH. reflexivity.
Qed.

(** When the flight service is unavailable or failing, a search never
    comes back empty: it returns exactly two offers, the first one
    non-stop and the second one with one stop, priced at 12 and 22.5
    cents per mile of distance, both lasting one hour per started 500
    miles plus one.  A search without a client leaves the service
    untouched; a search with a client sends exactly one request. *)
Theorem search_flights_fallback (c : amadeus_client.AmadeusClient)
    (origin destination : string) (departure_date : amadeus_client.date)
    (max_offers : Z) (t : nat) :
  let distance := amadeus_client._calculate_distance origin destination in
  let result :=
    amadeus_client.search_flights c origin destination departure_date max_offers t in
  (amadeus_client.falls_back c ->
   map amadeus_client.stops (fst result) = [0; 1] /\
   map amadeus_client.price (fst result)
   = [(inject_Z distance * (15 # 100) * (8 # 10))%Q;
      (inject_Z distance * (15 # 100) * (15 # 10))%Q] /\
   map (fun offer => route_optimizer._parse_duration (amadeus_client.duration offer))
     (fst result)
   = [inject_Z (distance / 500 + 1); inject_Z (distance / 500 + 1)] /\
   map (fun offer => length (amadeus_client.segments offer)) (fst result) = [1; 2]%nat) /\
  (amadeus_client.client c = None -> snd result = t) /\
  (amadeus_client.client c <> None -> snd result = S t).
Proof.
  cbv zeta. split; [|split].
  - intros H. rewrite (search_flights_falls_back _ _ _ _ _ _ H).
    unfold amadeus_client._get_mock_flights. cbn [map amadeus_client.stops
      amadeus_client.price amadeus_client.duration amadeus_client.segments length].
    repeat split.
    assert (Hd : route_optimizer._parse_duration
                   ("PT" ++ num.str_of_Z
                              (num.floordiv
                                 (amadeus_client._calculate_distance origin destination) 500
                               + 1) ++ "H")
                 = inject_Z (amadeus_client._calculate_distance origin destination / 500 + 1)).
    { change (amadeus_client._calculate_distance origin destination)
        with (route_optimizer._calculate_distance origin destination).
      unfold num.floordiv. distance_cases origin destination; vm_compute; reflexivity. }
    now rewrite Hd.
  - unfold amadeus_client.search_flights. now intros ->.
  - unfold amadeus_client.search_flights.
    destruct (amadeus_client.client c) as [get|]; [|now intros H; contradiction H].
    intros _. now destruct (get t _).
Qed.

Lemma search_flights_fallback_witness :
  let day := {| amadeus_client.year := 2024; amadeus_client.month := 6;
                amadeus_client.day := 15 |} in
  let failing := {| amadeus_client.client := Some (fun _ _ => amadeus_client.Raised) |} in
  map amadeus_client.stops
    (fst (amadeus_client.search_flights failing "JFK" "LAX" day 5 3%nat)) = [0; 1] /\
  snd (amadeus_client.search_flights
         {| amadeus_client.client := None |} "JFK" "LAX" day 5 3%nat) = 3%nat /\
  snd (amadeus_client.search_flights failing "JFK" "LAX" day 5 3%nat) = 4%nat.
Proof.
  cbv zeta. split; [|split].
  - apply (search_flights_fallback
             {| amadeus_client.client := Some (fun _ _ => amadeus_client.Raised) |}
             "JFK" "LAX"
             {| amadeus_client.year := 2024; amadeus_client.month := 6;
                amadeus_client.day := 15 |} 5 3%nat).
    intros n request. reflexivity.
  - apply (search_flights_fallback {| amadeus_client.client := None |} "JFK" "LAX"
             {| amadeus_client.year := 2024; amadeus_client.month := 6;
                amadeus_client.day := 15 |} 5 3%nat).
    reflexivity.
  - apply (search_flights_fallback
             {| amadeus_client.client := Some (fun _ _ => amadeus_client.Raised) |}
             "JFK" "LAX"
             {| amadeus_client.year := 2024; amadeus_client.month := 6;
                amadeus_client.day := 15 |} 5 3%nat).
    discriminate.
Defined.

(** ** Direct and layover routes *)

Lemma direct_route_fields (self : route_optimizer.RouteOptimizer)
    (origin destination : string) (offer : amadeus_client.FlightOffer)
    (r : route_optimizer.FlightRoute) :
  route_optimizer.direct_route self origin destination offer = Some r ->
  amadeus_client.stops offer = 0 /\
  r = {| route_optimizer.origin := origin;
         route_optimizer.destination := destination;
         route_optimizer.route_type := "direct";
         route_optimizer.total_miles :=
           route_optimizer._get_award_cost self origin destination
             (2000 <? route_optimizer._calculate_distance origin destination);
         route_optimizer.total_fees := 50;
         route_optimizer.segments := amadeus_client.segments offer;
         route_optimizer.duration_hours :=
           route_optimizer._parse_duration (amadeus_client.duration offer);
         route_optimizer.layover_airports := [];
         route_optimizer.cash_price := amadeus_client.price offer;
         route_optimizer.airline := amadeus_client.airline offer |}.
Proof.
  unfold route_optimizer.direct_route.
  destruct (amadeus_client.stops offer =? 0) eqn:E; [|discriminate].
  intros [= <-]. split; [now apply Z.eqb_eq | reflexivity].
Qed.

Lemma find_direct_routes_omap (self : route_optimizer.RouteOptimizer)
    (origin destination : string) (travel_date : amadeus_client.date) (t : nat) :
  fst (route_optimizer.find_direct_routes self origin destination travel_date t)
  = omap (route_optimizer.direct_route self origin destination)
      (fst (amadeus_client.search_flights (route_optimizer.amadeus_client self)
              origin destination travel_date 5 t)).
Proof.
  unfold route_optimizer.find_direct_routes, service.bind, service.ret.
  now destruct (amadeus_client.search_flights _ origin destination travel_date 5 t).
Qed.

(** [find_direct_routes] keeps the non-stop offers of the search, in
    order, one route per offer: each route is of type direct with a fee
    of 50 and no layover airport, and it carries the offer's price,
    airline and segments; its miles come from the award chart alone and
    never from the offer. *)
Theorem find_direct_routes_spec (self : route_optimizer.RouteOptimizer)
    (origin destination : string) (travel_date : amadeus_client.date) (t : nat) :
  let offers :=
    fst (amadeus_client.search_flights (route_optimizer.amadeus_client self)
           origin destination travel_date 5 t) in
  let nonstop := List.filter (fun offer => amadeus_client.stops offer =? 0) offers in
  let found :=
    fst (route_optimizer.find_direct_routes self origin destination travel_date t) in
  map route_optimizer.cash_price found = map amadeus_client.price nonstop /\
  map route_optimizer.airline found = map amadeus_client.airline nonstop /\
  map route_optimizer.segments found = map amadeus_client.segments nonstop /\
  length found = length nonstop /\
  List.Forall
    (fun r =>
       route_optimizer.route_type r = "direct" /\
       route_optimizer.total_fees r = 50%Q /\
       route_optimizer.layover_airports r = [] /\
       route_optimizer.origin r = origin /\
       route_optimizer.destination r = destination /\
       route_optimizer.total_miles r
       = route_optimizer._get_award_cost self origin destination
           (2000 <? route_optimizer._calculate_distance origin destination))
    found.
Proof.
  cbv zeta. rewrite find_direct_routes_omap.
  generalize (fst (amadeus_client.search_flights (route_optimizer.amadeus_client self)
                     origin destination travel_date 5 t)).
  intros offers. induction offers as [|offer offers IH].
  - repeat split. constructor.
  - destruct IH as (H1 & H2 & H3 & H4 & H5).
    cbn [omap list_omap List.filter].
    destruct (route_optimizer.direct_route self origin destination offer) as [r|] eqn:E.
    + destruct (direct_route_fields _ _ _ _ _ E) as (Hs & ->).
      rewrite Hs. cbn [Z.eqb map length route_optimizer.cash_price route_optimizer.airline
                       route_optimizer.segments].
      rewrite H1, H2, H3, H4. repeat split. constructor; [now repeat split | exact H5].
    + unfold route_optimizer.direct_route in E.
      destruct (amadeus_client.stops offer =? 0); [discriminate E|]. now repeat split.
Qed.

Lemma layover_route_independent (self : route_optimizer.RouteOptimizer)
    (origin destination : string) (travel_date : amadeus_client.date) (hub : string) :
  amadeus_client.steady (route_optimizer.amadeus_client self) ->
  service.independent
    (route_optimizer.layover_route self origin destination travel_date hub).
Proof.
  intros Hc. unfold route_optimizer.layover_route.
  destruct (String.eqb hub origin || String.eqb hub destination);
    [apply independent_ret|].
  apply independent_bind; [now apply search_flights_independent|]. intros l1.
  apply independent_bind; [now apply search_flights_independent|]. intros l2.
  apply independent_ret.
Qed.

Lemma layover_route_fallback (self : route_optimizer.RouteOptimizer)
    (origin destination : string) (travel_date : amadeus_client.date) (hub : string)
    (t : nat) :
  amadeus_client.falls_back (route_optimizer.amadeus_client self) ->
  fst (route_optimizer.layover_route self origin destination travel_date hub t)
  = if String.eqb hub origin || String.eqb hub destination then None
    else
      match amadeus_client._get_mock_flights origin hub travel_date None,
            amadeus_client._get_mock_flights hub destination travel_date None with
      | segment1 :: _, segment2 :: _ =>
          Some (route_optimizer.combine_legs self origin destination hub segment1 segment2)
      | _, _ => None
      end.
Proof.
  intros Hc. unfold route_optimizer.layover_route.
  destruct (String.eqb hub origin || String.eqb hub destination); [reflexivity|].
  unfold service.bind, service.ret.
  pose proof (search_flights_falls_back _ origin hub travel_date 1 t Hc) as H1.
  destruct (amadeus_client.search_flights _ origin hub travel_date 1 t) as [l1 t1].
  pose proof (search_flights_falls_back _ hub destination travel_date 1 t1 Hc) as H2.
  destruct (amadeus_client.search_flights _ hub destination travel_date 1 t1) as [l2 t2].
  cbn [fst] in *. now rewrite H1, H2.
Qed.

Lemma find_layover_routes_fallback_length (self : route_optimizer.RouteOptimizer)
    (origin destination : string) (travel_date : amadeus_client.date)
    (hubs : list string) (t : nat) :
  amadeus_client.falls_back (route_optimizer.amadeus_client self) ->
  length (fst (route_optimizer.find_layover_routes self origin destination travel_date
                 (Some hubs) t))
  = length
      (List.filter (fun hub => negb (String.eqb hub origin || String.eqb hub destination))
         hubs).
Proof.
  intros Hc. unfold route_optimizer.find_layover_routes.
  rewrite for_each_omap
    by (intros hub; apply layover_route_independent; now apply falls_back_steady).
  induction hubs as [|hub hubs IH]; [reflexivity|].
  cbn [omap list_omap List.filter]. rewrite (layover_route_fallback _ _ _ _ _ _ Hc).
  destruct (String.eqb hub origin || String.eqb hub destination); [exact IH|].
  cbn [negb length amadeus_client._get_mock_flights]. now rewrite IH.
Qed.

(** When the flight service is unavailable or failing,
    [find_layover_routes] builds exactly one route for every hub that is
    neither the origin nor the destination, in the order of the hubs;
    that route names the hub as its only layover airport, and its
    description joins origin, hub and destination with the separator
    of the source file. *)
Theorem find_layover_routes_fallback (self : route_optimizer.RouteOptimizer)
    (origin destination : string) (travel_date : amadeus_client.date)
    (hubs : list string) (t : nat) :
  amadeus_client.falls_back (route_optimizer.amadeus_client self) ->
  let found :=
    fst (route_optimizer.find_layover_routes self origin destination travel_date
           (Some hubs) t) in
  let used :=
    List.filter (fun hub => negb (String.eqb hub origin || String.eqb hub destination))
      hubs in
  map route_optimizer.layover_airports found = map (fun hub => [hub]) used /\
  map route_optimizer.route_description found
  = map (fun hub => origin ++ " â†’ " ++ hub ++ " â†’ " ++ destination)%string used /\
  length found = length used.
Proof.
  intros Hc. cbv zeta.
  split; [|split; [|now apply find_layover_routes_fallback_length]];
    unfold route_optimizer.find_layover_routes;
    (rewrite for_each_omap
      by (intros hub; apply layover_route_independent; now apply falls_back_steady));
    (induction hubs as [|hub hubs IH]; [reflexivity|]);
    cbn [omap list_omap List.filter]; rewrite (layover_route_fallback _ _ _ _ _ _ Hc);
    (destruct (String.eqb hub origin || String.eqb hub destination); [exact IH|]);
    cbn [negb map amadeus_client._get_mock_flights]; rewrite IH; reflexivity.
Qed.

Lemma find_layover_routes_fallback_witness :
  let self := route_optimizer.init {| amadeus_client.client := None |} in
  let day := {| amadeus_client.year := 2024; amadeus_client.month := 6;
                amadeus_client.day := 15 |} in
  map route_optimizer.route_description
    (fst (route_optimizer.find_layover_routes self "JFK" "ORD" day
            (Some ["ATL"; "DFW"; "ORD"]) 0%nat))
  = ["JFK â†’ ATL â†’ ORD"; "JFK â†’ DFW â†’ ORD"].
Proof.
  cbv zeta.
  apply (find_layover_routes_fallback
           (route_optimizer.init {| amadeus_client.client := None |}) "JFK" "ORD"
           {| amadeus_client.year := 2024; amadeus_client.month := 6;
              amadeus_client.day := 15 |} ["ATL"; "DFW"; "ORD"] 0%nat).
  exact I.
Defined.

(** ** The optimal routes *)

Lemma find_optimal_routes_unfold (self : route_optimizer.RouteOptimizer)
    (origin destination : string) (travel_date : amadeus_client.date)
    (max_routes : nat) (t : nat) :
  let direct := route_optimizer.find_direct_routes self origin destination travel_date t in
  let layover :=
    route_optimizer.find_layover_routes self origin destination travel_date None
      (snd direct) in
  let all_routes := (fst direct ++ fst layover)%list in
  let res :=
    fst (route_optimizer.find_optimal_routes self origin destination travel_date
           max_routes t) in
  route_optimizer.routes res
  = firstn max_routes (route_optimizer.rank_routes_by_value all_routes) /\
  route_optimizer.best_route res = head (route_optimizer.routes res) /\
  route_optimizer.savings_opportunities res
  = match all_routes with
    | [] => []
    | _ :: _ => route_optimizer.opportunities (fst direct) (fst layover)
    end /\
  route_optimizer.counts res
  = match all_routes with
    | [] => None
    | _ :: _ => Some (Z.of_nat (length all_routes), Z.of_nat (length (fst direct)),
                      Z.of_nat (length (fst layover)))
    end /\
  (route_optimizer.message res = None <-> all_routes <> []).
Proof.
  cbv zeta. unfold route_optimizer.find_optimal_routes, service.bind, service.ret.
  destruct (route_optimizer.find_direct_routes self origin destination travel_date t)
    as [direct t1].
  cbn [fst snd].
  destruct (route_optimizer.find_layover_routes self origin destination travel_date None t1)
    as [layover t2].
  cbn [fst snd].
  destruct (direct ++ layover)%list as [|r l] eqn:E.
  - cbn. repeat split; try reflexivity;
      [symmetry; apply firstn_nil | intros H; discriminate H
       | intros H; now contradiction H].
  - cbn [fst route_optimizer.routes route_optimizer.best_route
         route_optimizer.savings_opportunities route_optimizer.counts
         route_optimizer.message].
    repeat split; try reflexivity; intros; try reflexivity; discriminate.
Qed.

Lemma sorted_firstn {A} (R : A -> A -> Prop) (n : nat) (l : list A) :
  StronglySorted R l -> StronglySorted R (firstn n l).
Proof.
  intros H. revert n. induction H as [|x l Hl IH Hx]; intros [|n]; cbn [firstn];
    try constructor; [apply IH|].
  apply List.Forall_forall. intros y Hy. apply firstn_In in Hy.
  rewrite List.Forall_forall in Hx. now apply Hx.
Qed.

(** [find_optimal_routes] returns at most [max_routes] analyses, in
    descending order of final score, each of them the analysis of a
    route found by the direct or the layover search; [best_route] is the
    first of them, and when at least one route is asked for its score is
    the highest of all the routes found, also of those cut off.  The
    message is set exactly when no route was found at all. *)
Theorem find_optimal_routes_spec (self : route_optimizer.RouteOptimizer)
    (origin destination : string) (travel_date : amadeus_client.date)
    (max_routes : nat) (t : nat) :
  let direct := route_optimizer.find_direct_routes self origin destination travel_date t in
  let layover :=
    route_optimizer.find_layover_routes self origin destination travel_date None
      (snd direct) in
  let all_routes := (fst direct ++ fst layover)%list in
  let res :=
    fst (route_optimizer.find_optimal_routes self origin destination travel_date
           max_routes t) in
  (length (route_optimizer.routes res) <= max_routes)%nat /\
  StronglySorted
    (fun a b => (route_optimizer.final_score b <= route_optimizer.final_score a)%Q)
    (route_optimizer.routes res) /\
  (forall a, In a (route_optimizer.routes res) ->
     exists r, In r all_routes /\ a = route_optimizer.value_analysis r) /\
  route_optimizer.best_route res = head (route_optimizer.routes res) /\
  ((0 < max_routes)%nat -> all_routes <> [] ->
   exists best,
     route_optimizer.best_route res = Some best /\
     forall r, In r all_routes ->
       (route_optimizer.final_score (route_optimizer.value_analysis r)
        <= route_optimizer.final_score best)%Q) /\
  (route_optimizer.message res = None <-> all_routes <> []) /\
  (route_optimizer.routes res = [] <-> all_routes = [] \/ max_routes = 0%nat).
Proof.
  cbv zeta.
  destruct (find_optimal_routes_unfold self origin destination travel_date max_routes t)
    as (Hr & Hb & _ & _ & Hm).
  cbv zeta in Hr, Hb, Hm. rewrite Hb, Hr.
  set (all_routes := (_ ++ _)%list) in *.
  pose proof (sort_by_reverse_sorted route_optimizer.final_score
                (map route_optimizer.value_analysis all_routes)) as Hsorted.
  fold (route_optimizer.rank_routes_by_value all_routes) in Hsorted.
  split; [apply firstn_le_length|].
  split; [now apply sorted_firstn|].
  split; [intros a Ha; apply firstn_In in Ha; now apply rank_routes_by_value_In|].
  split; [reflexivity|].
  split.
  { intros Hn Hne.
    destruct (route_optimizer.rank_routes_by_value all_routes) as [|best ranked] eqn:E.
    - exfalso. destruct all_routes as [|r l]; [now apply Hne|].
      assert (Hin : In (route_optimizer.value_analysis r)
                      (route_optimizer.rank_routes_by_value (r :: l)))
        by (apply rank_routes_by_value_In; exists r; split; [now left | reflexivity]).
      rewrite E in Hin. exact Hin.
    - destruct max_routes as [|n]; [inversion Hn|]. exists best. split; [reflexivity|].
      intros r Hin.
      assert (Ha : In (route_optimizer.value_analysis r) (best :: ranked))
        by (rewrite <- E; apply rank_routes_by_value_In; now exists r).
      destruct Ha as [<-|Ha]; [apply Qle_refl|].
      inversion Hsorted as [|? ? _ Hall]; subst.
      rewrite List.Forall_forall in Hall. now apply Hall. }
  split; [exact Hm|].
  split.
  - intros H. destruct max_routes as [|n]; [now right|]. left.
    destruct all_routes as [|r l]; [reflexivity|]. exfalso.
    assert (Hin : In (route_optimizer.value_analysis r)
                    (route_optimizer.rank_routes_by_value (r :: l)))
      by (apply rank_routes_by_value_In; exists r; split; [now left | reflexivity]).
    destruct (route_optimizer.rank_routes_by_value (r :: l)); [exact Hin | discriminate H].
  - intros [->| ->]; [now destruct max_routes | reflexivity].
Qed.

Lemma find_optimal_routes_spec_witness :
  let self := route_optimizer.init {| amadeus_client.client := None |} in
  let day := {| amadeus_client.year := 2024; amadeus_client.month := 6;
                amadeus_client.day := 15 |} in
  exists best,
    route_optimizer.best_route
      (fst (route_optimizer.find_optimal_routes self "JFK" "LAX" day 5 0%nat))
    = Some best.
Proof.
  cbv zeta.
  pose proof (find_optimal_routes_spec
                (route_optimizer.init {| amadeus_client.client := None |}) "JFK" "LAX"
                {| amadeus_client.year := 2024; amadeus_client.month := 6;
                   amadeus_client.day := 15 |} 5 0%nat) as H.
  cbv zeta in H. destruct H as (_ & _ & _ & _ & H & _).
  destruct H as (best & Hbest & _); [lia | discriminate |].
  now exists best.
Defined.

Lemma not_worthwhile (direct_cost layover_cost : Q) :
  ((9 # 10) * direct_cost <= layover_cost)%Q ->
  route_optimizer.is_worthwhile
    (route_optimizer.calculate_synthetic_savings direct_cost layover_cost) = false.
Proof.
  intros Hle. unfold route_optimizer.calculate_synthetic_savings. cbn.
  apply andb_false_iff.
  destruct (num.Qltb 0 direct_cost) eqn:Hd; [|now right].
  right. apply Qltb_ge. apply Qltb_lt in Hd.
  assert (Hq : ((direct_cost - layover_cost) / direct_cost <= 1 # 10)%Q)
    by (apply Qle_shift_div_r; [exact Hd | lra]).
  set (q := ((direct_cost - layover_cost) / direct_cost)%Q) in *. lra.
Qed.

Lemma far_pair (a b : string) :
  2000 < route_optimizer._calculate_distance a b ->
  (a = "JFK" /\ b = "LAX") \/ (a = "LAX" /\ b = "JFK").
Proof.
  unfold route_optimizer._calculate_distance.
  assert (Hkey : forall x y d, route_optimizer.distances !! (x, y) = Some d ->
                   2000 < d -> x = "JFK" /\ y = "LAX").
  { intros x y d H. apply elem_of_list_to_map_2 in H.
    repeat (apply elem_of_cons in H; destruct H as [H|H];
            [injection H as -> -> ->; intros Hd;
             first [now split | exfalso; lia]|]).
    now apply elem_of_nil in H. }
  destruct (route_optimizer.distances !! (a, b)) as [d|] eqn:Hab.
  { intros H. left. now apply (Hkey a b d). }
  destruct (route_optimizer.distances !! (b, a)) as [d|] eqn:Hba.
  { intros H. right. destruct (Hkey b a d Hba H). now split. }
  lia.
Qed.

Lemma domestic_cost_bounds (client : amadeus_client.AmadeusClient) (a b : string) :
  12500 <= route_optimizer._get_award_cost (route_optimizer.init client) a b false <= 35000.
Proof.
  unfold route_optimizer._get_award_cost. distance_cases a b; cbn; lia.
Qed.

Lemma near_direct_cost (client : amadeus_client.AmadeusClient) (a b : string) :
  route_optimizer._calculate_distance a b <= 2000 ->
  route_optimizer._get_award_cost (route_optimizer.init client) a b
    (2000 <? route_optimizer._calculate_distance a b) <= 25000.
Proof.
  unfold route_optimizer._get_award_cost. distance_cases a b; cbn; lia.
Qed.

Lemma find_layover_routes_In (self : route_optimizer.RouteOptimizer)
    (origin destination : string) (travel_date : amadeus_client.date)
    (hub_airports : option (list string)) (t : nat) (r : route_optimizer.FlightRoute) :
  In r (fst (route_optimizer.find_layover_routes self origin destination travel_date
               hub_airports t)) ->
  exists hub segment1 segment2,
    In hub (match hub_airports with
            | None => firstn 3 (route_optimizer.major_hubs self)
            | Some l => l
            end) /\
    hub <> origin /\ hub <> destination /\
    r = route_optimizer.combine_legs self origin destination hub segment1 segment2.
Proof.
  unfold route_optimizer.find_layover_routes. intros H.
  apply for_each_In in H. destruct H as (hub & t0 & Hin & H).
  apply layover_route_Some in H. destruct H as (Ho & Hd & s1 & s2 & ->).
  now exists hub, s1, s2.
Qed.

(** With the built-in charts, distances and hubs, [find_optimal_routes]
    never reports a savings opportunity, whatever the flight service
    answers: no layover through Atlanta, Dallas or Chicago costs less
    than nine tenths of the direct route. *)
Theorem no_savings_opportunities (client : amadeus_client.AmadeusClient)
    (origin destination : string) (travel_date : amadeus_client.date)
    (max_routes : nat) (t : nat) :
  route_optimizer.savings_opportunities
    (fst (route_optimizer.find_optimal_routes (route_optimizer.init client)
            origin destination travel_date max_routes t))
  = [].
Proof.
  destruct (find_optimal_routes_unfold (route_optimizer.init client) origin destination
              travel_date max_routes t) as (_ & _ & Hs & _).
  cbv zeta in Hs. rewrite Hs. clear Hs.
  set (direct := fst (route_optimizer.find_direct_routes _ _ _ _ t)).
  set (layover := fst (route_optimizer.find_layover_routes _ _ _ _ None _)).
  assert (Hdirect : forall r, In r direct ->
            route_optimizer.total_cost r
            = (inject_Z (route_optimizer._get_award_cost (route_optimizer.init client)
                           origin destination
                           (2000 <? route_optimizer._calculate_distance origin destination))
               + 50)%Q).
  { intros r Hr. apply find_direct_routes_In in Hr. destruct Hr as (offer & Hr).
    apply direct_route_fields in Hr. destruct Hr as (_ & ->). reflexivity. }
  assert (Hlayover : forall r, In r layover ->
            exists hub, In hub ["ATL"; "DFW"; "ORD"] /\
              route_optimizer.total_cost r
              = (inject_Z (route_optimizer._get_award_cost (route_optimizer.init client)
                             origin hub false
                           + route_optimizer._get_award_cost (route_optimizer.init client)
                               hub destination false)
                 + 75)%Q).
  { intros r Hr. apply find_layover_routes_In in Hr.
    destruct Hr as (hub & s1 & s2 & Hin & _ & _ & ->). now exists hub. }
  clearbody direct layover.
  destruct (direct ++ layover)%list as [|any rest]; [reflexivity|]. clear any rest.
  unfold route_optimizer.opportunities.
  destruct direct as [|first direct']; [reflexivity|].
  destruct layover as [|l0 layover'] eqn:El; [reflexivity|]. rewrite <- El in *.
  assert (Hnone : forall r, In r layover ->
            route_optimizer.is_worthwhile
              (route_optimizer.calculate_synthetic_savings
                 (route_optimizer.total_cost first) (route_optimizer.total_cost r)) = false).
  { intros r Hr. apply not_worthwhile.
    rewrite (Hdirect first) by now left.
    destruct (Hlayover r Hr) as (hub & Hhub & ->).
    destruct (Z_le_gt_dec (route_optimizer._calculate_distance origin destination) 2000)
      as [Hnear|Hfar].
    - pose proof (near_direct_cost client origin destination Hnear) as H0.
      pose proof (domestic_cost_bounds client origin hub) as [H1 _].
      pose proof (domestic_cost_bounds client hub destination) as [H2 _].
      rewrite inject_Z_plus.
      rewrite Zle_Qle in H0, H1, H2.
      change (inject_Z 25000) with 25000%Q in H0.
      change (inject_Z 12500) with 12500%Q in H1, H2. lra.
    - apply Z.gt_lt, far_pair in Hfar.
      cbn [In] in Hhub.
      destruct Hfar as [[-> ->]|[-> ->]];
        destruct Hhub as [<-|[<-|[<-|[]]]]; vm_compute; discriminate. }
  clear El l0 layover'. induction layover as [|r l IH]; [reflexivity|].
  cbn [omap list_omap]. rewrite (Hnone r) by now left.
  apply IH.
  - intros r' Hr'. apply Hlayover. now right.
  - intros r' Hr'. apply Hnone. now right.
Qed.

(** When the flight service is unavailable or failing, the standard
    optimizer always finds routes: exactly one direct route and one
    layover route for each of Atlanta, Dallas and Chicago that is
    neither the origin nor the destination, so between two and four
    routes in all, and the message for an empty result is never set. *)
Theorem find_optimal_routes_fallback (client : amadeus_client.AmadeusClient)
    (origin destination : string) (travel_date : amadeus_client.date)
    (max_routes : nat) (t : nat) :
  amadeus_client.falls_back client ->
  let res :=
    fst (route_optimizer.find_optimal_routes (route_optimizer.init client)
           origin destination travel_date max_routes t) in
  let hubs :=
    List.filter (fun hub => negb (String.eqb hub origin || String.eqb hub destination))
      ["ATL"; "DFW"; "ORD"] in
  route_optimizer.counts res
  = Some (1 + Z.of_nat (length hubs), 1, Z.of_nat (length hubs)) /\
  (1 <= length hubs <= 3)%nat /\
  route_optimizer.message res = None /\
  length (route_optimizer.routes res) = Nat.min max_routes (1 + length hubs).
Proof.
  intros Hc. cbv zeta.
  destruct (find_optimal_routes_unfold (route_optimizer.init client) origin destination
              travel_date max_routes t) as (Hr & _ & _ & Hn & Hm).
  cbv zeta in Hr, Hn, Hm.
  assert (Hdirect : length (fst (route_optimizer.find_direct_routes
                                   (route_optimizer.init client) origin destination
                                   travel_date t)) = 1%nat).
  { rewrite find_direct_routes_omap, (search_flights_falls_back _ _ _ _ _ _ Hc).
    reflexivity. }
  pose proof (find_layover_routes_fallback_length (route_optimizer.init client) origin
                destination travel_date ["ATL"; "DFW"; "ORD"]
                (snd (route_optimizer.find_direct_routes (route_optimizer.init client)
                        origin destination travel_date t)) Hc) as Hlayover.
  change (route_optimizer.find_layover_routes (route_optimizer.init client) origin
            destination travel_date (Some ["ATL"; "DFW"; "ORD"]))
    with (route_optimizer.find_layover_routes (route_optimizer.init client) origin
            destination travel_date None) in Hlayover.
  set (direct := fst (route_optimizer.find_direct_routes _ _ _ _ t)) in *.
  set (layover := fst (route_optimizer.find_layover_routes _ _ _ _ None _)) in *.
  set (hubs := List.filter _ ["ATL"; "DFW"; "ORD"]) in *.
  assert (Hlen : length (direct ++ layover)%list = (1 + length hubs)%nat)
    by (rewrite length_app, Hdirect, Hlayover; reflexivity).
  assert (Hhubs : (1 <= length hubs <= 3)%nat).
  { subst hubs. cbn [List.filter].
    destruct (String.eqb "ATL" origin) eqn:A1, (String.eqb "ATL" destination) eqn:A2,
      (String.eqb "DFW" origin) eqn:D1, (String.eqb "DFW" destination) eqn:D2,
      (String.eqb "ORD" origin) eqn:O1, (String.eqb "ORD" destination) eqn:O2;
      cbn [negb orb length]; try lia; exfalso;
      repeat match goal with
        | H : String.eqb _ _ = true |- _ => apply String.eqb_eq in H
        end; congruence. }
  split; [|split; [exact Hhubs|split]].
  - rewrite Hn. destruct (direct ++ layover)%list eqn:E; [discriminate Hlen|].
    rewrite Hlen, Hdirect, Hlayover. f_equal. f_equal. f_equal. lia.
  - apply Hm. intros E. rewrite E in Hlen. discriminate Hlen.
  - rewrite Hr, length_firstn. unfold route_optimizer.rank_routes_by_value.
    rewrite (Permutation_length (sort_by_reverse_Permutation _ _)), length_map, Hlen.
    reflexivity.
Qed.

Lemma find_optimal_routes_fallback_witness :
  let day := {| amadeus_client.year := 2024; amadeus_client.month := 6;
                amadeus_client.day := 15 |} in
  route_optimizer.message
    (fst (route_optimizer.find_optimal_routes
            (route_optimizer.init {| amadeus_client.client := None |})
            "JFK" "ORD" day 5 0%nat))
  = None.
Proof.
  cbv zeta.
  apply (find_optimal_routes_fallback {| amadeus_client.client := None |} "JFK" "ORD"
           {| amadeus_client.year := 2024; amadeus_client.month := 6;
              amadeus_client.day := 15 |} 5 0%nat).
  exact I.
Defined.

(** ** The pool of options *)

Lemma flight_option_Some (self : recommender.RedemptionRecommender) (available_miles : Z)
    (a : route_optimizer.ValueAnalysis) (x : recommender.Option) :
  recommender.flight_option self available_miles a = Some x ->
  recommender.type x = "flight" /\
  recommender.cost x = route_optimizer.total_miles (route_optimizer.route a) /\
  recommender.cost x <= available_miles /\
  recommender.is_affordable x = true /\
  recommender.value_per_point x = None /\
  recommender.value_per_mile x <> None.
Proof.
  unfold recommender.flight_option.
  destruct (route_optimizer.total_miles (route_optimizer.route a) <=? available_miles) eqn:E;
    [|discriminate].
  intros [= <-]. apply Z.leb_le in E. cbn. repeat split; [exact E | discriminate].
Qed.

Lemma hotel_option_Some (self : recommender.RedemptionRecommender) (destination : string)
    (available_points : Z) (chain : string) (entry : string * recommender.Award)
    (x : recommender.Option) :
  recommender.hotel_option self destination available_points chain entry = Some x ->
  recommender.type x = "hotel" /\
  recommender.cost x = recommender.points (snd entry) /\
  recommender.cost x <= available_points /\
  recommender.is_affordable x = true /\
  recommender.fees x = 0%Q /\
  recommender.value_per_mile x = None /\
  recommender.value_per_point x <> None.
Proof.
  unfold recommender.hotel_option. destruct entry as [category data].
  destruct (recommender.points data <=? available_points) eqn:E; [|discriminate].
  intros [= <-]. apply Z.leb_le in E. cbn. repeat split; [exact E | discriminate].
Qed.

Lemma giftcard_option_Some (self : recommender.RedemptionRecommender)
    (available_points : Z) (entry : string * recommender.Award) (x : recommender.Option) :
  recommender.giftcard_option self available_points entry = Some x ->
  recommender.type x = "giftcard" /\
  recommender.cost x <= available_points /\
  recommender.is_affordable x = true /\
  recommender.fees x = 0%Q /\
  recommender.value_per_mile x = None /\
  recommender.value_per_point x <> None.
Proof.
  unfold recommender.giftcard_option. destruct entry as [merchant data].
  destruct (recommender.points data <=? available_points) eqn:E; [|discriminate].
  intros [= <-]. apply Z.leb_le in E. cbn. repeat split; [exact E | discriminate].
Qed.

Lemma statement_credit_option_Some (available_points : Z) (entry : string * Q)
    (x : recommender.Option) :
  recommender.statement_credit_option available_points entry = Some x ->
  recommender.type x = "statement_credit" /\
  recommender.cost x <= available_points /\
  recommender.is_affordable x = true /\
  recommender.fees x = 0%Q /\
  recommender.value_per_mile x = None /\
  recommender.value_per_point x <> None.
Proof.
  unfold recommender.statement_credit_option. destruct entry as [program rate].
  destruct (10000 <=? available_points) eqn:E; [|discriminate].
  intros [= <-]. apply Z.leb_le in E. cbn. repeat split; [exact E | discriminate].
Qed.

Lemma In_omap {A B} (f : A -> option B) (l : list A) (y : B) :
  In y (omap f l) <-> exists x, In x l /\ f x = Some y.
Proof.
  rewrite <- list_elem_of_In, list_elem_of_omap.
  split; intros (x & Hx & Hf); exists x; split; try assumption;
    now apply list_elem_of_In.
Qed.

Lemma get_hotel_options_In (self : recommender.RedemptionRecommender) (destination : string)
    (available_points : Z) (preferences : recommender.UserPreferences)
    (x : recommender.Option) :
  In x (recommender.get_hotel_options self destination available_points preferences) ->
  exists chain categories entry,
    In (chain, categories) (recommender.hotel_data self) /\ In entry categories /\
    recommender.hotel_option self destination available_points chain entry = Some x.
Proof.
  unfold recommender.get_hotel_options. intros H. apply firstn_In in H.
  apply (Permutation_in _ (sort_by_reverse_Permutation _ _)) in H.
  apply in_flat_map in H. destruct H as ([chain categories] & Hin & H).
  apply In_omap in H. destruct H as (entry & He & H).
  now exists chain, categories, entry.
Qed.

Lemma get_alternative_redemptions_In (self : recommender.RedemptionRecommender)
    (available_points : Z) (x : recommender.Option) :
  In x (recommender.get_alternative_redemptions self available_points) ->
  (exists entry, recommender.giftcard_option self available_points entry = Some x) \/
  (exists entry, recommender.statement_credit_option available_points entry = Some x).
Proof.
  unfold recommender.get_alternative_redemptions. intros H.
  apply in_app_or in H. destruct H as [H|H]; apply In_omap in H;
    destruct H as (entry & _ & H); [left | right]; now exists entry.
Qed.

Lemma all_options_unfold (self : recommender.RedemptionRecommender)
    (origin_airport destination_airport : string) (travel_date : amadeus_client.date)
    (available_miles : Z) (user_preferences : recommender.UserPreferences) (t : nat) :
  fst (recommender.all_options self origin_airport destination_airport travel_date
         available_miles user_preferences t)
  = (fst (recommender.get_flight_options self origin_airport destination_airport
            travel_date available_miles t)
     ++ recommender.get_hotel_options self destination_airport available_miles
          user_preferences
     ++ (if recommender.include_alternatives user_preferences
         then recommender.get_alternative_redemptions self available_miles
         else []))%list.
Proof.
  unfold recommender.all_options, service.bind, service.ret.
  now destruct (recommender.get_flight_options self origin_airport destination_airport
                  travel_date available_miles t).
Qed.

Lemma get_flight_options_In (self : recommender.RedemptionRecommender)
    (origin destination : string) (travel_date : amadeus_client.date)
    (available_miles : Z) (t : nat) (x : recommender.Option) :
  In x (fst (recommender.get_flight_options self origin destination travel_date
               available_miles t)) ->
  exists a,
    In a (route_optimizer.routes
            (fst (route_optimizer.find_optimal_routes (recommender.route_optimizer self)
                    origin destination travel_date 5 t))) /\
    recommender.flight_option self available_miles a = Some x.
Proof.
  unfold recommender.get_flight_options, service.bind, service.ret.
  destruct (route_optimizer.find_optimal_routes _ origin destination travel_date 5 t)
    as [res t1].
  cbn [fst]. intros H. now apply In_omap in H.
Qed.

Lemma all_options_In (self : recommender.RedemptionRecommender)
    (origin_airport destination_airport : string) (travel_date : amadeus_client.date)
    (available_miles : Z) (user_preferences : recommender.UserPreferences) (t : nat)
    (x : recommender.Option) :
  In x (fst (recommender.all_options self origin_airport destination_airport travel_date
               available_miles user_preferences t)) ->
  recommender.cost x <= available_miles /\
  recommender.is_affordable x = true /\
  In (recommender.type x) ["flight"; "hotel"; "giftcard"; "statement_credit"] /\
  (recommender.type x = "flight" <-> recommender.value_per_mile x <> None) /\
  (recommender.type x <> "flight" <-> recommender.value_per_point x <> None) /\
  (recommender.type x <> "flight" -> recommender.fees x = 0%Q).
Proof.
  rewrite all_options_unfold. intros H.
  apply in_app_or in H. destruct H as [H|H].
  { apply get_flight_options_In in H. destruct H as (a & _ & H).
    destruct (flight_option_Some _ _ _ _ H) as (Ht & _ & Hc & Ha & Hp & Hm).
    rewrite Ht, Hp. cbn [In]. repeat split; try tauto; try congruence. }
  apply in_app_or in H. destruct H as [H|H].
  { apply get_hotel_options_In in H. destruct H as (chain & cats & entry & _ & _ & H).
    destruct (hotel_option_Some _ _ _ _ _ _ H) as (Ht & _ & Hc & Ha & Hf & Hm & Hp).
    rewrite Ht, Hm. cbn [In].
    repeat split; try tauto; try congruence; try discriminate. }
  destruct (recommender.include_alternatives user_preferences); [|destruct H].
  apply get_alternative_redemptions_In in H. destruct H as [(entry & H)|(entry & H)].
  - destruct (giftcard_option_Some _ _ _ _ H) as (Ht & Hc & Ha & Hf & Hm & Hp).
    rewrite Ht, Hm. cbn [In].
    repeat split; try tauto; try congruence; try discriminate.
  - destruct (statement_credit_option_Some _ _ _ H) as (Ht & Hc & Ha & Hf & Hm & Hp).
    rewrite Ht, Hm. cbn [In].
    repeat split; try tauto; try congruence; try discriminate.
Qed.

Lemma select_In (origin_airport destination_airport : string)
    (travel_date : amadeus_client.date) (available_miles : Z)
    (p : recommender.UserPreferences) (pool : list recommender.Option)
    (x : recommender.Option) :
  In x (recommender.recommendations
          (recommender.select origin_airport destination_airport travel_date
             available_miles p pool)) ->
  In x pool /\ (recommender.min_value_per_mile p <= recommender.value_of x)%Q.
Proof.
  cbn. intros H. apply firstn_In in H.
  apply (Permutation_in _ (order_Permutation _ _)) in H.
  apply filter_In in H. destruct H as [H1 H2]. split; [exact H1 | now apply Qleb_le].
Qed.

Lemma generate_recommendations_unfold (self : recommender.RedemptionRecommender)
    (origin_airport destination_airport : string) (travel_date : amadeus_client.date)
    (available_miles : Z) (user_preferences : option recommender.UserPreferences)
    (t : nat) :
  fst (recommender.generate_recommendations self origin_airport destination_airport
         travel_date available_miles user_preferences t)
  = recommender.select origin_airport destination_airport travel_date available_miles
      (recommender.preferences_or_default user_preferences)
      (fst (recommender.all_options self origin_airport destination_airport travel_date
              available_miles (recommender.preferences_or_default user_preferences) t)).
Proof.
  unfold recommender.generate_recommendations, service.bind, service.ret.
  now destruct (recommender.all_options self origin_airport destination_airport
                  travel_date available_miles _ t).
Qed.

(** Every option of the merged pool costs no more than the available
    miles and carries the affordability flag, so the counter of
    affordable options always equals the counter of options found.
    Every option is a flight, a hotel, a gift card or a statement
    credit; flights alone carry [value_per_mile] and may carry fees, all
    others carry [value_per_point] and no fees. *)
Theorem all_options_within_budget (self : recommender.RedemptionRecommender)
    (origin_airport destination_airport : string) (travel_date : amadeus_client.date)
    (available_miles : Z) (user_preferences : option recommender.UserPreferences)
    (t : nat) :
  let p := recommender.preferences_or_default user_preferences in
  let pool :=
    fst (recommender.all_options self origin_airport destination_airport travel_date
           available_miles p t) in
  let res :=
    fst (recommender.generate_recommendations self origin_airport destination_airport
           travel_date available_miles user_preferences t) in
  List.Forall
    (fun x =>
       recommender.cost x <= available_miles /\
       recommender.is_affordable x = true /\
       In (recommender.type x) ["flight"; "hotel"; "giftcard"; "statement_credit"] /\
       (recommender.type x = "flight" <-> recommender.value_per_mile x <> None) /\
       (recommender.type x <> "flight" <-> recommender.value_per_point x <> None) /\
       (recommender.type x <> "flight" -> recommender.fees x = 0%Q))
    pool /\
  recommender.affordable_options (recommender.summary res)
  = recommender.total_options_found (recommender.summary res) /\
  recommender.total_options_found (recommender.summary res) = Z.of_nat (length pool).
Proof.
  cbv zeta. rewrite generate_recommendations_unfold.
  set (p := recommender.preferences_or_default user_preferences).
  assert (Hall : forall x,
            In x (fst (recommender.all_options self origin_airport destination_airport
                         travel_date available_miles p t)) ->
            recommender.is_affordable x = true)
    by (intros x Hx; now apply all_options_In in Hx).
  split; [apply List.Forall_forall; intros x Hx; now apply all_options_In in Hx|].
  split; [|reflexivity].
  cbn. f_equal. f_equal.
  induction (fst (recommender.all_options self origin_airport destination_airport
                    travel_date available_miles p t)) as [|x l IH]; [reflexivity|].
  cbn [List.filter]. rewrite (Hall x) by now left.
  cbn [length]. f_equal. apply IH. intros y Hy. apply Hall. now right.
Qed.

(** Every recommendation costs no more than the available miles and is
    worth at least the minimum value per mile; there are at most five
    recommendations and never more than options found; [best_overall]
    and [best_value_per_mile] are recommendations themselves. *)
Theorem recommendations_within_budget (self : recommender.RedemptionRecommender)
    (origin_airport destination_airport : string) (travel_date : amadeus_client.date)
    (available_miles : Z) (user_preferences : option recommender.UserPreferences)
    (t : nat) :
  let p := recommender.preferences_or_default user_preferences in
  let res :=
    fst (recommender.generate_recommendations self origin_airport destination_airport
           travel_date available_miles user_preferences t) in
  List.Forall
    (fun x =>
       recommender.cost x <= available_miles /\
       (recommender.min_value_per_mile p <= recommender.value_of x)%Q)
    (recommender.recommendations res) /\
  recommender.recommendations_generated (recommender.summary res) <= 5 /\
  recommender.recommendations_generated (recommender.summary res)
  <= recommender.total_options_found (recommender.summary res) /\
  (forall x, recommender.best_overall res = Some x ->
             In x (recommender.recommendations res)) /\
  (forall x, recommender.best_value_per_mile res = Some x ->
             In x (recommender.recommendations res)).
Proof.
  cbv zeta. rewrite generate_recommendations_unfold.
  set (p := recommender.preferences_or_default user_preferences).
  set (pool := fst (recommender.all_options _ _ _ _ _ p t)).
  split.
  { apply List.Forall_forall. intros x Hx. apply select_In in Hx. destruct Hx as [Hx Hv].
    split; [|exact Hv]. now apply all_options_In in Hx. }
  cbn. split; [pose proof (firstn_le_length 5 (recommender.order p
                 (List.filter (fun option =>
                    num.Qleb (recommender.min_value_per_mile p) (recommender.value_of option))
                    pool))); lia|].
  split.
  { rewrite length_firstn.
    rewrite (Permutation_length (order_Permutation _ _)).
    pose proof (filter_length_le
                  (fun option =>
                     num.Qleb (recommender.min_value_per_mile p) (recommender.value_of option))
                  pool). lia. }
  split.
  - intros x Hx.
    destruct (firstn 5 _) as [|y l]; [discriminate Hx|]. injection Hx as ->. now left.
  - intros x Hx.
    pose proof (max_by_spec recommender.value_of
                  (firstn 5 (recommender.order p
                     (List.filter (fun option =>
                        num.Qleb (recommender.min_value_per_mile p)
                          (recommender.value_of option)) pool)))) as H.
    rewrite Hx in H. apply H.
Qed.

(** ** The distinguished picks and the average *)

Lemma max_from_head {A} (key : A -> Q) (best : A) (l : list A) :
  List.Forall (fun y => (key y <= key best)%Q) l -> pylist.max_from key best l = best.
Proof.
  induction 1 as [|y l Hy _ IH]; [reflexivity|].
  cbn [pylist.max_from]. apply Qltb_ge in Hy. now rewrite Hy.
Qed.

Lemma max_from_ge {A} (key : A -> Q) (best : A) (l : list A) :
  (key best <= key (pylist.max_from key best l))%Q.
Proof.
  apply (max_from_spec key best l). now left.
Qed.

(** When [maximize_value] is set, [best_value_per_mile] is the same
    option as [best_overall]; in every mode it is worth at least as much
    as [best_overall] and as every other recommendation.  Both picks
    exist as soon as there is one recommendation; with none, both are
    [None] and the average value of the summary is 0. *)
Theorem best_picks (self : recommender.RedemptionRecommender)
    (origin_airport destination_airport : string) (travel_date : amadeus_client.date)
    (available_miles : Z) (user_preferences : option recommender.UserPreferences)
    (t : nat) :
  let p := recommender.preferences_or_default user_preferences in
  let res :=
    fst (recommender.generate_recommendations self origin_airport destination_airport
           travel_date available_miles user_preferences t) in
  (recommender.maximize_value p = true ->
   recommender.best_value_per_mile res = recommender.best_overall res) /\
  (forall first top,
     recommender.best_overall res = Some first ->
     recommender.best_value_per_mile res = Some top ->
     (recommender.value_of first <= recommender.value_of top)%Q /\
     List.Forall (fun x => (recommender.value_of x <= recommender.value_of top)%Q)
       (recommender.recommendations res)) /\
  (recommender.recommendations res <> [] ->
   recommender.best_overall res <> None /\ recommender.best_value_per_mile res <> None) /\
  (recommender.recommendations res = [] ->
   recommender.best_overall res = None /\
   recommender.best_value_per_mile res = None /\
   recommender.average_value_per_mile (recommender.summary res) = 0%Q).
Proof.
  cbv zeta. rewrite generate_recommendations_unfold.
  set (p := recommender.preferences_or_default user_preferences).
  set (pool := fst (recommender.all_options _ _ _ _ _ p t)).
  cbn.
  set (kept := List.filter _ pool).
  split.
  { intros Hmax. unfold recommender.order. rewrite Hmax.
    pose proof (sorted_firstn _ 5 _ (sort_by_reverse_sorted recommender.value_of kept))
      as Hs.
    destruct (firstn 5 (pylist.sort_by_reverse recommender.value_of kept)) as [|x l];
      [reflexivity|].
    cbn. f_equal. apply max_from_head. now inversion Hs. }
  split.
  { intros first top Hfirst Htop.
    destruct (firstn 5 (recommender.order p kept)) as [|x l] eqn:E; [discriminate Hfirst|].
    cbn in Hfirst, Htop. injection Hfirst as <-. injection Htop as <-.
    split; [apply max_from_ge|].
    apply List.Forall_forall. intros y Hy.
    now apply (max_from_spec recommender.value_of x l). }
  split.
  { intros Hne. destruct (firstn 5 (recommender.order p kept)) as [|x l];
      [now contradiction Hne | split; discriminate]. }
  intros E. rewrite E. now repeat split.
Qed.

Lemma best_picks_witness :
  let self := recommender.init {| amadeus_client.client := None |} in
  let day := {| amadeus_client.year := 2024; amadeus_client.month := 6;
                amadeus_client.day := 15 |} in
  let res := fst (recommender.generate_recommendations self "JFK" "LAX" day 50000 None 0%nat) in
  recommender.best_value_per_mile res = recommender.best_overall res /\
  recommender.average_value_per_mile
    (recommender.summary
       (fst (recommender.generate_recommendations self "JFK" "LAX" day 100 None 0%nat)))
  = 0%Q.
Proof.
  cbv zeta. split.
  - apply (best_picks
             (recommender.init {| amadeus_client.client := None |}) "JFK" "LAX"
             {| amadeus_client.year := 2024; amadeus_client.month := 6;
                amadeus_client.day := 15 |} 50000 None 0%nat).
    reflexivity.
  - apply (best_picks
             (recommender.init {| amadeus_client.client := None |}) "JFK" "LAX"
             {| amadeus_client.year := 2024; amadeus_client.month := 6;
                amadeus_client.day := 15 |} 100 None 0%nat).
    vm_compute. reflexivity.
Defined.

(** ** Too few miles *)

Lemma omap_none {A B} (f : A -> option B) (l : list A) :
  (forall x, In x l -> f x = None) -> omap f l = [].
Proof.
  induction l as [|x l IH]; intros H; [reflexivity|].
  cbn [omap list_omap]. rewrite (H x) by now left.
  apply IH. intros y Hy. apply H. now right.
Qed.

Lemma award_cost_min (client : amadeus_client.AmadeusClient) (a b : string) (flag : bool) :
  12500 <= route_optimizer._get_award_cost (route_optimizer.init client) a b flag.
Proof.
  unfold route_optimizer._get_award_cost.
  destruct flag; distance_cases a b; cbn; lia.
Qed.

Lemma optimal_route_min (client : amadeus_client.AmadeusClient)
    (origin destination : string) (travel_date : amadeus_client.date)
    (max_routes : nat) (t : nat) (a : route_optimizer.ValueAnalysis) :
  In a (route_optimizer.routes
          (fst (route_optimizer.find_optimal_routes (route_optimizer.init client)
                  origin destination travel_date max_routes t))) ->
  12500 <= route_optimizer.total_miles (route_optimizer.route a).
Proof.
  destruct (find_optimal_routes_unfold (route_optimizer.init client) origin destination
              travel_date max_routes t) as (Hr & _).
  cbv zeta in Hr. rewrite Hr. intros Ha. apply firstn_In in Ha.
  apply rank_routes_by_value_In in Ha. destruct Ha as (r & Hin & ->).
  cbn [route_optimizer.route route_optimizer.value_analysis].
  apply in_app_or in Hin. destruct Hin as [Hin|Hin].
  - apply find_direct_routes_In in Hin. destruct Hin as (offer & Hin).
    apply direct_route_fields in Hin. destruct Hin as (_ & ->).
    cbn [route_optimizer.total_miles]. apply award_cost_min.
  - apply find_layover_routes_In in Hin.
    destruct Hin as (hub & s1 & s2 & _ & _ & _ & ->).
    cbn [route_optimizer.total_miles route_optimizer.combine_legs].
    pose proof (award_cost_min client origin hub false).
    pose proof (award_cost_min client hub destination false). lia.
Qed.

Lemma hotel_data_min (chain : string) (categories : list (string * recommender.Award))
    (entry : string * recommender.Award) :
  In (chain, categories) recommender._load_hotel_data -> In entry categories ->
  3500 <= recommender.points (snd entry).
Proof.
  unfold recommender._load_hotel_data. cbn [In]. intros H He.
  repeat (destruct H as [H|H]; [injection H as <- <-; cbn [In] in He|]);
    try contradiction H;
    repeat (destruct He as [He|He]; [subst entry; cbn; lia|]); contradiction He.
Qed.

Lemma alternative_min (client : amadeus_client.AmadeusClient) (available_points : Z) :
  available_points < 10000 ->
  recommender.get_alternative_redemptions (recommender.init client) available_points = [].
Proof.
  intros H. unfold recommender.get_alternative_redemptions.
  cbn [recommender.alternative_data recommender.init recommender._load_alternative_data
       recommender.gift_cards recommender.statement_credits omap list_omap
       recommender.giftcard_option recommender.statement_credit_option recommender.points].
  apply Z.leb_gt in H. rewrite H. reflexivity.
Qed.

(** With the built-in tables nothing costs less than 3500 miles: the
    cheapest hotel night costs 3500 points, every gift card and
    statement credit 10000, and every flight at least 12500 miles,
    whatever the flight service answers.  A user with fewer miles gets
    an empty pool, no recommendation, no distinguished pick and zero
    counters. *)
Theorem nothing_below_3500 (client : amadeus_client.AmadeusClient)
    (origin_airport destination_airport : string) (travel_date : amadeus_client.date)
    (available_miles : Z) (user_preferences : option recommender.UserPreferences)
    (t : nat) :
  available_miles < 3500 ->
  let self := recommender.init client in
  let res :=
    fst (recommender.generate_recommendations self origin_airport destination_airport
           travel_date available_miles user_preferences t) in
  fst (recommender.all_options self origin_airport destination_airport travel_date
         available_miles (recommender.preferences_or_default user_preferences) t) = [] /\
  recommender.recommendations res = [] /\
  recommender.best_overall res = None /\
  recommender.best_value_per_mile res = None /\
  recommender.total_options_found (recommender.summary res) = 0 /\
  recommender.recommendations_generated (recommender.summary res) = 0 /\
  recommender.average_value_per_mile (recommender.summary res) = 0%Q.
Proof.
  intros Hlow. cbv zeta.
  assert (Hpool : fst (recommender.all_options (recommender.init client) origin_airport
                         destination_airport travel_date available_miles
                         (recommender.preferences_or_default user_preferences) t) = []).
  { rewrite all_options_unfold.
    assert (Hf : fst (recommender.get_flight_options (recommender.init client)
                        origin_airport destination_airport travel_date available_miles t)
                 = []).
    { unfold recommender.get_flight_options, service.bind, service.ret.
      pose proof (optimal_route_min client origin_airport destination_airport
                    travel_date 5 t) as Hmin.
      change (recommender.route_optimizer (recommender.init client))
        with (route_optimizer.init client).
      destruct (route_optimizer.find_optimal_routes (route_optimizer.init client)
                  origin_airport destination_airport travel_date 5 t) as [routes t1].
      cbn [fst] in *. apply omap_none. intros a Ha. specialize (Hmin a Ha).
      unfold recommender.flight_option.
      replace (route_optimizer.total_miles (route_optimizer.route a) <=? available_miles)
        with false by (symmetry; apply Z.leb_gt; lia).
      reflexivity. }
    assert (Hh : recommender.get_hotel_options (recommender.init client)
                   destination_airport available_miles
                   (recommender.preferences_or_default user_preferences) = []).
    { destruct (recommender.get_hotel_options (recommender.init client)
                  destination_airport available_miles
                  (recommender.preferences_or_default user_preferences))
        as [|x l] eqn:E; [reflexivity|]. exfalso.
      assert (Hx : In x (recommender.get_hotel_options (recommender.init client)
                           destination_airport available_miles
                           (recommender.preferences_or_default user_preferences)))
        by (rewrite E; now left).
      apply get_hotel_options_In in Hx.
      destruct Hx as (chain & cats & entry & Hc & He & Hx).
      pose proof (hotel_data_min chain cats entry Hc He) as Hmin.
      apply hotel_option_Some in Hx. destruct Hx as (_ & Hcost & Hle & _). lia. }
    rewrite Hf, Hh, alternative_min by lia.
    now destruct (recommender.include_alternatives _). }
  split; [exact Hpool|].
  rewrite generate_recommendations_unfold, Hpool.
  unfold recommender.select, recommender.order. cbn [List.filter].
  destruct (recommender.maximize_value _), (recommender.minimize_fees _);
    now repeat split.
Qed.

Lemma nothing_below_3500_witness :
  let day := {| amadeus_client.year := 2024; amadeus_client.month := 6;
                amadeus_client.day := 15 |} in
  recommender.recommendations
    (fst (recommender.generate_recommendations
            (recommender.init {| amadeus_client.client := None |})
            "JFK" "LAX" day 3499 None 0%nat))
  = [].
Proof.
  cbv zeta.
  apply (nothing_below_3500 {| amadeus_client.client := None |} "JFK" "LAX"
           {| amadeus_client.year := 2024; amadeus_client.month := 6;
              amadeus_client.day := 15 |} 3499 None 0%nat).
  reflexivity.
Defined.

(** ** Flights built from mock offers *)

Lemma flight_option_value (self : recommender.RedemptionRecommender) (available_miles : Z)
    (a : route_optimizer.ValueAnalysis) (x : recommender.Option) :
  recommender.flight_option self available_miles a = Some x ->
  let r := route_optimizer.route a in
  recommender.value_of x
  = calculator.calc_value
      (calculator.calculate_flight_value (recommender.calculator self)
         (route_optimizer.total_miles r)
         (if num.Qltb 0 (route_optimizer.cash_price r) then route_optimizer.cash_price r
          else (inject_Z (route_optimizer.total_miles r) * (2 # 100))%Q)
         (route_optimizer.total_fees r)).
Proof.
  unfold recommender.flight_option.
  destruct (route_optimizer.total_miles (route_optimizer.route a) <=? available_miles);
    [|discriminate].
  intros [= <-]. reflexivity.
Qed.

Lemma mock_direct_value (client : amadeus_client.AmadeusClient)
    (origin destination : string) :
  let distance := route_optimizer._calculate_distance origin destination in
  let miles :=
    route_optimizer._get_award_cost (route_optimizer.init client) origin destination
      (2000 <? distance) in
  let cash := (inject_Z distance * (15 # 100) * (8 # 10))%Q in
  (calculator.calc_value
     (calculator.calculate_flight_value calculator.init miles
        (if num.Qltb 0 cash then cash else (inject_Z miles * (2 # 100))%Q) 50)
   < 1)%Q.
Proof.
  cbv zeta. unfold route_optimizer._get_award_cost.
  distance_cases origin destination; vm_compute; reflexivity.
Qed.

Lemma mock_layover_value (client : amadeus_client.AmadeusClient)
    (origin destination hub : string) :
  let miles :=
    route_optimizer._get_award_cost (route_optimizer.init client) origin hub false
    + route_optimizer._get_award_cost (route_optimizer.init client) hub destination false in
  let cash :=
    (inject_Z (route_optimizer._calculate_distance origin hub) * (15 # 100) * (8 # 10)
     + inject_Z (route_optimizer._calculate_distance hub destination)
       * (15 # 100) * (8 # 10))%Q in
  (calculator.calc_value
     (calculator.calculate_flight_value calculator.init miles
        (if num.Qltb 0 cash then cash else (inject_Z miles * (2 # 100))%Q) 75)
   < 1)%Q.
Proof.
  cbv zeta. unfold route_optimizer._get_award_cost.
  distance_cases origin hub; distance_cases hub destination; vm_compute; reflexivity.
Qed.

Lemma fallback_route_value (client : amadeus_client.AmadeusClient)
    (origin destination : string) (travel_date : amadeus_client.date)
    (max_routes : nat) (t : nat) (a : route_optimizer.ValueAnalysis) :
  amadeus_client.falls_back client ->
  In a (route_optimizer.routes
          (fst (route_optimizer.find_optimal_routes (route_optimizer.init client)
                  origin destination travel_date max_routes t))) ->
  let r := route_optimizer.route a in
  (calculator.calc_value
     (calculator.calculate_flight_value calculator.init
        (route_optimizer.total_miles r)
        (if num.Qltb 0 (route_optimizer.cash_price r) then route_optimizer.cash_price r
         else (inject_Z (route_optimizer.total_miles r) * (2 # 100))%Q)
        (route_optimizer.total_fees r))
   < 1)%Q.
Proof.
  intros Hc.
  destruct (find_optimal_routes_unfold (route_optimizer.init client) origin destination
              travel_date max_routes t) as (Hr & _).
  cbv zeta in Hr. rewrite Hr. clear Hr. intros Ha. apply firstn_In in Ha.
  apply rank_routes_by_value_In in Ha. destruct Ha as (r & Hin & ->).
  cbv zeta. cbn [route_optimizer.route route_optimizer.value_analysis].
  apply in_app_or in Hin. destruct Hin as [Hin|Hin].
  - rewrite find_direct_routes_omap, (search_flights_falls_back _ _ _ _ _ _ Hc) in Hin.
    cbn [amadeus_client._get_mock_flights omap list_omap route_optimizer.direct_route
         amadeus_client.stops Z.eqb In] in Hin.
    destruct Hin as [<-|[]].
    cbn [route_optimizer.total_miles route_optimizer.cash_price route_optimizer.total_fees
         amadeus_client.price].
    apply (mock_direct_value client origin destination).
  - unfold route_optimizer.find_layover_routes in Hin.
    rewrite for_each_omap in Hin
      by (intros hub; apply layover_route_independent; now apply falls_back_steady).
    apply In_omap in Hin. destruct Hin as (hub & _ & Hin).
    rewrite (layover_route_fallback (route_optimizer.init client) _ _ _ _ _ Hc) in Hin.
    destruct (String.eqb hub origin || String.eqb hub destination); [discriminate Hin|].
    cbn [amadeus_client._get_mock_flights] in Hin. injection Hin as <-.
    cbn [route_optimizer.total_miles route_optimizer.cash_price route_optimizer.total_fees
         route_optimizer.combine_legs amadeus_client.price].
    apply (mock_layover_value client origin destination hub).
Qed.

(** When the flight service is unavailable or failing, every flight
    option of the pool is worth less than one cent per mile, so with a
    minimum value per mile of one cent or more, the default included, no
    flight is ever recommended: the recommendations are hotels, gift
    cards and statement credits only. *)
Theorem fallback_flights_not_recommended (client : amadeus_client.AmadeusClient)
    (origin_airport destination_airport : string) (travel_date : amadeus_client.date)
    (available_miles : Z) (user_preferences : option recommender.UserPreferences)
    (t : nat) :
  amadeus_client.falls_back client ->
  let self := recommender.init client in
  let p := recommender.preferences_or_default user_preferences in
  let res :=
    fst (recommender.generate_recommendations self origin_airport destination_airport
           travel_date available_miles user_preferences t) in
  List.Forall (fun x => (recommender.value_of x < 1)%Q)
    (fst (recommender.get_flight_options self origin_airport destination_airport
            travel_date available_miles t)) /\
  ((1 <= recommender.min_value_per_mile p)%Q ->
   List.Forall (fun x => recommender.type x <> "flight") (recommender.recommendations res)).
Proof.
  intros Hc. cbv zeta.
  assert (Hflights : forall x,
            In x (fst (recommender.get_flight_options (recommender.init client)
                         origin_airport destination_airport travel_date
                         available_miles t)) ->
            (recommender.value_of x < 1)%Q).
  { intros x Hx. apply get_flight_options_In in Hx. destruct Hx as (a & Ha & Hx).
    rewrite (flight_option_value _ _ _ _ Hx). cbv zeta.
    now apply (fallback_route_value client origin_airport destination_airport
                 travel_date 5 t a Hc). }
  split; [now apply List.Forall_forall|].
  intros Hmin. apply List.Forall_forall. intros x Hx Htype.
  rewrite generate_recommendations_unfold in Hx. apply select_In in Hx.
  destruct Hx as [Hpool Hval]. rewrite all_options_unfold in Hpool.
  apply in_app_or in Hpool. destruct Hpool as [Hf|Hpool].
  { specialize (Hflights x Hf). lra. }
  apply in_app_or in Hpool. destruct Hpool as [Hh|Ha].
  { apply get_hotel_options_In in Hh. destruct Hh as (chain & cats & entry & _ & _ & Hh).
    apply hotel_option_Some in Hh. destruct Hh as (Hh & _). congruence. }
  destruct (recommender.include_alternatives _); [|destruct Ha].
  apply get_alternative_redemptions_In in Ha. destruct Ha as [(entry & Ha)|(entry & Ha)].
  - apply giftcard_option_Some in Ha. destruct Ha as (Ha & _). congruence.
  - apply statement_credit_option_Some in Ha. destruct Ha as (Ha & _). congruence.
Qed.

Lemma fallback_flights_not_recommended_witness :
  let day := {| amadeus_client.year := 2024; amadeus_client.month := 6;
                amadeus_client.day := 15 |} in
  List.Forall (fun x => recommender.type x <> "flight")
    (recommender.recommendations
       (fst (recommender.generate_recommendations
               (recommender.init {| amadeus_client.client := None |})
               "JFK" "LAX" day 50000 None 0%nat))).
Proof.
  cbv zeta.
  apply (fallback_flights_not_recommended {| amadeus_client.client := None |} "JFK" "LAX"
           {| amadeus_client.year := 2024; amadeus_client.month := 6;
              amadeus_client.day := 15 |} 50000 None 0%nat).
  - exact I.
  - discriminate.
Defined.

(** ** The calculator *)

Lemma inject_Z_pos_neq (m : Z) : 0 < m -> ~ (inject_Z m == 0)%Q.
Proof.
  intros H E. unfold Qeq in E. cbn in E. lia.
Qed.

(** In the ranking of [compare_redemptions] a flight or a hotel is
    valued exactly as its own [value_per_mile] property says, while a
    gift card is valued on its full cash value: its fees are left out,
    so its entry is [cash_equivalent / miles_cost * 100] and is never
    below [value_per_mile] when the fees are not negative.  An option
    whose cost is not positive is valued 0 either way. *)
Theorem compare_redemptions_values (self : calculator.RedemptionCalculator)
    (redemption_options : list calculator.RedemptionOption) (c : calculator.Comparison) :
  In c (calculator.compare_redemptions self redemption_options) ->
  let o := calculator.option c in
  (calculator.type o = "flight" \/ calculator.type o = "hotel" ->
   calculator.value_per_unit c = calculator.value_per_mile o) /\
  (calculator.type o = "giftcard" -> 0 < calculator.miles_cost o ->
   calculator.value_per_unit c
   = (calculator.cash_equivalent o / inject_Z (calculator.miles_cost o) * 100)%Q /\
   ((0 <= calculator.taxes_fees o)%Q ->
    (calculator.value_per_mile o <= calculator.value_per_unit c)%Q)) /\
  (calculator.miles_cost o <= 0 ->
   calculator.value_per_unit c = 0%Q /\ calculator.value_per_mile o = 0%Q).
Proof.
  intros Hc. cbv zeta. unfold calculator.compare_redemptions in Hc.
  apply (Permutation_in _ (sort_by_reverse_Permutation _ _)) in Hc.
  apply collect_In in Hc. destruct Hc as [_ Hc].
  revert Hc. generalize (calculator.option c). intros o Hc.
  unfold calculator.compare_one in Hc. unfold calculator.value_per_mile,
    calculator.net_cash_value.
  destruct (String.eqb_spec (calculator.type o) "flight") as [Ef|Ef];
    [|destruct (String.eqb_spec (calculator.type o) "hotel") as [Eh|Eh];
      [|destruct (String.eqb_spec (calculator.type o) "giftcard") as [Eg|Eg];
        [|discriminate Hc]]];
    injection Hc as <-; cbn;
    destruct (Z.ltb_spec 0 (calculator.miles_cost o)) as [Hm|Hm];
    destruct (Z.leb_spec (calculator.miles_cost o) 0) as [Hm'|Hm']; try lia;
    (repeat split; try reflexivity; try (intros; lia);
     try (intros [E|E]; congruence); try (intros E; congruence)).
  all: try congruence.
  intros Hfees.
  assert (Hinv : (0 <= / inject_Z (calculator.miles_cost o))%Q).
  { apply Qlt_le_weak, Qinv_lt_0_compat.
    change 0%Q with (inject_Z 0). now rewrite <- Zlt_Qlt. }
  apply Qmult_le_compat_r; [|discriminate].
  unfold Qdiv. apply Qmult_le_compat_r; [lra | exact Hinv].
Qed.

Lemma compare_redemptions_values_witness :
  let card :=
    {| calculator.type := "giftcard"; calculator.name := "Amazon Gift Card";
       calculator.miles_cost := 10000; calculator.cash_equivalent := 100;
       calculator.taxes_fees := 5; calculator.description := "" |} in
  Forall
    (fun c =>
       calculator.value_per_unit c = (100 / inject_Z 10000 * 100)%Q /\
       (calculator.value_per_mile (calculator.option c) <= calculator.value_per_unit c)%Q)
    (calculator.compare_redemptions calculator.init [card]).
Proof.
  cbv zeta. apply List.Forall_forall. intros c Hc.
  pose proof (compare_redemptions_values calculator.init _ c Hc) as H.
  cbv zeta in H. destruct H as (_ & H & _).
  cbn in Hc. destruct Hc as [<-|[]].
  destruct (H eq_refl eq_refl) as [H1 H2]. split; [exact H1|].
  apply H2. discriminate.
Defined.

(** A higher value never gets a lower rating; the rating is Fair or
    better exactly from one cent per mile on; and whatever is rated Fair
    or better also passes the calculator's own good-value test, whose
    threshold of half a cent is lower than every rating threshold. *)
Theorem get_value_rating_monotone (v w : Q) :
  ((v <= w)%Q ->
   calculator.rating_rank (calculator.get_value_rating v)
   <= calculator.rating_rank (calculator.get_value_rating w)) /\
  In (calculator.get_value_rating v) ["Excellent"; "Good"; "Fair"; "Poor"] /\
  (1 <= calculator.rating_rank (calculator.get_value_rating v) <-> (1 <= v)%Q) /\
  (calculator.rating_rank (calculator.get_value_rating v) = 3 <-> (2 <= v)%Q) /\
  (1 <= calculator.rating_rank (calculator.get_value_rating v) ->
   num.Qleb (calculator.minimum_value_threshold calculator.init) v = true).
Proof.
  unfold calculator.get_value_rating.
  destruct (num.Qleb 2 v) eqn:V2, (num.Qleb (15 # 10) v) eqn:V15, (num.Qleb 1 v) eqn:V1,
    (num.Qleb 2 w) eqn:W2, (num.Qleb (15 # 10) w) eqn:W15, (num.Qleb 1 w) eqn:W1;
    repeat match goal with
      | H : num.Qleb _ _ = true |- _ => apply Qleb_le in H
      | H : num.Qleb _ _ = false |- _ =>
          apply not_true_iff_false in H; rewrite Qleb_le in H; apply Qnot_le_lt in H
      end;
    cbn [calculator.rating_rank String.eqb Ascii.eqb Bool.eqb In];
    cbn [calculator.minimum_value_threshold calculator.init];
    rewrite ?Qleb_le;
    (repeat split; try tauto; try (intros; lia); try (intros; lra)).
Qed.

Lemma get_value_rating_monotone_witness :
  calculator.rating_rank (calculator.get_value_rating (14 # 10))
  <= calculator.rating_rank (calculator.get_value_rating (21 # 10)).
Proof.
  apply (get_value_rating_monotone (14 # 10) (21 # 10)). discriminate.
Defined.

(** ** One value formula for the whole pool *)

Lemma flight_option_formula (self : recommender.RedemptionRecommender) (available_miles : Z)
    (a : route_optimizer.ValueAnalysis) (x : recommender.Option) :
  recommender.flight_option self available_miles a = Some x -> 0 < recommender.cost x ->
  (recommender.value_of x
   == (recommender.cash_equivalent x - recommender.fees x)
      / inject_Z (recommender.cost x) * 100)%Q.
Proof.
  unfold recommender.flight_option.
  destruct (route_optimizer.total_miles (route_optimizer.route a) <=? available_miles);
    [|discriminate].
  intros [= <-]. cbn. intros H. apply Z.ltb_lt in H. rewrite H. reflexivity.
Qed.

Lemma hotel_option_formula (self : recommender.RedemptionRecommender) (destination : string)
    (available_points : Z) (chain : string) (entry : string * recommender.Award)
    (x : recommender.Option) :
  recommender.hotel_option self destination available_points chain entry = Some x ->
  0 < recommender.cost x ->
  (recommender.value_of x
   == (recommender.cash_equivalent x - recommender.fees x)
      / inject_Z (recommender.cost x) * 100)%Q.
Proof.
  unfold recommender.hotel_option. destruct entry as [category data].
  destruct (recommender.points data <=? available_points); [|discriminate].
  intros [= <-]. cbn. intros H. apply Z.ltb_lt in H. rewrite H. reflexivity.
Qed.

Lemma giftcard_option_formula (self : recommender.RedemptionRecommender)
    (available_points : Z) (entry : string * recommender.Award) (x : recommender.Option) :
  recommender.giftcard_option self available_points entry = Some x ->
  0 < recommender.cost x ->
  (recommender.value_of x
   == (recommender.cash_equivalent x - recommender.fees x)
      / inject_Z (recommender.cost x) * 100)%Q.
Proof.
  unfold recommender.giftcard_option. destruct entry as [merchant data].
  destruct (recommender.points data <=? available_points); [|discriminate].
  intros [= <-]. cbn. intros H. pose proof H as Hb. apply Z.ltb_lt in Hb. rewrite Hb.
  field. now apply inject_Z_pos_neq.
Qed.

Lemma statement_credit_option_formula (available_points : Z) (entry : string * Q)
    (x : recommender.Option) :
  recommender.statement_credit_option available_points entry = Some x ->
  recommender.cost x = 10000 /\
  (recommender.value_of x
   == (recommender.cash_equivalent x - recommender.fees x)
      / inject_Z (recommender.cost x) * 100)%Q.
Proof.
  unfold recommender.statement_credit_option. destruct entry as [program rate].
  destruct (10000 <=? available_points); [|discriminate].
  intros [= <-]. cbn. split; [reflexivity|]. field.
Qed.

(** Whatever its kind, an option of the pool with a positive cost is
    valued by one formula: its value per unit is its cash equivalent
    less its fees, per unit of cost, in cents.  For a statement credit
    this means that the cash equivalent is derived from the program's
    rate and gives that rate back. *)
Theorem pool_values_uniform (self : recommender.RedemptionRecommender)
    (origin_airport destination_airport : string) (travel_date : amadeus_client.date)
    (available_miles : Z) (user_preferences : recommender.UserPreferences)
    (t : nat) (x : recommender.Option) :
  In x (fst (recommender.all_options self origin_airport destination_airport travel_date
               available_miles user_preferences t)) ->
  0 < recommender.cost x ->
  (recommender.value_of x
   == (recommender.cash_equivalent x - recommender.fees x)
      / inject_Z (recommender.cost x) * 100)%Q.
Proof.
  rewrite all_options_unfold. intros H Hcost.
  apply in_app_or in H. destruct H as [H|H].
  { apply get_flight_options_In in H. destruct H as (a & _ & H).
    now apply (flight_option_formula _ _ _ _ H). }
  apply in_app_or in H. destruct H as [H|H].
  { apply get_hotel_options_In in H. destruct H as (chain & cats & entry & _ & _ & H).
    now apply (hotel_option_formula _ _ _ _ _ _ H). }
  destruct (recommender.include_alternatives user_preferences); [|destruct H].
  apply get_alternative_redemptions_In in H. destruct H as [(entry & H)|(entry & H)].
  - now apply (giftcard_option_formula _ _ _ _ H).
  - now apply (statement_credit_option_formula _ _ _ H).
Qed.

Lemma pool_values_uniform_witness :
  let self := recommender.init {| amadeus_client.client := None |} in
  let day := {| amadeus_client.year := 2024; amadeus_client.month := 6;
                amadeus_client.day := 15 |} in
  List.Forall
    (fun x =>
       (recommender.value_of x
        == (recommender.cash_equivalent x - recommender.fees x)
           / inject_Z (recommender.cost x) * 100)%Q)
    (fst (recommender.all_options self "JFK" "LAX" day 3500
            recommender.default_preferences 0%nat)).
Proof.
  cbv zeta. apply List.Forall_forall. intros x Hx.
  apply (pool_values_uniform
           (recommender.init {| amadeus_client.client := None |}) "JFK" "LAX"
           {| amadeus_client.year := 2024; amadeus_client.month := 6;
              amadeus_client.day := 15 |} 3500 recommender.default_preferences 0%nat x Hx).
  vm_compute in Hx. destruct Hx as [<-|[]]. reflexivity.
Defined.

(** ** Hotels and alternatives *)

Lemma sorted_firstn_or {A} (R : A -> A -> Prop) (l : list A) :
  StronglySorted R l ->
  forall n x, In x l ->
    In x (firstn n l) \/ (length (firstn n l) = n /\ forall y, In y (firstn n l) -> R y x).
Proof.
  induction 1 as [|a l Hl IH Ha]; intros n x Hx; [destruct Hx|].
  destruct n as [|n]; [right; split; [reflexivity | intros y []]|].
  cbn [firstn]. destruct Hx as [->|Hx]; [left; now left|].
  destruct (IH n x Hx) as [Hin|[Hlen Hall]]; [left; now right|].
  right. split; [cbn [length]; now rewrite Hlen|].
  intros y [<-|Hy]; [|now apply Hall].
  rewrite List.Forall_forall in Ha. now apply Ha.
Qed.

(** [get_hotel_options] returns the five most valuable affordable hotel
    awards: at most five options, in descending order of value, each
    built from a cell of the hotel table that costs no more than the
    available points; an affordable award that is left out is worth no
    more than any of the five returned.  The result is empty exactly
    when no cell of the table is affordable, and the user's preferences
    play no part in it. *)
Theorem get_hotel_options_top_five (self : recommender.RedemptionRecommender)
    (destination : string) (available_points : Z)
    (preferences other : recommender.UserPreferences) :
  let result :=
    recommender.get_hotel_options self destination available_points preferences in
  (length result <= 5)%nat /\
  StronglySorted
    (fun a b => (recommender.point_value b <= recommender.point_value a)%Q) result /\
  (forall x, In x result ->
     exists chain categories category cell,
       In (chain, categories) (recommender.hotel_data self) /\
       In (category, cell) categories /\
       recommender.points cell <= available_points /\
       recommender.detail x = recommender.Hotel chain category destination /\
       recommender.cost x = recommender.points cell /\
       recommender.cash_equivalent x = inject_Z (recommender.cash_value cell)) /\
  (forall chain categories entry x,
     In (chain, categories) (recommender.hotel_data self) -> In entry categories ->
     recommender.hotel_option self destination available_points chain entry = Some x ->
     In x result \/
     (length result = 5%nat /\
      forall y, In y result -> (recommender.point_value x <= recommender.point_value y)%Q)) /\
  (result = [] <->
   forall chain categories entry,
     In (chain, categories) (recommender.hotel_data self) -> In entry categories ->
     available_points < recommender.points (snd entry)) /\
  result = recommender.get_hotel_options self destination available_points other.
Proof.
  cbv zeta. unfold recommender.get_hotel_options.
  set (found := flat_map _ (recommender.hotel_data self)).
  assert (Hfound : forall x, In x found <->
            exists chain categories entry,
              In (chain, categories) (recommender.hotel_data self) /\ In entry categories /\
              recommender.hotel_option self destination available_points chain entry
              = Some x).
  { intros x. unfold found. rewrite in_flat_map. split.
    - intros ([chain cats] & Hc & H). apply In_omap in H. destruct H as (entry & He & H).
      now exists chain, cats, entry.
    - intros (chain & cats & entry & Hc & He & H). exists (chain, cats).
      split; [exact Hc|]. apply In_omap. now exists entry. }
  pose proof (sort_by_reverse_sorted recommender.point_value found) as Hsorted.
  pose proof (sort_by_reverse_Permutation recommender.point_value found) as Hperm.
  clearbody found.
  split; [apply firstn_le_length|].
  split; [now apply sorted_firstn|].
  split.
  { intros x Hx. apply firstn_In in Hx. apply (Permutation_in _ Hperm), Hfound in Hx.
    destruct Hx as (chain & cats & [category cell] & Hc & He & H).
    exists chain, cats, category, cell.
    unfold recommender.hotel_option in H.
    destruct (recommender.points cell <=? available_points) eqn:E; [|discriminate H].
    injection H as <-. apply Z.leb_le in E. now repeat split. }
  split.
  { intros chain cats entry x Hc He H.
    apply (sorted_firstn_or _ _ Hsorted 5 x).
    apply (Permutation_in _ (Permutation_sym Hperm)), Hfound.
    now exists chain, cats, entry. }
  split; [|reflexivity].
  split.
  - intros Hnil chain cats [category cell] Hc He. cbn [snd].
    destruct (Z_lt_le_dec available_points (recommender.points cell)) as [Hlt|Hle];
      [exact Hlt|]. exfalso.
    assert (Hin : In {| recommender.type := "hotel";
                        recommender.detail := recommender.Hotel chain category destination;
                        recommender.cost := recommender.points cell;
                        recommender.cash_equivalent :=
                          inject_Z (recommender.cash_value cell);
                        recommender.fees := 0;
                        recommender.value_per_mile := None;
                        recommender.value_per_point :=
                          calculator.c_value_per_point
                            (calculator.calculate_hotel_value (recommender.calculator self)
                               (recommender.points cell)
                               (inject_Z (recommender.cash_value cell)) 0);
                        recommender.savings_vs_cash :=
                          calculator.c_savings_vs_cash
                            (calculator.calculate_hotel_value (recommender.calculator self)
                               (recommender.points cell)
                               (inject_Z (recommender.cash_value cell)) 0);
                        recommender.is_affordable := true |} found).
    { apply Hfound. exists chain, cats, (category, cell).
      split; [exact Hc|]. split; [exact He|].
      unfold recommender.hotel_option. apply Z.leb_le in Hle. now rewrite Hle. }
    apply (Permutation_in _ (Permutation_sym Hperm)) in Hin.
    destruct (pylist.sort_by_reverse recommender.point_value found) as [|y l];
      [exact Hin | discriminate Hnil].
  - intros Hall.
    destruct found as [|x l]; [reflexivity|]. exfalso.
    assert (Hx : In x (x :: l)) by now left.
    apply Hfound in Hx.
    destruct Hx as (chain & cats & entry & Hc & He & H).
    specialize (Hall chain cats entry Hc He).
    apply hotel_option_Some in H. destruct H as (_ & Hcost & Hle & _). lia.
Qed.

Lemma get_hotel_options_top_five_witness :
  let self := recommender.init {| amadeus_client.client := None |} in
  let hilton :=
    {| recommender.type := "hotel";
       recommender.detail := recommender.Hotel "hilton" "category_1" "LAX";
       recommender.cost := 10000;
       recommender.cash_equivalent := inject_Z 60;
       recommender.fees := 0;
       recommender.value_per_mile := None;
       recommender.value_per_point :=
         calculator.c_value_per_point
           (calculator.calculate_hotel_value calculator.init 10000 (inject_Z 60) 0);
       recommender.savings_vs_cash :=
         calculator.c_savings_vs_cash
           (calculator.calculate_hotel_value calculator.init 10000 (inject_Z 60) 0);
       recommender.is_affordable := true |} in
  let result :=
    recommender.get_hotel_options self "LAX" 20000 recommender.default_preferences in
  In hilton result \/
  (length result = 5%nat /\
   forall y, In y result -> (recommender.point_value hilton <= recommender.point_value y)%Q).
Proof.
  cbv zeta.
  pose proof (get_hotel_options_top_five
                (recommender.init {| amadeus_client.client := None |}) "LAX" 20000
                recommender.default_preferences recommender.default_preferences) as H.
  cbv zeta in H. destruct H as (_ & _ & _ & H & _).
  eapply (H "hilton" _ ("category_1", {| recommender.points := 10000;
                                         recommender.cash_value := 60 |})).
  - right. left. reflexivity.
  - left. reflexivity.
  - reflexivity.
Defined.

Lemma omap_types {A} (f : A -> option recommender.Option) (kind : string) (l : list A) :
  (forall a x, f a = Some x -> recommender.type x = kind) ->
  map recommender.type (omap f l) = repeat kind (length (omap f l)).
Proof.
  intros Hf. induction l as [|a l IH]; [reflexivity|].
  cbn [omap list_omap]. destruct (f a) as [x|] eqn:E; [|exact IH].
  cbn [map length repeat]. now rewrite (Hf a x E), IH.
Qed.

(** [get_alternative_redemptions] lists the affordable gift cards, in
    table order, before the statement credits; every option is free of
    fees and within the available points.  A statement credit always
    costs 10000 points, whatever its program: below 10000 points none is
    offered, from 10000 points on there is one for every program, with a
    cash equivalent of a hundred times the program's rate. *)
Theorem get_alternative_redemptions_spec (self : recommender.RedemptionRecommender)
    (available_points : Z) :
  let result := recommender.get_alternative_redemptions self available_points in
  let credits :=
    List.filter (fun x => String.eqb (recommender.type x) "statement_credit") result in
  (exists cards : nat,
     map recommender.type result
     = (repeat "giftcard" cards ++ repeat "statement_credit" (length credits))%list) /\
  List.Forall
    (fun x => recommender.cost x <= available_points /\ recommender.fees x = 0%Q) result /\
  (available_points < 10000 -> credits = []) /\
  (10000 <= available_points ->
   map recommender.detail credits
   = map (fun entry => recommender.StatementCredit (fst entry))
       (recommender.statement_credits (recommender.alternative_data self)) /\
   map recommender.value_per_point credits
   = map (fun entry => Some (snd entry))
       (recommender.statement_credits (recommender.alternative_data self)) /\
   List.Forall
     (fun x =>
        recommender.cost x = 10000 /\
        (recommender.cash_equivalent x == 100 * recommender.point_value x)%Q)
     credits).
Proof.
  cbv zeta. unfold recommender.get_alternative_redemptions.
  set (cards := omap _ (recommender.gift_cards _)).
  set (programs := recommender.statement_credits _).
  assert (Hcards : List.filter
                     (fun x => String.eqb (recommender.type x) "statement_credit") cards
                   = []).
  { unfold cards.
    induction (recommender.gift_cards (recommender.alternative_data self)) as [|e l IH];
      [reflexivity|].
    cbn [omap list_omap].
    destruct (recommender.giftcard_option self available_points e) as [x|] eqn:E;
      [|exact IH].
    apply giftcard_option_Some in E. destruct E as (E & _).
    cbn [List.filter]. now rewrite E, IH. }
  assert (Hcredits : forall l,
            List.filter (fun x => String.eqb (recommender.type x) "statement_credit")
              (omap (recommender.statement_credit_option available_points) l)
            = omap (recommender.statement_credit_option available_points) l).
  { induction l as [|e l IH]; [reflexivity|]. cbn [omap list_omap].
    destruct (recommender.statement_credit_option available_points e) as [x|] eqn:E;
      [|exact IH].
    apply statement_credit_option_Some in E. destruct E as (E & _).
    cbn [List.filter]. now rewrite E, IH. }
  rewrite List.filter_app, Hcards, Hcredits. cbn [app].
  split.
  { exists (length cards). rewrite map_app. f_equal.
    - apply omap_types. intros a x H. now apply giftcard_option_Some in H.
    - apply omap_types. intros a x H. now apply statement_credit_option_Some in H. }
  split.
  { apply List.Forall_forall. intros x Hx. apply in_app_or in Hx.
    destruct Hx as [Hx|Hx]; apply In_omap in Hx; destruct Hx as (e & _ & Hx).
    - apply giftcard_option_Some in Hx. tauto.
    - apply statement_credit_option_Some in Hx. tauto. }
  split.
  { intros Hlow. apply omap_none. intros [program rate] _.
    unfold recommender.statement_credit_option. apply Z.leb_gt in Hlow. now rewrite Hlow. }
  intros Hhigh. apply Z.leb_le in Hhigh.
  induction programs as [|[program rate] l IH]; [repeat split; constructor|].
  destruct IH as (H1 & H2 & H3).
  cbn [omap list_omap].
  destruct (recommender.statement_credit_option available_points (program, rate))
    as [x|] eqn:E;
    [|unfold recommender.statement_credit_option in E; rewrite Hhigh in E; discriminate E].
  unfold recommender.statement_credit_option in E. rewrite Hhigh in E. injection E as <-.
  cbn [map recommender.detail recommender.value_per_point fst snd].
  rewrite H1, H2. repeat split. constructor; [|exact H3].
  split; [reflexivity|]. cbn. field.
Qed.

Lemma get_alternative_redemptions_spec_witness :
  let self := recommender.init {| amadeus_client.client := None |} in
  List.filter (fun x => String.eqb (recommender.type x) "statement_credit")
    (recommender.get_alternative_redemptions self 9999) = [] /\
  map recommender.value_per_point
    (List.filter (fun x => String.eqb (recommender.type x) "statement_credit")
       (recommender.get_alternative_redemptions self 10000))
  = map (fun entry => Some (snd entry))
      (recommender.statement_credits (recommender.alternative_data self)).
Proof.
  cbv zeta. split.
  - apply (get_alternative_redemptions_spec
             (recommender.init {| amadeus_client.client := None |}) 9999). reflexivity.
  - apply (get_alternative_redemptions_spec
             (recommender.init {| amadeus_client.client := None |}) 10000). discriminate.
Defined.

Lemma is_worthwhile_spec_witness :
  route_optimizer.is_worthwhile (route_optimizer.calculate_synthetic_savings 1000 800) = true /\
  (0 < 1000)%Q /\ (800 < 1000)%Q.
Proof.
  split; [reflexivity|].
  apply (is_worthwhile_spec 1000 800). reflexivity.
Defined.

Lemma recommendations_within_budget_witness :
  let res :=
    fst (recommender.generate_recommendations
           (recommender.init {| amadeus_client.client := None |}) "JFK" "LAX"
           {| amadeus_client.year := 2024; amadeus_client.month := 6;
              amadeus_client.day := 15 |} 3500 None 0%nat) in
  exists x,
    recommender.best_overall res = Some x /\ In x (recommender.recommendations res).
Proof.
  cbv zeta. eexists. split.
  - vm_compute. reflexivity.
  - apply (recommendations_within_budget
             (recommender.init {| amadeus_client.client := None |}) "JFK" "LAX"
             {| amadeus_client.year := 2024; amadeus_client.month := 6;
                amadeus_client.day := 15 |} 3500 None 0%nat).
    vm_compute. reflexivity.
Defined.
